(** * Merchant registry back office: request handlers of the acquirer backend

    A shallow embedding of the Express request handlers of
    [packages/acquirer-backend/src/routes] and of the slice of the relational
    store they read and write, followed by the properties of the
    specification that concern them.

    Conventions of the embedding.
    - A table is the list of its rows, in insertion order.  Queries are
      functions of the database state and do not fail.  The operations the
      handlers guard, [save] and the bulk [update], may throw, which is
      decided by a script of faults carried by the world, one entry per such
      operation, in program order.
    - An entity object held by a handler differs from a table row: relations
      are present only when they were loaded or assigned, and the properties
      of a related user may be partial.  Absent properties are [None].
    - [Number(x)] applied to a path parameter, a querystring field or an
      element of an id array is represented by its result, a [JsNumber].
    - A handler is a computation in the monad [M]; an exception that leaves
      the handler is the outcome [Throw]. *)

From Stdlib Require Import ZArith List String Ascii Bool Lia Sorted Permutation.
Import ListNotations.

Open Scope string_scope.
Open Scope Z_scope.
Open Scope list_scope.

(** ** JavaScript values used by the handlers *)

Inductive JsNumber : Type :=
| NaN
| Num (n : Z).

Definition isNaN (x : JsNumber) : bool :=
  match x with
  | NaN => true
  | Num _ => false
  end.

(** [x > 0] and [x < 1] on numbers; every comparison with [NaN] is false. *)
Definition js_gt0 (x : JsNumber) : bool :=
  match x with
  | NaN => false
  | Num n => 0 <? n
  end.

Definition js_lt1 (x : JsNumber) : bool :=
  match x with
  | NaN => false
  | Num n => n <? 1
  end.

Definition JsNumber_eqb (x y : JsNumber) : bool :=
  match x, y with
  | Num a, Num b => a =? b
  | _, _ => false
  end.

Definition option_eqb {A} (eqb : A -> A -> bool) (x y : option A) : bool :=
  match x, y with
  | Some a, Some b => eqb a b
  | None, None => true
  | _, _ => false
  end.

(** [x === y] on values that are a string or [undefined]. *)
Definition strict_eq (x y : option string) : bool := option_eqb String.eqb x y.

(** *** String functions of the runtime *)

Fixpoint is_prefix (p s : string) : bool :=
  match p with
  | EmptyString => true
  | String a p' =>
      match s with
      | EmptyString => false
      | String b s' => Ascii.eqb a b && is_prefix p' s'
      end
  end.

Fixpoint drop (n : nat) (s : string) : string :=
  match n with
  | O => s
  | S n' =>
      match s with
      | EmptyString => EmptyString
      | String _ s' => drop n' s'
      end
  end.

(** [s.replace(pat, '')]: the first occurrence of [pat] is removed. *)
Fixpoint replace_first (pat s : string) : string :=
  if is_prefix pat s then drop (String.length pat) s
  else
    match s with
    | EmptyString => EmptyString
    | String c s' => String c (replace_first pat s')
    end.

(** White space of [String.prototype.trim].  A character of a string is a
    code unit below 256: of the white space and line terminators of
    ECMAScript these are U+0009 to U+000D, U+0020 and U+00A0. *)
Definition is_space (c : ascii) : bool :=
  let n := nat_of_ascii c in
  (Nat.eqb n 32 || (Nat.leb 9 n && Nat.leb n 13) || Nat.eqb n 160)%bool.

Fixpoint trim_start (s : string) : string :=
  match s with
  | EmptyString => EmptyString
  | String c s' => if is_space c then trim_start s' else s
  end.

Fixpoint trim_end (s : string) : string :=
  match s with
  | EmptyString => EmptyString
  | String c s' =>
      match trim_end s' with
      | EmptyString => if is_space c then EmptyString else String c EmptyString
      | t => String c t
      end
  end.

Definition trim (s : string) : string := trim_end (trim_start s).

(** ** The registration status enum *)

(** Modelled from the spec: the declaration of the enum
    [MerchantRegistrationStatus] of the package [shared-lib], which is not
    among the sources.  Its members are the five workflow states of the
    glossary, with the string values the OpenAPI description of
    [GET /merchants] lists. *)
Module MerchantRegistrationStatus.
Definition DRAFT : string := "Draft".
Definition REVIEW : string := "Review".
Definition WAITINGALIASGENERATION : string := "WaitingAliasGeneration".
Definition APPROVED : string := "Approved".
Definition REJECTED : string := "Rejected".
Definition values : list string :=
    [DRAFT; REVIEW; WAITINGALIASGENERATION; APPROVED; REJECTED].
End MerchantRegistrationStatus.

(** Modelled from the spec: [MerchantAllowBlockStatus.PENDING] of
    [shared-lib]. *)
Module MerchantAllowBlockStatus.
Definition PENDING : string := "Pending".
End MerchantAllowBlockStatus.

Definition mem_string (s : string) (l : list string) : bool :=
  existsb (String.eqb s) l.

(** [z.nativeEnum(MerchantRegistrationStatus).parse(x)] succeeds exactly on
    the values of the enum. *)
Definition nativeEnum_parse (x : string) : bool :=
  mem_string x MerchantRegistrationStatus.values.

(** The workflow order [Draft -> Review -> WaitingAliasGeneration ->
    Approved/Rejected] of the specification. *)
Definition successor (old new : string) : bool :=
  (String.eqb old MerchantRegistrationStatus.DRAFT
   && String.eqb new MerchantRegistrationStatus.REVIEW)
  || (String.eqb old MerchantRegistrationStatus.REVIEW
      && String.eqb new MerchantRegistrationStatus.WAITINGALIASGENERATION)
  || (String.eqb old MerchantRegistrationStatus.WAITINGALIASGENERATION
      && (String.eqb new MerchantRegistrationStatus.APPROVED
          || String.eqb new MerchantRegistrationStatus.REJECTED)).

(** ** Entities

    For every table there is the type of its rows and the type of the entity
    objects the handlers hold.  Columns that no handler reads or writes are
    left out. *)

(** A row of [portal_users]; also the value [getAuthenticatedPortalUser] and
    [findOne(PortalUserEntity, ...)] return. *)
Module PortalUserRow.
Record t : Type := mk {
    id : Z;
    name : string;
    email : string;
    phone_number : string;
    password : string;
    created_at : Z;
    updated_at : Z
  }.
End PortalUserRow.

(** A user object reached through a relation of a merchant: apart from the
    primary key, a property is present only if it was selected and not
    deleted. *)
Module PortalUserEntity.
Record t : Type := mk {
    id : Z;
    name : option string;
    email : option string;
    phone_number : option string;
    password : option string;
    created_at : option Z;
    updated_at : option Z
  }.

Definition of_row (u : PortalUserRow.t) : t :=
    {| id := PortalUserRow.id u;
       name := Some (PortalUserRow.name u);
       email := Some (PortalUserRow.email u);
       phone_number := Some (PortalUserRow.phone_number u);
       password := Some (PortalUserRow.password u);
       created_at := Some (PortalUserRow.created_at u);
       updated_at := Some (PortalUserRow.updated_at u) |}.
End PortalUserEntity.

Module CheckoutCounterRow.
Record t : Type := mk {
    id : Z;
    description : string;
    alias_value : string;
    merchant : option Z
  }.
End CheckoutCounterRow.

Module CheckoutCounterEntity.
Record t : Type := mk {
    id : option Z;
    description : option string;
    alias_value : option string;
    merchant : option Z
  }.

  (** [new CheckoutCounterEntity()] *)
Definition new : t :=
    {| id := None; description := None; alias_value := None; merchant := None |}.

Definition set_alias_value (a : option string) (c : t) : t :=
    {| id := id c; description := description c; alias_value := a;
       merchant := merchant c |}.

Definition set_merchant (m : option Z) (c : t) : t :=
    {| id := id c; description := description c; alias_value := alias_value c;
       merchant := m |}.

Definition set_id (i : Z) (c : t) : t :=
    {| id := Some i; description := description c;
       alias_value := alias_value c; merchant := merchant c |}.

  (** The object of a row reached through [merchant.checkout_counters]: the
      inverse relation is not loaded. *)
Definition of_row (r : CheckoutCounterRow.t) : t :=
    {| id := Some (CheckoutCounterRow.id r);
       description := Some (CheckoutCounterRow.description r);
       alias_value := Some (CheckoutCounterRow.alias_value r);
       merchant := None |}.
End CheckoutCounterEntity.

Module BusinessLicenseRow.
Record t : Type := mk {
    id : Z;
    license_number : option string;
    license_document_link : option string;
    merchant : option Z
  }.
End BusinessLicenseRow.

(** What a license object holds of the merchant assigned to its [merchant]
    property: the primary key and the creator object. *)
Record MerchantRef : Type := mkMerchantRef {
  ref_id : option Z;
  ref_created_by : option PortalUserEntity.t
}.

Module BusinessLicenseEntity.
Record t : Type := mk {
  id : option Z;
  license_number : option string;
  license_document_link : option string;
  merchant : option MerchantRef
}.

Definition new : t :=
  {| id := None; license_number := None; license_document_link := None;
     merchant := None |}.

Definition of_row (r : BusinessLicenseRow.t) : t :=
  {| id := Some (BusinessLicenseRow.id r);
     license_number := BusinessLicenseRow.license_number r;
     license_document_link := BusinessLicenseRow.license_document_link r;
     merchant := None |}.

Definition merchant_fk (l : t) : option Z :=
  match merchant l with
  | Some m => ref_id m
  | None => None
  end.

(** [const { merchant, ...licenseData } = license] *)
Definition without_merchant (l : t) : t :=
  {| id := id l; license_number := license_number l;
     license_document_link := license_document_link l; merchant := None |}.
End BusinessLicenseEntity.

(** The scalar columns of [merchants] that the handlers assign. *)
Module MerchantColumns.
Record t : Type := mk {
    dba_trading_name : string;
    registered_name : string;
    employees_num : string;
    monthly_turnover : string;
    currency_code : string;
    category_code : string;
    merchant_type : string;
    registration_status : string;
    registration_status_reason : string;
    allow_block_status : string
  }.

Definition set_status (status reason : string) (c : t) : t :=
    {| dba_trading_name := dba_trading_name c;
       registered_name := registered_name c;
       employees_num := employees_num c;
       monthly_turnover := monthly_turnover c;
       currency_code := currency_code c;
       category_code := category_code c;
       merchant_type := merchant_type c;
       registration_status := status;
       registration_status_reason := reason;
       allow_block_status := allow_block_status c |}.
End MerchantColumns.

Module MerchantRow.
Record t : Type := mk {
    id : Z;
    columns : MerchantColumns.t;
    created_by : option Z;
    checked_by : option Z;
    created_at : Z;
    updated_at : Z
  }.

Definition registration_status (r : t) : string :=
    MerchantColumns.registration_status (columns r).
Definition dba_trading_name (r : t) : string :=
    MerchantColumns.dba_trading_name (columns r).
End MerchantRow.

Module MerchantEntity.
Record t : Type := mk {
    id : option Z;
    columns : MerchantColumns.t;
    created_by : option PortalUserEntity.t;
    checked_by : option PortalUserEntity.t;
    checkout_counters : option (list CheckoutCounterEntity.t);
    business_licenses : option (list BusinessLicenseEntity.t);
    created_at : option Z;
    updated_at : option Z
  }.

Definition registration_status (m : t) : string :=
    MerchantColumns.registration_status (columns m).

Definition set_columns (c : MerchantColumns.t) (m : t) : t :=
    {| id := id m; columns := c; created_by := created_by m;
       checked_by := checked_by m; checkout_counters := checkout_counters m;
       business_licenses := business_licenses m;
       created_at := created_at m; updated_at := updated_at m |}.

Definition set_created_by (u : option PortalUserEntity.t) (m : t) : t :=
    {| id := id m; columns := columns m; created_by := u;
       checked_by := checked_by m; checkout_counters := checkout_counters m;
       business_licenses := business_licenses m;
       created_at := created_at m; updated_at := updated_at m |}.

Definition set_checked_by (u : option PortalUserEntity.t) (m : t) : t :=
    {| id := id m; columns := columns m; created_by := created_by m;
       checked_by := u; checkout_counters := checkout_counters m;
       business_licenses := business_licenses m;
       created_at := created_at m; updated_at := updated_at m |}.

Definition set_checkout_counters
      (l : option (list CheckoutCounterEntity.t)) (m : t) : t :=
    {| id := id m; columns := columns m; created_by := created_by m;
       checked_by := checked_by m; checkout_counters := l;
       business_licenses := business_licenses m;
       created_at := created_at m; updated_at := updated_at m |}.

Definition set_business_licenses
      (l : option (list BusinessLicenseEntity.t)) (m : t) : t :=
    {| id := id m; columns := columns m; created_by := created_by m;
       checked_by := checked_by m; checkout_counters := checkout_counters m;
       business_licenses := l;
       created_at := created_at m; updated_at := updated_at m |}.
End MerchantEntity.

(** ** The database and the world *)

(** The tables, and the AUTO_INCREMENT counters of the two tables into which
    the handlers insert rows with a generated key. *)
Record DB : Type := mkDB {
  portal_users : list PortalUserRow.t;
  merchants : list MerchantRow.t;
  checkout_counters : list CheckoutCounterRow.t;
  business_licenses : list BusinessLicenseRow.t;
  merchants_auto_increment : Z;
  business_licenses_auto_increment : Z
}.

(** What a rejected promise carries: the handlers tell [QueryFailedError]
    from everything else. *)
Inductive Exn : Type :=
| QueryFailedError (message : string)
| TypeError (message : string)
| Error (message : string).

Definition exn_message (e : Exn) : string :=
  match e with
  | QueryFailedError m => m
  | TypeError m => m
  | Error m => m
  end.

(** One call of [audit]: action type, transaction status, source and
    message (messages built from a template are shortened to their fixed
    text). *)
Record AuditEntry : Type := mkAudit {
  action_type : string;
  transaction_status : string;
  audit_source : string;
  audit_message : string
}.

(** [faults] scripts the write operations to come: [None] lets the next one
    through, [Some e] makes it throw [e]; past the end of the script every
    write succeeds.  [now] is the clock of the database. *)
Record World : Type := mkWorld {
  db : DB;
  audit_log : list AuditEntry;
  faults : list (option Exn);
  now : Z
}.

(** ** The handler monad: state and exceptions *)

Inductive Res (A : Type) : Type :=
| Ok (a : A)
| Throw (e : Exn).
Arguments Ok {A} a.
Arguments Throw {A} e.

Definition M (A : Type) : Type := World -> Res A * World.

Definition ret {A} (a : A) : M A := fun w => (Ok a, w).

Definition throw {A} (e : Exn) : M A := fun w => (Throw e, w).

Definition bind {A B} (m : M A) (f : A -> M B) : M B :=
  fun w =>
    match m w with
    | (Ok a, w') => f a w'
    | (Throw e, w') => (Throw e, w')
    end.

(** [try { m } catch (e) { ... }]: the outcome of [m] as a value; what [m]
    did to the world before throwing stays done. *)
Definition attempt {A} (m : M A) : M (Res A) :=
  fun w => let (r, w') := m w in (Ok r, w').

Declare Scope handler_scope.
Delimit Scope handler_scope with handler.
Notation "x <- m ;; k" := (bind m (fun x => k))
  (at level 61, m at next level, right associativity) : handler_scope.
Notation "m ;;; k" := (bind m (fun _ => k))
  (at level 61, right associativity) : handler_scope.
Open Scope handler_scope.

Definition get_db : M DB := fun w => (Ok (db w), w).

(** A write operation: consumes one entry of the fault script. *)
Definition db_write {A} (op : Z -> DB -> A * DB) : M A :=
  fun w =>
    let run fs :=
      let (a, d) := op (now w) (db w) in
      (Ok a, mkWorld d (audit_log w) fs (now w)) in
    match faults w with
    | [] => run []
    | None :: fs => run fs
    | Some e :: fs => (Throw e, mkWorld (db w) (audit_log w) fs (now w))
    end.

(** A write operation that the database refuses with [e], when the script
    does not make it fail before. *)
Definition db_refuse {A} (e : Exn) : M A :=
  fun w =>
    match faults w with
    | [] => (Throw e, mkWorld (db w) (audit_log w) [] (now w))
    | None :: fs => (Throw e, mkWorld (db w) (audit_log w) fs (now w))
    | Some e' :: fs => (Throw e', mkWorld (db w) (audit_log w) fs (now w))
    end.

Definition audit (action status source message : string) : M unit :=
  fun w =>
    (Ok tt,
     mkWorld (db w) (audit_log w ++ [mkAudit action status source message])
       (faults w) (now w)).

(** ** Requests and responses *)

(** The fields of a draft submission ([req.body] of the draft handlers). *)
Record MerchantSubmitData : Type := mkSubmit {
  body_dba_trading_name : string;
  body_registered_name : string;
  body_employees_num : string;
  body_monthly_turnover : string;
  body_currency_code : string;
  body_category_code : string;
  body_merchant_type : string;
  body_payinto_alias : option string;
  body_registration_status : string;
  body_registration_status_reason : string;
  body_license_number : option string;
  body_business_licenses : option (list (option string * option string))
}.

(** An uploaded file ([req.file]), by its name. *)
Definition File : Type := string.

Record Query : Type := mkQuery {
  addedBy : JsNumber;          (* Number(req.query.addedBy) *)
  approvedBy : JsNumber;
  merchantId : JsNumber;
  payintoId : option string;   (* present when typeof is 'string' *)
  registrationStatus : option string;
  dbaName : option string;
  addedTime : option string;
  updatedTime : option string
}.

Record Request : Type := mkRequest {
  authorization : option string;          (* req.headers.authorization *)
  params_id : JsNumber;                   (* Number(req.params.id) *)
  body : MerchantSubmitData;
  body_ids : option (list JsNumber);      (* req.body.ids, when an array *)
  body_email : string;
  body_password : string;
  query : Query;
  file : option File
}.

Inductive Payload : Type :=
| Message (message : string)                 (* { message } *)
| MessageExn (e : Exn)                       (* { message: e } *)
| ErrorText (error : string)                 (* { error } *)
| ErrorExn (e : Exn)                         (* { error: err } *)
| ErrorZod                                   (* { error: <validation issues> } *)
| MessageData (message : string) (data : MerchantEntity.t)
| MessageList (message : string) (data : list MerchantEntity.t)
| LoginSucceeded (mesaage : string) (token : string)
| LoginFailed (message : string).            (* { success: false, message } *)

Record Response : Type := mkResponse {
  status : Z;
  payload : Payload
}.

(** [res.status(code).send(p)], and [res.send(p)] with the default status. *)
Definition send (code : Z) (p : Payload) : M Response := ret (mkResponse code p).
Definition send_ok (p : Payload) : M Response := ret (mkResponse 200 p).

(** ** What the handlers import from outside the sources *)

(** The environment of the process: each variable is a string or unset. *)
Record Env : Type := mkEnv {
  TEST1_DUMMY_AUTH_TOKEN : option string;
  TEST1_EMAIL : option string;
  TEST2_DUMMY_AUTH_TOKEN : option string;
  TEST2_EMAIL : option string;
  JWT_SECRET : string
}.

(** Functions of the middleware, of the schema module and of libraries, whose
    code is not among the sources; the handlers are stated over any
    implementation of them. *)
Class Platform : Type := {
  (* process.env *)
  process_env : Env;
  (* middleware/authenticate *)
  getAuthenticatedPortalUser : option string -> DB -> option PortalUserRow.t;
  (* routes/schemas: whether MerchantSubmitDataSchema.parse accepts *)
  MerchantSubmitDataSchema : MerchantSubmitData -> bool;
  (* zod: z.string().email() *)
  is_email : string -> bool;
  (* bcrypt.compare(password, hash) *)
  bcrypt_compare : string -> string -> bool;
  (* jwt.sign({ id, email }, secret, { expiresIn: '1h' }) *)
  jwt_sign : Z -> string -> string -> string;
  (* middleware/minioClient: the document path, or null *)
  uploadMerchantDocument : MerchantEntity.t -> option string -> File -> option string;
  (* utils/isValidDate (new Date(s)): the instant, when the date is valid *)
  parse_date : string -> option Z;
  (* Date.prototype.setHours(0, 0, 0, 0) and (23, 59, 59, 999) *)
  startOfDay : Z -> Z;
  endOfDay : Z -> Z;
  (* the database: whether [value LIKE pattern] holds, under the collation of
     the column *)
  LIKE : string -> string -> bool;
  (* the database driver: the message of the error for an INSERT that gives
     no value to a column without default *)
  no_default_value : string -> string
}.

(** ** The object-relational layer

    The operations of the repositories and of the entity manager that the
    handlers call, on the database state.  [save] and the bulk [update] are
    write operations in the sense of [db_write]; queries and deletions do not
    throw, except that a deletion without criteria is refused. *)

Definition find_user_by_id (i : Z) (d : DB) : option PortalUserRow.t :=
  find (fun u => PortalUserRow.id u =? i) (portal_users d).

(** [findOne(PortalUserEntity, { where: { email } })]: a condition whose
    value is [undefined] is dropped, which leaves the first row. *)
Definition find_user_by_email (e : option string) (d : DB)
  : option PortalUserRow.t :=
  match e with
  | Some e => find (fun u => String.eqb (PortalUserRow.email u) e) (portal_users d)
  | None => hd_error (portal_users d)
  end.

Definition find_merchant_row (i : Z) (d : DB) : option MerchantRow.t :=
  find (fun r => MerchantRow.id r =? i) (merchants d).

(** [findOne(CheckoutCounterEntity, { where: { alias_value } })] *)
Definition find_counter_by_alias (a : string) (d : DB)
  : option CheckoutCounterRow.t :=
  find (fun c => String.eqb (CheckoutCounterRow.alias_value c) a)
    (checkout_counters d).

(** [exists(CheckoutCounterEntity, { where: { alias_value: alias } })] *)
Definition exists_counter_with_alias (a : option string) (d : DB) : bool :=
  match a with
  | Some a =>
      existsb (fun c => String.eqb (CheckoutCounterRow.alias_value c) a)
        (checkout_counters d)
  | None => match checkout_counters d with [] => false | _ :: _ => true end
  end.

Definition fk_is (fk : option Z) (i : Z) : bool := option_eqb Z.eqb fk (Some i).

Definition counters_of (mid : Z) (d : DB) : list CheckoutCounterRow.t :=
  filter (fun c => fk_is (CheckoutCounterRow.merchant c) mid) (checkout_counters d).

Definition licenses_of (mid : Z) (d : DB) : list BusinessLicenseRow.t :=
  filter (fun l => fk_is (BusinessLicenseRow.merchant l) mid) (business_licenses d).

Definition load_user (fk : option Z) (d : DB) : option PortalUserEntity.t :=
  match fk with
  | Some i => option_map PortalUserEntity.of_row (find_user_by_id i d)
  | None => None
  end.

(** The [relations] option of [findOne]. *)
Record Relations : Type := mkRelations {
  with_created_by : bool;
  with_checked_by : bool;
  with_checkout_counters : bool;
  with_business_licenses : bool
}.

Definition load_merchant (rels : Relations) (d : DB) (r : MerchantRow.t)
  : MerchantEntity.t :=
  {| MerchantEntity.id := Some (MerchantRow.id r);
     MerchantEntity.columns := MerchantRow.columns r;
     MerchantEntity.created_by :=
       if with_created_by rels then load_user (MerchantRow.created_by r) d
       else None;
     MerchantEntity.checked_by :=
       if with_checked_by rels then load_user (MerchantRow.checked_by r) d
       else None;
     MerchantEntity.checkout_counters :=
       if with_checkout_counters rels
       then Some (map CheckoutCounterEntity.of_row (counters_of (MerchantRow.id r) d))
       else None;
     MerchantEntity.business_licenses :=
       if with_business_licenses rels
       then Some (map BusinessLicenseEntity.of_row (licenses_of (MerchantRow.id r) d))
       else None;
     MerchantEntity.created_at := Some (MerchantRow.created_at r);
     MerchantEntity.updated_at := Some (MerchantRow.updated_at r) |}.

(** [merchantRepository.findOne({ where: { id }, relations })] *)
Definition findOne_merchant (rels : Relations) (id : JsNumber) (d : DB)
  : option MerchantEntity.t :=
  match id with
  | Num n => option_map (load_merchant rels d) (find_merchant_row n d)
  | NaN => None
  end.

(** The key an INSERT draws from the AUTO_INCREMENT counter [counter] of a
    table whose keys are [ids]: the value of the counter, which the engine
    keeps above every key of the table. *)
Definition next_id (counter : Z) (ids : list Z) : Z :=
  Z.max counter (1 + fold_right Z.max 0 ids).

Definition or_else {A} (x : option A) (d : A) : A :=
  match x with Some a => a | None => d end.

Definition or_keep {A} (x old : option A) : option A :=
  match x with Some a => Some a | None => old end.

(** *** Writes *)

Definition set_checkout_counters (l : list CheckoutCounterRow.t) (d : DB) : DB :=
  mkDB (portal_users d) (merchants d) l (business_licenses d)
    (merchants_auto_increment d) (business_licenses_auto_increment d).

Definition set_business_licenses (l : list BusinessLicenseRow.t) (d : DB) : DB :=
  mkDB (portal_users d) (merchants d) (checkout_counters d) l
    (merchants_auto_increment d) (business_licenses_auto_increment d).

Definition set_merchants (l : list MerchantRow.t) (d : DB) : DB :=
  mkDB (portal_users d) l (checkout_counters d) (business_licenses d)
    (merchants_auto_increment d) (business_licenses_auto_increment d).

(** [save] of a checkout counter that has the primary key [i]: its row is
    updated; properties that are [undefined] are left alone. *)
Definition store_counter (i : Z) (c : CheckoutCounterEntity.t) (d : DB)
  : CheckoutCounterEntity.t * DB :=
  (c, set_checkout_counters
        (map (fun r =>
                if CheckoutCounterRow.id r =? i then
                  CheckoutCounterRow.mk i
                    (or_else (CheckoutCounterEntity.description c)
                       (CheckoutCounterRow.description r))
                    (or_else (CheckoutCounterEntity.alias_value c)
                       (CheckoutCounterRow.alias_value r))
                    (or_keep (CheckoutCounterEntity.merchant c)
                       (CheckoutCounterRow.merchant r))
                else r) (checkout_counters d)) d).

(** [AppDataSource.manager.save(checkoutCounter)].  An object without primary
    key is inserted.  [CheckoutCounterEntity] declares [description] and
    [merchant_registry_id] with [nullable: false] and no default, and no
    handler assigns [merchant_registry_id]: the INSERT leaves a column that
    needs a value without one, [description] first when it is not set, and
    the database refuses it. *)
Definition save_counter {platform : Platform} (c : CheckoutCounterEntity.t)
  : M CheckoutCounterEntity.t :=
  match CheckoutCounterEntity.id c with
  | Some i => db_write (fun _ d => store_counter i c d)
  | None =>
      db_refuse
        (QueryFailedError
           (no_default_value
              match CheckoutCounterEntity.description c with
              | None => "description"
              | Some _ => "merchant_registry_id"
              end))
  end.

Definition store_license (l : BusinessLicenseEntity.t) (d : DB)
  : BusinessLicenseEntity.t * DB :=
  let rows := business_licenses d in
  match BusinessLicenseEntity.id l with
  | Some i =>
      (l, set_business_licenses
            (map (fun r =>
                    if BusinessLicenseRow.id r =? i then
                      BusinessLicenseRow.mk i
                        (or_keep (BusinessLicenseEntity.license_number l)
                           (BusinessLicenseRow.license_number r))
                        (or_keep (BusinessLicenseEntity.license_document_link l)
                           (BusinessLicenseRow.license_document_link r))
                        (or_keep (BusinessLicenseEntity.merchant_fk l)
                           (BusinessLicenseRow.merchant r))
                    else r) rows) d)
  | None =>
      let i := next_id (business_licenses_auto_increment d)
                 (map BusinessLicenseRow.id rows) in
      (BusinessLicenseEntity.mk (Some i)
         (BusinessLicenseEntity.license_number l)
         (BusinessLicenseEntity.license_document_link l)
         (BusinessLicenseEntity.merchant l),
       mkDB (portal_users d) (merchants d) (checkout_counters d)
         (rows ++ [BusinessLicenseRow.mk i
                     (BusinessLicenseEntity.license_number l)
                     (BusinessLicenseEntity.license_document_link l)
                     (BusinessLicenseEntity.merchant_fk l)])
         (merchants_auto_increment d) (i + 1))
  end.

Definition save_license (l : BusinessLicenseEntity.t) : M BusinessLicenseEntity.t :=
  db_write (fun _ d => store_license l d).

Definition mem_id (i : Z) (ids : list Z) : bool := existsb (Z.eqb i) ids.

Fixpoint some_ids (l : list (option Z)) : list Z :=
  match l with
  | [] => []
  | Some i :: l' => i :: some_ids l'
  | None :: l' => some_ids l'
  end.

(** Saving a merchant whose one-to-many relation is set makes the listed
    rows point to the merchant and detaches the rows that pointed to it and
    are no longer listed; objects that were never saved are passed over. *)
Definition sync_fk (mid : Z) (listed : list Z) (id : Z) (fk : option Z) : option Z :=
  if mem_id id listed then Some mid
  else if fk_is fk mid then None
  else fk.

Definition sync_counters (mid : Z) (rel : option (list CheckoutCounterEntity.t))
    (rows : list CheckoutCounterRow.t) : list CheckoutCounterRow.t :=
  match rel with
  | None => rows
  | Some l =>
      let listed := some_ids (map CheckoutCounterEntity.id l) in
      map (fun r =>
             CheckoutCounterRow.mk (CheckoutCounterRow.id r)
               (CheckoutCounterRow.description r)
               (CheckoutCounterRow.alias_value r)
               (sync_fk mid listed (CheckoutCounterRow.id r)
                  (CheckoutCounterRow.merchant r))) rows
  end.

Definition sync_licenses (mid : Z) (rel : option (list BusinessLicenseEntity.t))
    (rows : list BusinessLicenseRow.t) : list BusinessLicenseRow.t :=
  match rel with
  | None => rows
  | Some l =>
      let listed := some_ids (map BusinessLicenseEntity.id l) in
      map (fun r =>
             BusinessLicenseRow.mk (BusinessLicenseRow.id r)
               (BusinessLicenseRow.license_number r)
               (BusinessLicenseRow.license_document_link r)
               (sync_fk mid listed (BusinessLicenseRow.id r)
                  (BusinessLicenseRow.merchant r))) rows
  end.

Definition user_fk (u : option PortalUserEntity.t) (old : option Z) : option Z :=
  match u with
  | Some u => Some (PortalUserEntity.id u)
  | None => old
  end.

Definition columns_eqb (a b : MerchantColumns.t) : bool :=
  String.eqb (MerchantColumns.dba_trading_name a) (MerchantColumns.dba_trading_name b)
  && String.eqb (MerchantColumns.registered_name a) (MerchantColumns.registered_name b)
  && String.eqb (MerchantColumns.employees_num a) (MerchantColumns.employees_num b)
  && String.eqb (MerchantColumns.monthly_turnover a) (MerchantColumns.monthly_turnover b)
  && String.eqb (MerchantColumns.currency_code a) (MerchantColumns.currency_code b)
  && String.eqb (MerchantColumns.category_code a) (MerchantColumns.category_code b)
  && String.eqb (MerchantColumns.merchant_type a) (MerchantColumns.merchant_type b)
  && String.eqb (MerchantColumns.registration_status a)
       (MerchantColumns.registration_status b)
  && String.eqb (MerchantColumns.registration_status_reason a)
       (MerchantColumns.registration_status_reason b)
  && String.eqb (MerchantColumns.allow_block_status a)
       (MerchantColumns.allow_block_status b).

(** Whether the object [m] differs from the row [r] it was loaded from in a
    column or in a user it refers to: [save] issues an UPDATE only then. *)
Definition changes_row (m : MerchantEntity.t) (r : MerchantRow.t) : bool :=
  negb (columns_eqb (MerchantEntity.columns m) (MerchantRow.columns r)
        && option_eqb Z.eqb
             (user_fk (MerchantEntity.created_by m) (MerchantRow.created_by r))
             (MerchantRow.created_by r)
        && option_eqb Z.eqb
             (user_fk (MerchantEntity.checked_by m) (MerchantRow.checked_by r))
             (MerchantRow.checked_by r)).

(** [merchantRepository.save(merchant)]: an object whose key is that of a
    row updates the row, and [updated_at] is set when the UPDATE is issued;
    any other object is inserted, with its key or with a generated one. *)
Definition store_merchant (m : MerchantEntity.t) (t : Z) (d : DB)
  : MerchantEntity.t * DB :=
  let rows := merchants d in
  let existing :=
    match MerchantEntity.id m with
    | Some i => find_merchant_row i d
    | None => None
    end in
  let mid :=
    match MerchantEntity.id m with
    | Some i => i
    | None => next_id (merchants_auto_increment d) (map MerchantRow.id rows)
    end in
  let row :=
    match existing with
    | Some r =>
        MerchantRow.mk mid (MerchantEntity.columns m)
          (user_fk (MerchantEntity.created_by m) (MerchantRow.created_by r))
          (user_fk (MerchantEntity.checked_by m) (MerchantRow.checked_by r))
          (MerchantRow.created_at r)
          (if changes_row m r then t else MerchantRow.updated_at r)
    | None =>
        MerchantRow.mk mid (MerchantEntity.columns m)
          (user_fk (MerchantEntity.created_by m) None)
          (user_fk (MerchantEntity.checked_by m) None)
          t t
    end in
  let rows' :=
    match existing with
    | Some _ => map (fun r => if MerchantRow.id r =? mid then row else r) rows
    | None => rows ++ [row]
    end in
  let counter :=
    match existing with
    | Some _ => merchants_auto_increment d
    | None => Z.max (merchants_auto_increment d) (mid + 1)
    end in
  (MerchantEntity.mk (Some mid) (MerchantEntity.columns m)
     (MerchantEntity.created_by m) (MerchantEntity.checked_by m)
     (MerchantEntity.checkout_counters m) (MerchantEntity.business_licenses m)
     (Some (MerchantRow.created_at row)) (Some (MerchantRow.updated_at row)),
   mkDB (portal_users d) rows'
     (sync_counters mid (MerchantEntity.checkout_counters m) (checkout_counters d))
     (sync_licenses mid (MerchantEntity.business_licenses m) (business_licenses d))
     counter (business_licenses_auto_increment d)).

Definition save_merchant (m : MerchantEntity.t) : M MerchantEntity.t :=
  db_write (fun t d => store_merchant m t d).

(** [AppDataSource.manager.delete(CheckoutCounterEntity, id)] *)
Definition delete_counter (id : option Z) : M unit :=
  match id with
  | None => throw (Error "Empty criteria(s) are not allowed for the delete method.")
  | Some i =>
      fun w =>
        (Ok tt,
         mkWorld
           (set_checkout_counters
              (filter (fun c => negb (CheckoutCounterRow.id c =? i))
                 (checkout_counters (db w))) (db w))
           (audit_log w) (faults w) (now w))
  end.

(** [AppDataSource.manager.delete(BusinessLicenseEntity, { merchant })] *)
Definition delete_licenses_of (mid : option Z) : M unit :=
  fun w =>
    (Ok tt,
     mkWorld
       (set_business_licenses
          (filter (fun l =>
                     negb (option_eqb Z.eqb (BusinessLicenseRow.merchant l) mid))
             (business_licenses (db w))) (db w))
       (audit_log w) (faults w) (now w)).

(** ** Handlers *)

Section Handlers.

Context {platform : Platform}.

(** *** Authentication by the fixed test tokens

    The prologue shared by the handlers of [merchant-routes.ts] and by
    [putMerchantDraft]: [None] stands for the response 401; otherwise the
    result is the user found for the address of the token, or [null]. *)
Definition bearer_token (a : option string) : option string :=
  option_map (fun a => trim (replace_first "Bearer" a)) a.

Definition token_portal_user (req : Request) (d : DB)
  : option (option PortalUserRow.t) :=
  let token := bearer_token (authorization req) in
  if strict_eq token (TEST1_DUMMY_AUTH_TOKEN process_env) then
    Some (find_user_by_email (TEST1_EMAIL process_env) d)
  else if strict_eq token (TEST2_DUMMY_AUTH_TOKEN process_env) then
    Some (find_user_by_email (TEST2_EMAIL process_env) d)
  else None.

Definition null_id : Exn :=
  TypeError "Cannot read properties of null (reading 'id')".

(** *** PUT /merchants/:id/approve *)

Definition putWaitingAliasGeneration_try (portalUser : PortalUserRow.t)
    (req : Request) : M Response :=
  let id := params_id req in
  if isNaN id then send 422 (Message "Invalid Merchant ID")
  else
    d <- get_db ;;
    match findOne_merchant (mkRelations true true false false) id d with
    | None => send 404 (Message "Merchant not found")
    | Some merchant =>
        match MerchantEntity.created_by merchant with
        | None => throw null_id
        | Some creator =>
            if PortalUserRow.id portalUser =? PortalUserEntity.id creator then
              send 400 (ErrorText "User is not allowed to change status")
            else if negb (String.eqb (MerchantEntity.registration_status merchant)
                            MerchantRegistrationStatus.REVIEW) then
              send 401 (ErrorText
                "Only Review Merchant can be approved with WaitingAliasGeneration")
            else
              let merchant :=
                MerchantEntity.set_columns
                  (MerchantColumns.set_status
                     MerchantRegistrationStatus.WAITINGALIASGENERATION
                     "Status Updated to WaitingAliasGeneration"
                     (MerchantEntity.columns merchant)) merchant in
              saved <- attempt (save_merchant merchant) ;;
              match saved with
              | Throw (QueryFailedError msg) => send 500 (Message msg)
              | other =>
                  let merchant :=
                    match other with Ok m => m | Throw _ => merchant end in
                  let merchantData := MerchantEntity.set_created_by None merchant in
                  audit "UPDATE" "SUCCESS" "putWaitingAliasGeneration"
                    "Updating Merchant Status to WaitingAliasGeneration Successful" ;;;
                  send 200
                    (MessageData "Status Updated to WaitingAliasGeneration" merchantData)
              end
        end
    end.

Definition putWaitingAliasGeneration (req : Request) : M Response :=
  d <- get_db ;;
  match getAuthenticatedPortalUser (authorization req) d with
  | None => send 401 (Message "Unauthorized")
  | Some portalUser =>
      r <- attempt (putWaitingAliasGeneration_try portalUser req) ;;
      match r with
      | Ok resp => ret resp
      | Throw e => send 500 (MessageExn e)
      end
  end.

(** *** PUT /merchants/:id/registration-status *)

Definition putRegistrationStatus_try (portalUser : option PortalUserRow.t)
    (req : Request) : M Response :=
  let id := params_id req in
  if isNaN id then send 422 (Message "Invalid ID")
  else if negb (nativeEnum_parse (body_registration_status (body req))) then
    send 422 ErrorZod
  else
    d <- get_db ;;
    match findOne_merchant (mkRelations true false false false) id d with
    | None => send 404 (Message "Merchant not found")
    | Some merchant =>
        let refuse :=
          send 401
            (Message "Same Hub User cannot do both Sumitting and Review Checking") in
        match portalUser with
        | None => refuse
        | Some portalUser =>
            match MerchantEntity.created_by merchant with
            | None => throw null_id
            | Some creator =>
                if PortalUserEntity.id creator =? PortalUserRow.id portalUser then refuse
                else
                  let merchant :=
                    MerchantEntity.set_checked_by
                      (Some (PortalUserEntity.of_row portalUser))
                      (MerchantEntity.set_columns
                         (MerchantColumns.set_status
                            (body_registration_status (body req))
                            (body_registration_status_reason (body req))
                            (MerchantEntity.columns merchant)) merchant) in
                  saved <- attempt (save_merchant merchant) ;;
                  match saved with
                  | Throw (QueryFailedError msg) => send 500 (ErrorText msg)
                  | other =>
                      let merchant :=
                        match other with Ok m => m | Throw _ => merchant end in
                      let merchantData :=
                        MerchantEntity.set_checked_by None
                          (MerchantEntity.set_created_by None merchant) in
                      send 200 (MessageData "Status Updated" merchantData)
                  end
            end
        end
    end.

Definition putRegistrationStatus (req : Request) : M Response :=
  d <- get_db ;;
  match token_portal_user req d with
  | None => send 401 (Message "Unauthorized")
  | Some portalUser =>
      r <- attempt (putRegistrationStatus_try portalUser req) ;;
      match r with
      | Ok resp => ret resp
      | Throw e => send 500 (MessageExn e)
      end
  end.

(** *** PUT /merchants/bulk-approve *)

(** [In(ids)] on the primary key. *)
Definition In_ids (ids : list JsNumber) (i : Z) : bool :=
  existsb (JsNumber_eqb (Num i)) ids.

(** [Not(portalUser.id)] on the foreign key [created_by]: as every SQL
    comparison, it is not satisfied by [NULL]. *)
Definition Not_user (uid : Z) (fk : option Z) : bool :=
  match fk with
  | Some c => negb (c =? uid)
  | None => false
  end.

Definition bulk_candidate (ids : list JsNumber) (uid : Z) (r : MerchantRow.t) : bool :=
  In_ids ids (MerchantRow.id r)
  && String.eqb (MerchantRow.registration_status r) MerchantRegistrationStatus.REVIEW
  && Not_user uid (MerchantRow.created_by r).

(** [merchantRepository.count({ where: ... })] *)
Definition count_candidates (ids : list JsNumber) (uid : Z) (d : DB) : nat :=
  List.length (filter (bulk_candidate ids uid) (merchants d)).

Definition bulk_set (uid : Z) (t : Z) (r : MerchantRow.t) : MerchantRow.t :=
  MerchantRow.mk (MerchantRow.id r)
    (MerchantColumns.set_status MerchantRegistrationStatus.WAITINGALIASGENERATION
       "Bulk Updated to Waiting Alias Generation" (MerchantRow.columns r))
    (MerchantRow.created_by r) (Some uid) (MerchantRow.created_at r) t.

(** [createQueryBuilder().update(MerchantEntity).set(...).whereInIds(ids).execute()] *)
Definition bulk_update (ids : list JsNumber) (uid : Z) : M unit :=
  db_write (fun t d =>
    (tt, set_merchants
           (map (fun r => if In_ids ids (MerchantRow.id r) then bulk_set uid t r else r)
              (merchants d)) d)).

Definition quoted (s : string) : string :=
  let q := String (ascii_of_nat 34) EmptyString in (q ++ s ++ q)%string.

Definition invalid_id (id : JsNumber) : bool := isNaN id || js_lt1 id.

Definition putBulkWaitingAliasGeneration (req : Request) : M Response :=
  d <- get_db ;;
  match getAuthenticatedPortalUser (authorization req) d with
  | None => send 401 (Message "Unauthorized")
  | Some portalUser =>
      match body_ids req with
      | None => throw (Error "IDs must be an array of numbers.")
      | Some ids =>
          if existsb invalid_id ids then
            audit "UPDATE" "FAILURE" "putBulkApprove" "ID must be a valid ID number" ;;;
            send 422 (Message "Each ID in the array must be a valid ID number.")
          else
            d <- get_db ;;
            let count := count_candidates ids (PortalUserRow.id portalUser) d in
            if negb (Nat.eqb count (List.length ids)) then
              audit "UPDATE" "FAILURE" "putBulkApprove"
                ("IDs must be valid and have a status of " ++ quoted "Review"
                 ++ ". and not created by you") ;;;
              send 422 (Message
                ("All IDs must be valid and have a status of " ++ quoted "Review"
                 ++ ". and not created by you"))
            else
              r <- attempt
                     (bulk_update ids (PortalUserRow.id portalUser) ;;;
                      audit "UPDATE" "SUCCESS" "putBulkApprove"
                        "Status Updated to Waiting Alias Generation" ;;;
                      send 200 (Message
                        "WAITINGALIASGENERATION Status Updated for multiple merchants")) ;;
              match r with
              | Ok resp => ret resp
              | Throw e =>
                  audit "UPDATE" "FAILURE" "putBulkApprove" "Status Update Failed" ;;;
                  send 500 (MessageExn e)
              end
      end
  end.

(** *** GET /merchants/:id *)

(** The object rebuilt from [id], [name], [email] and [phone_number]. *)
Definition contact_of (u : PortalUserEntity.t) : PortalUserEntity.t :=
  PortalUserEntity.mk (PortalUserEntity.id u) (PortalUserEntity.name u)
    (PortalUserEntity.email u) (PortalUserEntity.phone_number u) None None None.

Definition getMerchantById (req : Request) : M Response :=
  r <- attempt
         (let id := params_id req in
          if isNaN id then send 422 (Message "Invalid ID")
          else
            d <- get_db ;;
            match findOne_merchant (mkRelations true true true true) id d with
            | None => send 404 (Message "Merchant not found")
            | Some merchant =>
                let checkedBy := option_map contact_of (MerchantEntity.checked_by merchant) in
                match MerchantEntity.created_by merchant with
                | None => throw null_id
                | Some creator =>
                    let merchantData :=
                      MerchantEntity.set_checked_by checkedBy
                        (MerchantEntity.set_created_by (Some (contact_of creator)) merchant) in
                    send_ok (MessageData "OK" merchantData)
                end
            end) ;;
  match r with
  | Ok resp => ret resp
  | Throw e => send 500 (MessageExn e)
  end.

(** *** GET /merchants *)

Record WhereClause : Type := mkWhere {
  where_created_by : option Z;
  where_checked_by : option Z;
  where_id : option Z;
  where_registration_status : option string
}.

Definition holds {A} (p : A -> bool) (filter : option A) : bool :=
  match filter with
  | Some a => p a
  | None => true
  end.

Definition satisfies (wc : WhereClause) (r : MerchantRow.t) : bool :=
  holds (fk_is (MerchantRow.created_by r)) (where_created_by wc)
  && holds (fk_is (MerchantRow.checked_by r)) (where_checked_by wc)
  && holds (Z.eqb (MerchantRow.id r)) (where_id wc)
  && holds (String.eqb (MerchantRow.registration_status r)) (where_registration_status wc).

Definition nonempty (s : option string) : option string :=
  match s with
  | Some EmptyString => None
  | other => other
  end.

(** [!isNaN(x) && x > 0], with the number when it holds. *)
Definition valid_id (x : JsNumber) : option Z :=
  if negb (isNaN x) && js_gt0 x then
    match x with
    | Num n => Some n
    | NaN => None
    end
  else None.

Definition user_filter (x : JsNumber) (d : DB) : option Z :=
  match valid_id x with
  | Some n => option_map PortalUserRow.id (find_user_by_id n d)
  | None => None
  end.

(** The [id] entry of the where clause: the merchant of the checkout counter
    with the alias [payintoId] when there is one, after [merchantId]. *)
Definition id_filter (q : Query) (d : DB) : Res (option Z) :=
  let by_id := valid_id (merchantId q) in
  match nonempty (payintoId q) with
  | Some a =>
      match find_counter_by_alias a d with
      | Some c =>
          match CheckoutCounterRow.merchant c with
          | Some mid => Ok (Some mid)
          | None => Throw null_id
          end
      | None => Ok by_id
      end
  | None => Ok by_id
  end.

(** [BETWEEN :start AND :end] over the day of the instant [s] denotes. *)
Definition same_day (s : option string) (t : Z) : bool :=
  match nonempty s with
  | Some s =>
      match parse_date s with
      | Some instant => (startOfDay instant <=? t) && (t <=? endOfDay instant)
      | None => true
      end
  | None => true
  end.

Definition name_matches (n : option string) (r : MerchantRow.t) : bool :=
  match nonempty n with
  | Some n => LIKE (MerchantRow.dba_trading_name r) ("%" ++ n ++ "%")
  | None => true
  end.

Definition selected (wc : WhereClause) (q : Query) (r : MerchantRow.t) : bool :=
  satisfies wc r
  && name_matches (dbaName q) r
  && same_day (addedTime q) (MerchantRow.created_at r)
  && same_day (updatedTime q) (MerchantRow.updated_at r).

(** [orderBy('merchant.created_at', 'DESC')] *)
Fixpoint insert_desc (r : MerchantRow.t) (l : list MerchantRow.t) : list MerchantRow.t :=
  match l with
  | [] => [r]
  | x :: l' =>
      if MerchantRow.created_at x <? MerchantRow.created_at r then r :: x :: l'
      else x :: insert_desc r l'
  end.

Definition order_desc (l : list MerchantRow.t) : list MerchantRow.t :=
  fold_right insert_desc [] l.

(** The columns [addSelect] names for a joined user: [id] and [name]. *)
Definition selected_user (fk : option Z) (d : DB) : option PortalUserEntity.t :=
  match fk with
  | Some i =>
      option_map
        (fun u => PortalUserEntity.mk (PortalUserRow.id u) (Some (PortalUserRow.name u))
                    None None None None None)
        (find_user_by_id i d)
  | None => None
  end.

Definition selected_counter (c : CheckoutCounterRow.t) : CheckoutCounterEntity.t :=
  CheckoutCounterEntity.mk None (Some (CheckoutCounterRow.description c))
    (Some (CheckoutCounterRow.alias_value c)) None.

Definition getMany_row (d : DB) (r : MerchantRow.t) : MerchantEntity.t :=
  MerchantEntity.mk (Some (MerchantRow.id r)) (MerchantRow.columns r)
    (selected_user (MerchantRow.created_by r) d)
    (selected_user (MerchantRow.checked_by r) d)
    (Some (map selected_counter (counters_of (MerchantRow.id r) d)))
    None
    (Some (MerchantRow.created_at r)) (Some (MerchantRow.updated_at r)).

(** [delete u.password; delete u.created_at; delete u.updated_at] *)
Definition delete_private (u : PortalUserEntity.t) : PortalUserEntity.t :=
  PortalUserEntity.mk (PortalUserEntity.id u) (PortalUserEntity.name u)
    (PortalUserEntity.email u) (PortalUserEntity.phone_number u) None None None.

Definition strip_users (m : MerchantEntity.t) : MerchantEntity.t :=
  MerchantEntity.set_checked_by (option_map delete_private (MerchantEntity.checked_by m))
    (MerchantEntity.set_created_by
       (option_map delete_private (MerchantEntity.created_by m)) m).

Definition build_where (q : Query) (d : DB) : Res WhereClause :=
  match id_filter q d with
  | Ok i =>
      Ok (mkWhere (user_filter (addedBy q) d) (user_filter (approvedBy q) d) i
            (nonempty (registrationStatus q)))
  | Throw e => Throw e
  end.

(** The rows the query returns, in order. *)
Definition query_rows (wc : WhereClause) (q : Query) (d : DB) : list MerchantRow.t :=
  order_desc (filter (selected wc q) (merchants d)).

Definition getMerchants (req : Request) : M Response :=
  d <- get_db ;;
  match getAuthenticatedPortalUser (authorization req) d with
  | None => send 401 (Message "Unauthorized")
  | Some portalUser =>
      r <- attempt
             (d <- get_db ;;
              match build_where (query req) d with
              | Throw e => throw e
              | Ok whereClause =>
                  let merchants :=
                    map (getMany_row d) (query_rows whereClause (query req) d) in
                  let merchants := map strip_users merchants in
                  audit "ACCESS" "SUCCESS" "getMerchants" "retrieved merchants" ;;;
                  send_ok (MessageList "OK" merchants)
              end) ;;
      match r with
      | Ok resp => ret resp
      | Throw e =>
          audit "ACCESS" "FAILURE" "getMerchants" (exn_message e) ;;;
          send 500 (MessageExn e)
      end
  end.

(** The handler [router.get('/merchants')] of [merchant-routes.ts]:
    [find({})], no relation loaded. *)
Definition getMerchants_all (req : Request) : M Response :=
  d <- get_db ;;
  send_ok (MessageList "OK"
             (map (load_merchant (mkRelations false false false false) d) (merchants d))).

(** *** POST /users/login *)

Definition LoginFormSchema (req : Request) : bool :=
  is_email (body_email req) && Nat.leb 8 (String.length (body_password req)).

Definition invalid_credentials : Exn := Error "Invalid credentials".

Definition postUserLogin (req : Request) : M Response :=
  if negb (LoginFormSchema req) then send 422 (Message "Invalid credentials")
  else
    r <- attempt
           (d <- get_db ;;
            match find_user_by_email (Some (body_email req)) d with
            | None => throw invalid_credentials
            | Some user =>
                if negb (bcrypt_compare (body_password req) (PortalUserRow.password user))
                then throw invalid_credentials
                else
                  let token :=
                    jwt_sign (PortalUserRow.id user) (PortalUserRow.email user)
                      (JWT_SECRET process_env) in
                  audit "ACCESS" "SUCCESS" "postUserLogin" "User login successful" ;;;
                  send_ok (LoginSucceeded "Login successful" token)
            end) ;;
    match r with
    | Ok resp => ret resp
    | Throw _ =>
        audit "ACCESS" "FAILURE" "postUserLogin" "User login failed" ;;;
        send 400 (LoginFailed "Invalid credentials")
    end.

(** *** POST /merchants/draft *)

(** [alias !== undefined && alias !== null && alias !== ''] *)
Definition given_alias (b : MerchantSubmitData) : option string :=
  nonempty (body_payinto_alias b).

Definition created_columns (b : MerchantSubmitData) : MerchantColumns.t :=
  MerchantColumns.mk (body_dba_trading_name b) (body_registered_name b)
    (body_employees_num b) (body_monthly_turnover b) (body_currency_code b)
    (body_category_code b) (body_merchant_type b) (body_registration_status b)
    (body_registration_status_reason b) MerchantAllowBlockStatus.PENDING.

Definition ref_of (m : MerchantEntity.t) : MerchantRef :=
  mkMerchantRef (MerchantEntity.id m) (MerchantEntity.created_by m).

(** [{ ...merchant, created_by: undefined, business_licenses: ...map(...) }] *)
Definition draft_data (m : MerchantEntity.t) : MerchantEntity.t :=
  MerchantEntity.set_business_licenses
    (option_map (map BusinessLicenseEntity.without_merchant)
       (MerchantEntity.business_licenses m))
    (MerchantEntity.set_created_by None m).

Definition send_failure (e : Exn) : M Response :=
  match e with
  | QueryFailedError msg => send 500 (ErrorText msg)
  | other => send 500 (ErrorExn other)
  end.

(** The block that saves the merchant and its license document. *)
Definition postMerchantDraft_try (merchant : MerchantEntity.t) (req : Request)
  : M MerchantEntity.t :=
  merchant <- save_merchant merchant ;;
  match file req with
  | Some f =>
      match uploadMerchantDocument merchant None f with
      | None => ret merchant
      | Some documentPath =>
          let license :=
            BusinessLicenseEntity.mk None (body_license_number (body req))
              (Some documentPath) (Some (ref_of merchant)) in
          license <- save_license license ;;
          save_merchant (MerchantEntity.set_business_licenses (Some [license]) merchant)
      end
  | None => ret merchant
  end.

Definition postMerchantDraft_create (portalUser : option PortalUserRow.t)
    (checkoutCounter : option CheckoutCounterEntity.t) (req : Request) : M Response :=
  let merchant :=
    MerchantEntity.mk None (created_columns (body req))
      (option_map PortalUserEntity.of_row portalUser) None
      (option_map (fun c => [c]) checkoutCounter) None None None in
  r <- attempt (postMerchantDraft_try merchant req) ;;
  match r with
  | Throw e => send_failure e
  | Ok merchant =>
      send 201 (MessageData "Drafting Merchant Successful" (draft_data merchant))
  end.

Definition postMerchantDraft (req : Request) : M Response :=
  d <- get_db ;;
  match token_portal_user req d with
  | None => send 401 (Message "Unauthorized")
  | Some portalUser =>
      if negb (MerchantSubmitDataSchema (body req)) then send 422 ErrorZod
      else
        match given_alias (body req) with
        | Some alias =>
            match find_counter_by_alias alias d with
            | Some existing =>
                send 422 (ErrorText
                  ("Alias Value already exists: "
                   ++ CheckoutCounterRow.alias_value existing ++ " "))
            | None =>
                let checkoutCounter :=
                  CheckoutCounterEntity.set_alias_value (Some alias)
                    CheckoutCounterEntity.new in
                saved <- attempt (save_counter checkoutCounter) ;;
                match saved with
                | Throw (QueryFailedError msg) => send 500 (ErrorText msg)
                | Throw _ => postMerchantDraft_create portalUser (Some checkoutCounter) req
                | Ok c => postMerchantDraft_create portalUser (Some c) req
                end
            end
        | None => postMerchantDraft_create portalUser None req
        end
  end.

(** *** PUT /merchants/:id/draft *)

(** The block that saves the merchant and updates its license. *)
Definition putMerchantDraft_try (merchant : MerchantEntity.t) (req : Request)
  : M MerchantEntity.t :=
  merchant <- save_merchant merchant ;;
  let licenseNumber := body_license_number (body req) in
  match MerchantEntity.business_licenses merchant with
  | None => throw (TypeError "Cannot read properties of undefined (reading '0')")
  | Some licenses =>
      let assigned (l : BusinessLicenseEntity.t) :=
        BusinessLicenseEntity.mk (BusinessLicenseEntity.id l) licenseNumber
          (BusinessLicenseEntity.license_document_link l) (Some (ref_of merchant)) in
      (* the first license, when there is one, is the object in the array *)
      let license :=
        match licenses with
        | l :: _ => assigned l
        | [] => assigned BusinessLicenseEntity.new
        end in
      let merchant :=
        match licenses with
        | l :: rest =>
            MerchantEntity.set_business_licenses (Some (assigned l :: rest)) merchant
        | [] => merchant
        end in
      match file req with
      | Some f =>
          match uploadMerchantDocument merchant licenseNumber f with
          | None => ret merchant
          | Some documentPath =>
              let license :=
                BusinessLicenseEntity.mk (BusinessLicenseEntity.id license)
                  (BusinessLicenseEntity.license_number license) (Some documentPath)
                  (BusinessLicenseEntity.merchant license) in
              license <- save_license license ;;
              save_merchant
                (MerchantEntity.set_business_licenses (Some [license]) merchant)
          end
      | None => ret merchant
      end
  end.

(** The checkout counter the handler works on: the only counter of the
    merchant, or a new object. *)
Definition draft_counter (merchant : MerchantEntity.t) : CheckoutCounterEntity.t :=
  match MerchantEntity.checkout_counters merchant with
  | Some [c] => c
  | _ => CheckoutCounterEntity.new
  end.

(** The assignments to the merchant object before it is saved. *)
Definition assign_draft (portalUser : option PortalUserRow.t)
    (merchant : MerchantEntity.t) (checkoutCounter : CheckoutCounterEntity.t)
    (req : Request) : MerchantEntity.t :=
  let merchant :=
    MerchantEntity.set_columns (created_columns (body req)) merchant in
  let merchant :=
    match portalUser with
    | Some u => MerchantEntity.set_created_by (Some (PortalUserEntity.of_row u)) merchant
    | None => merchant
    end in
  MerchantEntity.set_checkout_counters (Some [checkoutCounter]) merchant.

Definition putMerchantDraft_save (portalUser : option PortalUserRow.t)
    (merchant : MerchantEntity.t) (checkoutCounter : CheckoutCounterEntity.t)
    (req : Request) : M Response :=
  let merchant := assign_draft portalUser merchant checkoutCounter req in
  r <- attempt (putMerchantDraft_try merchant req) ;;
  match r with
  | Throw e =>
      (* revert the checkout counter creation *)
      delete_counter (CheckoutCounterEntity.id checkoutCounter) ;;;
      send_failure e
  | Ok merchant =>
      send 201 (MessageData "Updating Merchant Draft Successful" (draft_data merchant))
  end.

Definition putMerchantDraft (req : Request) : M Response :=
  d <- get_db ;;
  match token_portal_user req d with
  | None => send 401 (Message "Unauthorized")
  | Some portalUser =>
      if negb (MerchantSubmitDataSchema (body req)) then send 422 ErrorZod
      else
        let id := params_id req in
        if isNaN id then send 422 (Message "Invalid ID")
        else
          match findOne_merchant (mkRelations false false true true) id d with
          | None => send 422 (ErrorText "Merchant ID does not exist")
          | Some merchant =>
              if negb (String.eqb (MerchantEntity.registration_status merchant)
                         MerchantRegistrationStatus.DRAFT) then
                send 422 (ErrorText
                  ("Merchant is not in Draft Status. Current Status: "
                   ++ MerchantEntity.registration_status merchant))
              else
                let alias := body_payinto_alias (body req) in
                let checkoutCounter := draft_counter merchant in
                if negb (strict_eq (CheckoutCounterEntity.alias_value checkoutCounter) alias)
                then
                  if exists_counter_with_alias alias d then
                    send 422 (ErrorText
                      ("PayInto Alias Value already exists: " ++ or_else alias "undefined"))
                  else
                    let checkoutCounter :=
                      CheckoutCounterEntity.set_alias_value alias checkoutCounter in
                    saved <- attempt (save_counter checkoutCounter) ;;
                    match saved with
                    | Throw (QueryFailedError msg) => send 500 (ErrorText msg)
                    | Throw _ => putMerchantDraft_save portalUser merchant checkoutCounter req
                    | Ok c => putMerchantDraft_save portalUser merchant c req
                    end
                else putMerchantDraft_save portalUser merchant checkoutCounter req
          end
  end.

(** *** PUT /merchants/draft/:id/update *)

Definition updated_columns (b : MerchantSubmitData) (old : MerchantColumns.t)
  : MerchantColumns.t :=
  MerchantColumns.mk (body_dba_trading_name b) (body_registered_name b)
    (body_employees_num b) (body_monthly_turnover b) (body_currency_code b)
    (body_category_code b) (MerchantColumns.merchant_type old)
    (body_registration_status b) MerchantRegistrationStatus.DRAFT
    MerchantAllowBlockStatus.PENDING.

Fixpoint save_licenses (l : list (option string * option string))
  : M (list BusinessLicenseEntity.t) :=
  match l with
  | [] => ret []
  | (number, link) :: rest =>
      licenseObj <- save_license (BusinessLicenseEntity.mk None number link None) ;;
      licenses <- save_licenses rest ;;
      ret (licenseObj :: licenses)
  end.

(** The update of the checkout counter: a response when the alias is taken,
    otherwise the merchant object with its first counter renamed. *)
Definition update_counter (merchant : MerchantEntity.t) (req : Request)
  : M (Response + MerchantEntity.t) :=
  match given_alias (body req) with
  | None => ret (inr merchant)
  | Some alias =>
      match MerchantEntity.checkout_counters merchant with
      | None => throw (TypeError "Cannot read properties of undefined (reading 'length')")
      | Some (c :: rest) =>
          let checkoutCounter := CheckoutCounterEntity.set_alias_value (Some alias) c in
          saved <- save_counter checkoutCounter ;;
          ret (inr (MerchantEntity.set_checkout_counters (Some (saved :: rest)) merchant))
      | Some [] =>
          d <- get_db ;;
          match find_counter_by_alias alias d with
          | Some existing =>
              resp <- send 422 (ErrorText
                        ("Alias Value already exists: "
                         ++ CheckoutCounterRow.alias_value existing ++ " ")) ;;
              ret (inl resp)
          | None =>
              let checkoutCounter :=
                CheckoutCounterEntity.set_merchant (MerchantEntity.id merchant)
                  (CheckoutCounterEntity.set_alias_value (Some alias)
                     CheckoutCounterEntity.new) in
              save_counter checkoutCounter ;;;
              ret (inr merchant)
          end
      end
  end.

Definition putMerchantDraftUpdate_try (portalUser : option PortalUserRow.t)
    (req : Request) : M Response :=
  let id := params_id req in
  if isNaN id then send 422 (Message "Invalid ID")
  else if negb (nativeEnum_parse (body_registration_status (body req))) then
    send 422 ErrorZod
  else
    d <- get_db ;;
    match findOne_merchant (mkRelations true false true true) id d with
    | None => send 404 (Message "Merchant not found")
    | Some merchant =>
        match portalUser with
        | None => send 401 (Message "User not found!. Unauthorized")
        | Some portalUser =>
            match MerchantEntity.created_by merchant with
            | None => throw null_id
            | Some creator =>
                if negb (PortalUserEntity.id creator =? PortalUserRow.id portalUser) then
                  send 401 (Message "Only The Same Drafted User is allowed.")
                else
                  let merchant :=
                    MerchantEntity.set_columns
                      (updated_columns (body req) (MerchantEntity.columns merchant))
                      merchant in
                  step <- update_counter merchant req ;;
                  match step with
                  | inl resp => ret resp
                  | inr merchant =>
                      delete_licenses_of (MerchantEntity.id merchant) ;;;
                      match body_business_licenses (body req) with
                      | None => throw (TypeError "req.body.business_licenses is not iterable")
                      | Some submitted =>
                          licenses <- save_licenses submitted ;;
                          let merchant :=
                            match licenses with
                            | [] => merchant
                            | _ :: _ =>
                                MerchantEntity.set_business_licenses (Some licenses) merchant
                            end in
                          saved <- attempt (save_merchant merchant) ;;
                          match saved with
                          | Throw (QueryFailedError msg) => send 500 (ErrorText msg)
                          | other =>
                              let merchant :=
                                match other with Ok m => m | Throw _ => merchant end in
                              let merchantData :=
                                MerchantEntity.set_checked_by None
                                  (MerchantEntity.set_created_by None merchant) in
                              send 200 (MessageData "Status Updated" merchantData)
                          end
                      end
                  end
            end
        end
    end.

Definition putMerchantDraftUpdate (req : Request) : M Response :=
  d <- get_db ;;
  match token_portal_user req d with
  | None => send 401 (Message "Unauthorized")
  | Some portalUser =>
      if negb (MerchantSubmitDataSchema (body req)) then send 422 ErrorZod
      else
        r <- attempt (putMerchantDraftUpdate_try portalUser req) ;;
        match r with
        | Ok resp => ret resp
        | Throw e => send 500 (MessageExn e)
        end
  end.

End Handlers.

(** ** Endpoints by group *)

(** The requests that change a registration status. *)
Inductive StatusChange : Type :=
| Approve                (* PUT /merchants/:id/approve *)
| RegistrationStatus     (* PUT /merchants/:id/registration-status *)
| BulkApprove.           (* PUT /merchants/bulk-approve *)

Definition status_change {platform : Platform} (e : StatusChange)
  : Request -> M Response :=
  match e with
  | Approve => putWaitingAliasGeneration
  | RegistrationStatus => putRegistrationStatus
  | BulkApprove => putBulkWaitingAliasGeneration
  end.

(** The portal user a status change acts for, when the request is
    authenticated. *)
Definition acting_user {platform : Platform} (e : StatusChange) (req : Request)
    (d : DB) : option PortalUserRow.t :=
  match e with
  | RegistrationStatus =>
      match token_portal_user req d with
      | Some u => u
      | None => None
      end
  | _ => getAuthenticatedPortalUser (authorization req) d
  end.

(** The merchants a status change is aimed at. *)
Definition targets (e : StatusChange) (req : Request) (r : MerchantRow.t) : Prop :=
  match e with
  | BulkApprove => exists ids, body_ids req = Some ids /\ In (Num (MerchantRow.id r)) ids
  | _ => params_id req = Num (MerchantRow.id r)
  end.

(** The transitions a status change may make. *)
Definition may_write (e : StatusChange) (req : Request) (old new : string) : Prop :=
  match e with
  | RegistrationStatus =>
      new = body_registration_status (body req)
      /\ In new MerchantRegistrationStatus.values
  | _ =>
      old = MerchantRegistrationStatus.REVIEW
      /\ new = MerchantRegistrationStatus.WAITINGALIASGENERATION
  end.

(** Row by row, the table of merchants keeps its keys, and a status is
    either kept or rewritten along [step]. *)
Definition statuses_step (step : string -> string -> Prop) (d d' : DB) : Prop :=
  Forall2
    (fun r r' =>
       MerchantRow.id r' = MerchantRow.id r
       /\ (MerchantRow.registration_status r' = MerchantRow.registration_status r
           \/ step (MerchantRow.registration_status r)
                (MerchantRow.registration_status r')))
    (merchants d) (merchants d').

Definition statuses_in_enum (d : DB) : Prop :=
  Forall (fun r => In (MerchantRow.registration_status r)
                     MerchantRegistrationStatus.values) (merchants d).

(** Primary keys are unique. *)
Definition keys_unique (d : DB) : Prop :=
  NoDup (map MerchantRow.id (merchants d)).

(** An error response: a status code of the 4xx or 5xx range. *)
Definition is_error (r : Res Response) : Prop :=
  match r with
  | Ok resp => 400 <= status resp
  | Throw _ => False
  end.

Definition status_of (r : Res Response) : option Z :=
  match r with
  | Ok resp => Some (status resp)
  | Throw _ => None
  end.

(** ** A concrete platform and database, for examples *)

Definition test_env : Env :=
  mkEnv (Some "token1") (Some "test1@email.com")
        (Some "token2") (Some "test2@email.com") "secret".

Definition day : Z := 86400000.

(** A [LIKE] for the examples: [%] matches any run of characters and [_] any
    single character; the other characters are compared without regard to
    the case of the letters A to Z, as under a case-insensitive collation. *)
Definition fold_case (c : ascii) : ascii :=
  let n := nat_of_ascii c in
  if (Nat.leb 65 n && Nat.leb n 90)%bool then ascii_of_nat (n + 32) else c.

Fixpoint like (pat : list ascii) (s : list ascii) {struct pat} : bool :=
  match pat with
  | [] => match s with [] => true | _ :: _ => false end
  | c :: pat' =>
      if Ascii.eqb c "%" then
        (fix any (t : list ascii) : bool :=
           like pat' t || match t with [] => false | _ :: t' => any t' end) s
      else if Ascii.eqb c "_" then
        match s with [] => false | _ :: s' => like pat' s' end
      else
        match s with
        | [] => false
        | d :: s' => Ascii.eqb (fold_case c) (fold_case d) && like pat' s'
        end
  end.

Definition test_like (value pattern : string) : bool :=
  like (list_ascii_of_string pattern) (list_ascii_of_string value).

(** The authorization header names the user by address; hashes are the
    passwords themselves; documents are stored under their file name; the
    only date understood is 1970-01-02, in universal time; the driver is
    that of MySQL. *)
Definition test_platform : Platform :=
  {| process_env := test_env;
     getAuthenticatedPortalUser :=
       fun a d => match a with
                  | Some e => find_user_by_email (Some e) d
                  | None => None
                  end;
     MerchantSubmitDataSchema := fun _ => true;
     is_email := fun s => negb (String.eqb s EmptyString);
     bcrypt_compare := String.eqb;
     jwt_sign := fun _ email _ => email;
     uploadMerchantDocument := fun _ _ f => Some f;
     parse_date := fun s => if String.eqb s "1970-01-02" then Some day else None;
     startOfDay := fun t => t - t mod day;
     endOfDay := fun t => t - t mod day + (day - 1);
     LIKE := test_like;
     no_default_value :=
       fun column =>
         ("Field '" ++ column ++ "' doesn't have a default value")%string |}.

Definition user1 : PortalUserRow.t :=
  PortalUserRow.mk 1 "Maker" "test1@email.com" "111" "hash-of-password-1" 0 0.
Definition user2 : PortalUserRow.t :=
  PortalUserRow.mk 2 "Checker" "test2@email.com" "222" "hash-of-password-2" 0 0.

Definition columns_with (name status : string) : MerchantColumns.t :=
  MerchantColumns.mk name "Registered" "1 - 5" "0.5" "PHP" "10410" "Individual"
    status "reason" "Pending".

(** Merchant 1 is a draft of user 1, merchant 2 is under review and was
    submitted by user 1, merchant 3 is a draft of user 2. *)
Definition merchant1 : MerchantRow.t :=
  MerchantRow.mk 1 (columns_with "abc" "Draft") (Some 1) None 10 10.
Definition merchant2 : MerchantRow.t :=
  MerchantRow.mk 2 (columns_with "shop" "Review") (Some 1) None (day + 20) (day + 20).
Definition merchant3 : MerchantRow.t :=
  MerchantRow.mk 3 (columns_with "stall" "Draft") (Some 2) None 30 30.

Definition counter1 : CheckoutCounterRow.t :=
  CheckoutCounterRow.mk 1 "counter" "alias-a" (Some 1).
Definition counter2 : CheckoutCounterRow.t :=
  CheckoutCounterRow.mk 2 "counter" "alias-b" (Some 2).

Definition test_db : DB :=
  mkDB [user1; user2] [merchant1; merchant2; merchant3] [counter1; counter2] [] 4 1.

Definition world_of (d : DB) (script : list (option Exn)) : World :=
  mkWorld d [] script 1000.

Definition test_world : World := world_of test_db [].

Definition submit (alias : option string) (status : string) : MerchantSubmitData :=
  mkSubmit "New name" "Registered" "1 - 5" "0.5" "PHP" "10410" "Individual"
    alias status "reason" (Some "L-1") (Some []).

Definition no_query : Query :=
  mkQuery NaN NaN NaN None None None None None.

Definition request (auth : option string) (id : JsNumber) (b : MerchantSubmitData)
  : Request :=
  mkRequest auth id b None EmptyString EmptyString no_query None.

Definition bulk_request (auth : option string) (ids : list JsNumber) : Request :=
  mkRequest auth NaN (submit None "Draft") (Some ids) EmptyString EmptyString
    no_query None.

Definition login_request (email password : string) : Request :=
  mkRequest None NaN (submit None "Draft") None email password no_query None.

Definition list_request (auth : option string) (q : Query) : Request :=
  mkRequest auth NaN (submit None "Draft") None EmptyString EmptyString q None.

(** The numbers among the ids of a bulk request. *)
Fixpoint nums (ids : list JsNumber) : list Z :=
  match ids with
  | [] => []
  | Num n :: l => n :: nums l
  | NaN :: l => nums l
  end.

(** A merchant that the requester [uid] may approve. *)
Definition reviewable (uid : Z) (r : MerchantRow.t) : bool :=
  String.eqb (MerchantRow.registration_status r) MerchantRegistrationStatus.REVIEW
  && Not_user uid (MerchantRow.created_by r).


(** User 1 asks to approve merchant 2, which user 1 submitted. *)
Definition approve_own_request : Request :=
  request (Some "test1@email.com") (Num 2) (submit None "Approved").

(** User 2, who did not create merchant 1, sets the draft to Approved. *)
Definition approve_draft_request : Request :=
  request (Some "Bearer token2") (Num 1) (submit None "Approved").

(** User 2 asks to approve merchant 1, which is a draft. *)
Definition approve_early_request : Request :=
  request (Some "test2@email.com") (Num 1) (submit None "Draft").


Definition bulk_once_request : Request :=
  bulk_request (Some "test2@email.com") [Num 2].

(** No fault is scripted for the next write operation. *)
Definition next_write_succeeds (w : World) : Prop :=
  match faults w with
  | Some _ :: _ => False
  | _ => True
  end.

(** The table of merchants after a bulk approval of [ids] by [uid]. *)
Definition bulk_approved (ids : list JsNumber) (uid t : Z) (d : DB)
  : list MerchantRow.t :=
  map (fun r => if In_ids ids (MerchantRow.id r) then bulk_set uid t r else r)
    (merchants d).

(** The requests that write a draft with a payinto alias. *)
Inductive DraftWrite : Type :=
| CreateDraft      (* POST /merchants/draft *)
| UpdateDraft.     (* PUT /merchants/:id/draft *)

Definition draft_write {platform : Platform} (e : DraftWrite) : Request -> M Response :=
  match e with
  | CreateDraft => postMerchantDraft
  | UpdateDraft => putMerchantDraft
  end.

(** Some checkout counter carries the alias. *)
Definition alias_taken (a : string) (d : DB) : Prop :=
  exists c, In c (checkout_counters d) /\ CheckoutCounterRow.alias_value c = a.

(** The condition under which a draft write looks the alias up: creation
    for an alias that is not the empty string, the update when the alias
    differs from that of the counter the handler works on. *)
Definition alias_looked_up (e : DraftWrite) (req : Request) (d : DB) (a : string) : Prop :=
  match e with
  | CreateDraft => a <> EmptyString
  | UpdateDraft =>
      forall m,
        findOne_merchant (mkRelations false false true true) (params_id req) d = Some m ->
        CheckoutCounterEntity.alias_value (draft_counter m) <> Some a
  end.

(** The key and the alias of a checkout counter row. *)
Definition claim (c : CheckoutCounterRow.t) : Z * string :=
  (CheckoutCounterRow.id c, CheckoutCounterRow.alias_value c).

(** User 2 updates the draft of user 1, keeping its alias. *)
Definition take_over_request : Request :=
  request (Some "Bearer token2") (Num 1) (submit (Some "alias-a") "Draft").

(** The row of merchant 1 after that request. *)
Definition take_over_row : MerchantRow.t :=
  MerchantRow.mk 1 (created_columns (submit (Some "alias-a") "Draft")) (Some 2) None 10 1000.

(** A database in which a counter of merchant 2 carries the alias of the
    counter of merchant 1, and one with a counter whose alias is empty. *)
Definition shared_alias_db : DB :=
  mkDB [user1; user2] [merchant1; merchant2; merchant3]
    [counter1; CheckoutCounterRow.mk 2 "counter" "alias-a" (Some 2)] [] 4 1.

Definition blank_alias_db : DB :=
  mkDB [user1; user2] [merchant1; merchant2; merchant3]
    [counter1; CheckoutCounterRow.mk 2 "counter" EmptyString (Some 2)] [] 4 1.

Definition anonymous_create_request : Request :=
  request None NaN (submit (Some "alias-a") "Draft").

Definition blank_alias_request : Request :=
  request (Some "Bearer token1") NaN (submit (Some EmptyString) "Draft").

Definition keep_alias_request : Request :=
  request (Some "Bearer token1") (Num 1) (submit (Some "alias-a") "Draft").

Definition taken_alias_request : Request :=
  request (Some "Bearer token1") (Num 1) (submit (Some "alias-b") "Draft").



(** A login attempt that cannot succeed: no user has the address, or the
    password does not match the stored hash. *)
Definition login_fails {platform : Platform} (req : Request) (d : DB) : Prop :=
  match find_user_by_email (Some (body_email req)) d with
  | None => True
  | Some user => bcrypt_compare (body_password req) (PortalUserRow.password user) = false
  end.

Definition invalid_credentials_response : Response :=
  mkResponse 400 (LoginFailed "Invalid credentials").

(** A registered address with a wrong password of five characters, and an
    address that is not registered with a password of eight. *)
Definition short_password_login : Request := login_request "test1@email.com" "wrong".
Definition unknown_user_login : Request := login_request "nobody@email.com" "password".

(** The address of user 1 with a password of fourteen characters that is
    not the one of user 1, and a database in which that address is not
    registered. *)
Definition wrong_password_login : Request :=
  login_request "test1@email.com" "wrong-password".

Definition unregistered_db : DB :=
  mkDB [user2] [merchant3] [] [] 4 1.

(** The endpoints of the error mapping. *)
Inductive MerchantEndpoint : Type :=
| GetMerchant      (* GET /merchants/:id *)
| PutDraft         (* PUT /merchants/:id/draft *)
| PutApprove.      (* PUT /merchants/:id/approve *)

Definition merchant_endpoint {platform : Platform} (e : MerchantEndpoint)
  : Request -> M Response :=
  match e with
  | GetMerchant => getMerchantById
  | PutDraft => putMerchantDraft
  | PutApprove => putWaitingAliasGeneration
  end.

Definition is_some {A} (x : option A) : bool :=
  match x with Some _ => true | None => false end.

(** Whether the endpoint lets the request past its authentication;
    [GET /merchants/:id] has none. *)
Definition authenticated {platform : Platform} (e : MerchantEndpoint) (req : Request)
    (d : DB) : bool :=
  match e with
  | GetMerchant => true
  | PutDraft => is_some (token_portal_user req d)
  | PutApprove => is_some (getAuthenticatedPortalUser (authorization req) d)
  end.

(** Whether the body passes the validation of the endpoint. *)
Definition accepts_body {platform : Platform} (e : MerchantEndpoint) (req : Request)
  : bool :=
  match e with
  | PutDraft => MerchantSubmitDataSchema (body req)
  | _ => true
  end.

(** The status by which the endpoint reports an id that no merchant has. *)
Definition not_found_status (e : MerchantEndpoint) : Z :=
  match e with
  | PutDraft => 422
  | _ => 404
  end.

(** The draft update reverts a checkout counter by its key, which it has
    when the request carries a payinto alias. *)
Definition revertible (e : MerchantEndpoint) (req : Request) : Prop :=
  match e with
  | PutDraft => body_payinto_alias (body req) <> None
  | _ => True
  end.

Definition unknown_draft_request : Request :=
  request (Some "Bearer token1") (Num 9) (submit (Some "alias-c") "Draft").

(** User 2 asks to approve merchant 1, a draft that user 1 created. *)
Definition approve_draft_by_other : Request :=
  request (Some "test2@email.com") (Num 1) (submit None "Draft").

Definition anonymous_read_request : Request :=
  request None (Num 1) (submit None "Draft").

(** The endpoints that return merchant records or write drafts. *)
Inductive MerchantView : Type :=
| ReadList             (* GET /merchants, merchant-controllers *)
| ReadListAll          (* GET /merchants, merchant-routes.ts *)
| ReadOne              (* GET /merchants/:id *)
| DraftCreate          (* POST /merchants/draft *)
| DraftUpdate          (* PUT /merchants/:id/draft *)
| DraftUpdateLegacy.   (* PUT /merchants/draft/:id/update *)

Definition merchant_view {platform : Platform} (e : MerchantView)
  : Request -> M Response :=
  match e with
  | ReadList => getMerchants
  | ReadListAll => getMerchants_all
  | ReadOne => getMerchantById
  | DraftCreate => postMerchantDraft
  | DraftUpdate => putMerchantDraft
  | DraftUpdateLegacy => putMerchantDraftUpdate
  end.

Definition is_draft_endpoint (e : MerchantView) : bool :=
  match e with
  | DraftCreate | DraftUpdate | DraftUpdateLegacy => true
  | _ => false
  end.

Definition optional {A} (x : option A) : list A :=
  match x with Some a => [a] | None => [] end.

Definition license_users (l : BusinessLicenseEntity.t) : list PortalUserEntity.t :=
  match BusinessLicenseEntity.merchant l with
  | Some m => optional (ref_created_by m)
  | None => []
  end.

(** The user objects inside a merchant object, and inside a payload. *)
Definition merchant_users (m : MerchantEntity.t) : list PortalUserEntity.t :=
  optional (MerchantEntity.created_by m)
  ++ optional (MerchantEntity.checked_by m)
  ++ flat_map license_users (or_else (MerchantEntity.business_licenses m) []).

Definition payload_users (p : Payload) : list PortalUserEntity.t :=
  match p with
  | MessageData _ m => merchant_users m
  | MessageList _ l => flat_map merchant_users l
  | _ => []
  end.

Definition payload_creators (p : Payload) : list PortalUserEntity.t :=
  match p with
  | MessageData _ m => optional (MerchantEntity.created_by m)
  | MessageList _ l => flat_map (fun m => optional (MerchantEntity.created_by m)) l
  | _ => []
  end.

(** No user object of the response has a [password] property and, for a
    draft endpoint, [created_by] is absent. *)
Definition discloses_no_password (e : MerchantView) (r : Res Response) : Prop :=
  match r with
  | Ok resp =>
      Forall (fun u => PortalUserEntity.password u = None) (payload_users (payload resp))
      /\ (is_draft_endpoint e = true -> payload_creators (payload resp) = [])
  | Throw _ => True
  end.

(** The licenses of a merchant object hold no user object. *)
Definition licenses_clean (m : MerchantEntity.t) : Prop :=
  flat_map license_users (or_else (MerchantEntity.business_licenses m) []) = [].

(** The filters of [GET /merchants], read on a returned merchant object. *)














Definition review_list_request : Request :=
  list_request (Some "test1@email.com")
    (mkQuery (Num 1) NaN NaN None (Some "Review") (Some "sho") (Some "1970-01-02") None).

(** ** All endpoints of the merchant and login routes *)

Inductive Endpoint : Type :=
| StatusEndpoint (e : StatusChange)
| ViewEndpoint (e : MerchantView)
| LoginEndpoint.            (* POST /users/login *)

Definition endpoint {platform : Platform} (e : Endpoint) : Request -> M Response :=
  match e with
  | StatusEndpoint s => status_change s
  | ViewEndpoint v => merchant_view v
  | LoginEndpoint => postUserLogin
  end.

(** A computation keeps a property of the database. *)
Definition keeps (P : DB -> Prop) {A : Type} (m : M A) : Prop :=
  forall w, P (db w) -> P (db (snd (m w))).

(** A property of the database that each write of the object-relational
    layer keeps. *)
Record kept_by_writes (P : DB -> Prop) : Prop := mkKept {
  kept_merchant : forall m t d, P d -> P (snd (store_merchant m t d));
  kept_counter : forall i c d, P d -> P (snd (store_counter i c d));
  kept_license : forall l d, P d -> P (snd (store_license l d));
  kept_bulk : forall ids uid t d, P d -> P (set_merchants (bulk_approved ids uid t d) d);
  kept_delete_counter :
    forall i d,
      P d ->
      P (set_checkout_counters
           (filter (fun c => negb (CheckoutCounterRow.id c =? i)) (checkout_counters d)) d);
  kept_delete_licenses :
    forall mid d,
      P d ->
      P (set_business_licenses
           (filter (fun l => negb (option_eqb Z.eqb (BusinessLicenseRow.merchant l) mid))
              (business_licenses d)) d)
}.

(** The endpoints that only read. *)
Definition reads_only (e : Endpoint) : bool :=
  match e with
  | ViewEndpoint ReadList | ViewEndpoint ReadListAll | ViewEndpoint ReadOne
  | LoginEndpoint => true
  | _ => false
  end.

(** The row of a merchant after a single approval at the instant [t]. *)
Definition approved_row (r : MerchantRow.t) (t : Z) : MerchantRow.t :=
  MerchantRow.mk (MerchantRow.id r)
    (MerchantColumns.set_status MerchantRegistrationStatus.WAITINGALIASGENERATION
       "Status Updated to WaitingAliasGeneration" (MerchantRow.columns r))
    (MerchantRow.created_by r) (MerchantRow.checked_by r) (MerchantRow.created_at r) t.



(** The table with the row of key [i] replaced. *)
Definition replace_row (i : Z) (row : MerchantRow.t) (d : DB) : DB :=
  set_merchants
    (map (fun r => if MerchantRow.id r =? i then row else r) (merchants d)) d.

(** The creator of the row is a user of the database other than [uid]. *)
Definition created_by_other (uid : Z) (r : MerchantRow.t) (d : DB) : Prop :=
  exists c, MerchantRow.created_by r = Some c /\ c <> uid /\ find_user_by_id c d <> None.

(** The next write throws something that is not a [QueryFailedError]. *)
Definition next_write_throws_other (w : World) : Prop :=
  match faults w with
  | Some (QueryFailedError _) :: _ => False
  | Some _ :: _ => True
  | _ => False
  end.

(** User 2 approves merchant 2, and the same with a save that throws. *)
Definition approve_request : Request :=
  request (Some "test2@email.com") (Num 2) (submit None "Approved").


Definition broken_save_world : World :=
  world_of test_db [Some (Error "connection lost")].

(** User 1 updates merchant 2, which is under review. *)
Definition update_reviewed_request : Request :=
  request (Some "Bearer token1") (Num 2) (submit (Some "alias-c") "Draft").


(** User 1 creates a draft with an alias that no counter carries. *)
Definition create_request : Request :=
  request (Some "Bearer token1") NaN (submit (Some "alias-c") "Draft").




(** Between two worlds: the table of merchants and the clock are the same,
    and no fault is scripted in the second. *)
Definition calm (w w1 : World) : Prop :=
  merchants (db w1) = merchants (db w) /\ faults w1 = [] /\ now w1 = now w.


(** User 2 updates the draft of user 1. *)
Definition update_other_request : Request :=
  request (Some "Bearer token2") (Num 1) (submit None "Draft").
(** The audit record of a login attempt. *)
Definition login_audit (status message : string) : AuditEntry :=
  mkAudit "ACCESS" status "postUserLogin" message.


(** The merchant objects [GET /merchants] sends for the rows [rows]. *)
Definition listed (d : DB) (rows : list MerchantRow.t) : list MerchantEntity.t :=
  map (fun r => strip_users (getMany_row d r)) rows.

(** ** Handlers outside the merchant workflow *)

(** *** GET /merchants/draft-counts

    The handler [getMerchantDraftCountsByUser]; its answer carries a number. *)
Inductive CountPayload : Type :=
| CountMessage (message : string)              (* { message } *)
| CountExn (e : Exn)                           (* { message: e } *)
| CountData (message : string) (data : Z).     (* { message, data } *)

Record CountResponse : Type := mkCountResponse {
  count_status : Z;
  count_payload : CountPayload
}.

(** [queryBuilder.where(whereClause).getCount()] *)
Definition getCount (wc : WhereClause) (d : DB) : Z :=
  Z.of_nat (List.length (filter (satisfies wc) (merchants d))).

Definition getMerchantDraftCountsByUser {platform : Platform} (req : Request)
  : M CountResponse :=
  d <- get_db ;;
  match getAuthenticatedPortalUser (authorization req) d with
  | None => ret (mkCountResponse 401 (CountMessage "Unauthorized"))
  | Some portalUser =>
      r <- attempt
             (d <- get_db ;;
              let whereClause :=
                mkWhere (Some (PortalUserRow.id portalUser)) None None
                  (Some MerchantRegistrationStatus.DRAFT) in
              let merchantDraftCountsByUser := getCount whereClause d in
              audit "ACCESS" "SUCCESS" "getMerchantDraftCountsByUser"
                "successfully retrieved merchant draft counts" ;;;
              ret (mkCountResponse 200 (CountData "OK" merchantDraftCountsByUser))) ;;
      match r with
      | Ok resp => ret resp
      | Throw e =>
          audit "ACCESS" "FAILURE" "getMerchantDraftCountsByUser" (exn_message e) ;;;
          ret (mkCountResponse 500 (CountExn e))
      end
  end.

(** The query of [GET /merchants] for the drafts of the user [uid]. *)
Definition drafts_of_user (uid : Z) (q : Query) : Prop :=
  addedBy q = Num uid
  /\ registrationStatus q = Some MerchantRegistrationStatus.DRAFT
  /\ valid_id (approvedBy q) = None
  /\ valid_id (merchantId q) = None
  /\ nonempty (payintoId q) = None
  /\ nonempty (dbaName q) = None
  /\ nonempty (addedTime q) = None
  /\ nonempty (updatedTime q) = None.

(** *** POST /merchants/:id/upload-license-document

    The handler ends without a response when the file is there and the
    merchant is found: [None] stands for no response. *)
Definition postUploadLicenseDocument (req : Request) : M (option Response) :=
  match file req with
  | None =>
      resp <- send 400 (Message "No file uploaded") ;;
      ret (Some resp)
  | Some _ =>
      d <- get_db ;;
      match findOne_merchant (mkRelations true false false true) (params_id req) d with
      | None =>
          resp <- send 404 (Message "Merchant not found") ;;
          ret (Some resp)
      | Some _ => ret None
      end
  end.

(** *** PUT /config/trace-level

    The state is the level of the logger; [level] is [req.body.level],
    [None] when the body has none.  The level assigned is [level] itself:
    it is a string when [includes] holds. *)
Definition trace_levels : list string :=
  ["error"; "warn"; "info"; "http"; "verbose"; "debug"; "silly"].

Definition includes (l : list string) (x : option string) : bool :=
  match x with
  | Some s => mem_string s l
  | None => false
  end.

Definition putTraceLevel (level : option string) (logger_level : string)
  : Response * string :=
  if includes trace_levels level then
    (mkResponse 200 (Message "Log level set successfully"), or_else level logger_level)
  else
    (mkResponse 400 (Message ("Invalid log level: " ++ or_else level "undefined")),
     logger_level).

(** The level of the logger after a sequence of requests. *)
Fixpoint trace_level_after (levels : list (option string)) (logger_level : string)
  : string :=
  match levels with
  | [] => logger_level
  | level :: rest => trace_level_after rest (snd (putTraceLevel level logger_level))
  end.

(** The levels of a sequence of requests that are accepted, in order. *)
Definition accepted_levels (levels : list (option string)) : list string :=
  flat_map (fun level =>
              match level with
              | Some s => if mem_string s trace_levels then [s] else []
              | None => []
              end) levels.

(** *** The table of merchants of the portal

    [transformIntoTableData] of the frontend.  The type [MerchantDetails] is
    not among the sources: the properties read with a fallback are optional
    strings, the arrays are lists. *)
Module TableData.

Record CheckoutCounter : Type := mkCheckoutCounter {
  alias_value : option string;
  description : option string
}.

Record Location : Type := mkLocation {
  country_subdivision : option string;
  town_name : option string
}.

Record MerchantDetails : Type := mkMerchantDetails {
  id : Z;
  dba_trading_name : string;
  registered_name : option string;
  merchant_type : string;
  registration_status : string;
  checkout_counters : list CheckoutCounter;
  locations : list Location
}.

Record MerchantInfo : Type := mkMerchantInfo {
  no : Z;
  dbaName : string;
  registeredName : string;
  payintoAccount : string;
  merchantType : string;
  state : string;
  countrySubdivision : string;
  counterDescription : string;
  registeredDfspName : string;
  registrationStatus : string
}.

(** [x || d] for a string [x] that may be [undefined]: the empty string is
    falsy. *)
Definition or_default (x : option string) (d : string) : string :=
  or_else (nonempty x) d.

(** [l[0]?.f] *)
Definition first_of {A} (f : A -> option string) (l : list A) : option string :=
  match l with
  | x :: _ => f x
  | [] => None
  end.

Definition transformIntoTableData (merchantData : MerchantDetails) : MerchantInfo :=
  {| no := id merchantData;
     dbaName := dba_trading_name merchantData;
     registeredName := or_default (registered_name merchantData) "N/A";
     payintoAccount :=
       or_default (first_of alias_value (checkout_counters merchantData)) "N/A";
     merchantType := merchant_type merchantData;
     state :=
       or_default (first_of country_subdivision (locations merchantData)) "N/A";
     countrySubdivision :=
       or_default (first_of town_name (locations merchantData)) "N/A";
     counterDescription :=
       or_default (first_of description (checkout_counters merchantData)) "N/A";
     registeredDfspName := "N/A";
     registrationStatus := registration_status merchantData |}.

(** The cells of a row that have a fallback. *)
Definition fallback_cells (row : MerchantInfo) : list string :=
  [registeredName row; payintoAccount row; state row; countrySubdivision row;
   counterDescription row; registeredDfspName row].

(** What a cell with a fallback shows for a value: the value, when it is a
    string that is not empty, and [N/A] otherwise. *)
Definition cell_shows (value : option string) (cell : string) : Prop :=
  match value with
  | Some (String c s) => cell = String c s
  | Some EmptyString | None => cell = "N/A"
  end.

End TableData.

(** User 1 asks for the number of their drafts, and for the list of them. *)
Definition draft_count_request : Request :=
  list_request (Some "test1@email.com") no_query.

Definition draft_list_request : Request :=
  list_request (Some "test1@email.com")
    (mkQuery (Num 1) NaN NaN None (Some "Draft") None None None).
(** The audit record of an approval that went through. *)
Definition approve_audit_entry : AuditEntry :=
  mkAudit "UPDATE" "SUCCESS" "putWaitingAliasGeneration"
    "Updating Merchant Status to WaitingAliasGeneration Successful".

(** The keys and aliases of the checkout counters when the counter of key
    [i] takes the alias [a]. *)
Definition renamed_claims (i : Z) (a : string) (d : DB) : list (Z * string) :=
  map (fun k => if CheckoutCounterRow.id k =? i then (i, a) else claim k)
    (checkout_counters d).

(** User 1 gives the counter of merchant 1 the alias of the counter of
    merchant 2. *)
Definition rename_request : Request :=
  request (Some "Bearer token1") (Num 1) (submit (Some "alias-b") "Draft").

(** The key [i] is the key of a merchant. *)
Definition has_merchant (i : Z) (d : DB) : Prop :=
  In i (map MerchantRow.id (merchants d)).

(** * Properties *)

Arguments store_merchant : simpl never.
Arguments store_counter : simpl never.
Arguments store_license : simpl never.
Arguments db_write : simpl never.
Arguments db_refuse : simpl never.
Arguments save_counter : simpl never.
Arguments load_merchant : simpl never.
Arguments nativeEnum_parse : simpl never.
Arguments token_portal_user : simpl never.
Arguments count_candidates : simpl never.
Arguments In_ids : simpl never.
Arguments invalid_id : simpl never.
Arguments find_merchant_row : simpl never.
Arguments find_counter_by_alias : simpl never.
Arguments exists_counter_with_alias : simpl never.
Arguments find_user_by_email : simpl never.
Arguments find_user_by_id : simpl never.
Arguments load_user : simpl never.
Arguments next_id : simpl never.

Ltac unfold_m :=
  unfold bind, attempt, ret, send, send_ok, get_db, throw, audit in *.

Lemma db_write_cases {A : Type} (op : Z -> DB -> A * DB) (w : World) :
    (exists e fs,
        faults w = Some e :: fs
        /\ db_write op w = (Throw e, mkWorld (db w) (audit_log w) fs (now w)))
    \/ (exists fs,
          (faults w = [] /\ fs = [] \/ faults w = None :: fs)
          /\ db_write op w
             = (Ok (fst (op (now w) (db w))),
                mkWorld (snd (op (now w) (db w))) (audit_log w) fs (now w))).
Proof.
  unfold db_write.
  destruct (faults w) as [|[e|] fs].
  - right. exists []. split; [now left|]. now destruct (op (now w) (db w)).
  - left. now exists e, fs.
  - right. exists fs. split; [now right|]. now destruct (op (now w) (db w)).
Qed.

(** ** Status changes *)

Section StatusProofs.
Context {platform : Platform}.

Lemma find_merchant_row_spec :
  forall n d row, find_merchant_row n d = Some row ->
    In row (merchants d) /\ MerchantRow.id row = n.
Proof.
  unfold find_merchant_row. intros n d row H.
  apply find_some in H. destruct H as [Hin Heq].
  split; [assumption | now apply Z.eqb_eq].
Qed.


Lemma Forall2_map_r {A B : Type} (R : A -> B -> Prop) (f : A -> B) (l : list A) :
    (forall x, In x l -> R x (f x)) -> Forall2 R l (map f l).
Proof.
  induction l as [|a l IH]; intros H; cbn.
  - constructor.
  - constructor.
    + apply H. now left.
    + apply IH. intros x Hx. apply H. now right.
Qed.

Lemma keys_unique_eq :
  forall (l : list MerchantRow.t) x y,
    NoDup (map MerchantRow.id l) -> In x l -> In y l ->
    MerchantRow.id x = MerchantRow.id y -> x = y.
Proof.
  induction l as [|a l IH]; intros x y Hnd Hx Hy Heq; [contradiction|].
  cbn in Hnd. inversion Hnd as [|? ? Hnotin Hnd']; subst.
  destruct Hx as [Hx|Hx], Hy as [Hy|Hy]; subst.
  - reflexivity.
  - exfalso. apply Hnotin. rewrite Heq. now apply in_map.
  - exfalso. apply Hnotin. rewrite <- Heq. now apply in_map.
  - now apply IH.
Qed.

Lemma statuses_step_refl :
  forall step d, statuses_step step d d.
Proof.
  intros step d. unfold statuses_step.
  rewrite <- (map_id (merchants d)) at 2.
  apply Forall2_map_r. intros x _. split; [reflexivity | now left].
Qed.

Lemma store_merchant_step :
  forall (step : string -> string -> Prop) m t d n row,
    keys_unique d ->
    MerchantEntity.id m = Some n ->
    find_merchant_row n d = Some row ->
    (MerchantEntity.registration_status m = MerchantRow.registration_status row
     \/ step (MerchantRow.registration_status row) (MerchantEntity.registration_status m)) ->
    statuses_step step d (snd (store_merchant m t d)).
Proof.
  intros step m t d n row Hkeys Hid Hrow Hstep.
  destruct (find_merchant_row_spec _ _ _ Hrow) as [Hin Hn].
  unfold statuses_step, store_merchant. rewrite Hid, Hrow. cbn.
  apply Forall2_map_r. intros x Hx.
  destruct (MerchantRow.id x =? n) eqn:E.
  - apply Z.eqb_eq in E.
    assert (x = row) by (apply (keys_unique_eq (merchants d)); auto; congruence).
    subst x. cbn. split; [congruence|]. exact Hstep.
  - split; [reflexivity | now left].
Qed.

Lemma approve_step :
  forall req w,
    keys_unique (db w) ->
    statuses_step (may_write Approve req) (db w)
      (db (snd (putWaitingAliasGeneration req w))).
Proof.
  intros req w Hkeys. unfold putWaitingAliasGeneration, putWaitingAliasGeneration_try.
  unfold_m. cbn.
  destruct (getAuthenticatedPortalUser (authorization req) (db w)) as [u|]; cbn;
    [|apply statuses_step_refl].
  destruct (params_id req) as [|n] eqn:Hid; cbn; [apply statuses_step_refl|].
  destruct (find_merchant_row n (db w)) as [row|] eqn:Hrow; cbn;
    [|apply statuses_step_refl].
  destruct (find_merchant_row_spec _ _ _ Hrow) as [_ Hn].
  unfold load_merchant at 1. cbn.
  destruct (load_user (MerchantRow.created_by row) (db w)) as [creator|]; cbn;
    [|apply statuses_step_refl].
  destruct (PortalUserRow.id u =? PortalUserEntity.id creator); cbn;
    [apply statuses_step_refl|].
  unfold MerchantEntity.registration_status, load_merchant. cbn.
  destruct (String.eqb _ MerchantRegistrationStatus.REVIEW) eqn:Hst; cbn;
    [|apply statuses_step_refl].
  apply String.eqb_eq in Hst.
  unfold save_merchant.
  match goal with |- context [db_write ?op w] =>
    destruct (db_write_cases op w) as [(e & fs & Hf & Heq) | (fs & Hf & Heq)];
    rewrite Heq; clear Heq end; cbn.
  - destruct e; cbn; apply statuses_step_refl.
  - apply store_merchant_step with (n := n) (row := row); auto.
    + cbn. now rewrite Hn.
    + right. cbn. split; [exact Hst | reflexivity].
Qed.

Lemma mem_string_In :
  forall s l, mem_string s l = true -> In s l.
Proof.
  unfold mem_string. intros s l H. apply existsb_exists in H.
  destruct H as (x & Hin & Heq). apply String.eqb_eq in Heq. now subst.
Qed.

Lemma registration_step :
  forall req w,
    keys_unique (db w) ->
    statuses_step (may_write RegistrationStatus req) (db w)
      (db (snd (putRegistrationStatus req w))).
Proof.
  intros req w Hkeys. unfold putRegistrationStatus, putRegistrationStatus_try.
  unfold_m. cbn.
  destruct (token_portal_user req (db w)) as [pu|]; cbn; [|apply statuses_step_refl].
  destruct (params_id req) as [|n] eqn:Hid; cbn; [apply statuses_step_refl|].
  destruct (nativeEnum_parse (body_registration_status (body req))) eqn:Henum; cbn;
    [|apply statuses_step_refl].
  destruct (find_merchant_row n (db w)) as [row|] eqn:Hrow; cbn;
    [|apply statuses_step_refl].
  destruct (find_merchant_row_spec _ _ _ Hrow) as [_ Hn].
  destruct pu as [u|]; cbn; [|apply statuses_step_refl].
  unfold load_merchant at 1. cbn.
  destruct (load_user (MerchantRow.created_by row) (db w)) as [creator|]; cbn;
    [|apply statuses_step_refl].
  destruct (PortalUserEntity.id creator =? PortalUserRow.id u); cbn;
    [apply statuses_step_refl|].
  unfold save_merchant.
  match goal with |- context [db_write ?op w] =>
    destruct (db_write_cases op w) as [(e & fs & Hf & Heq) | (fs & Hf & Heq)];
    rewrite Heq; clear Heq end; cbn.
  - destruct e; cbn; apply statuses_step_refl.
  - apply store_merchant_step with (n := n) (row := row); auto.
    + unfold load_merchant. cbn. now rewrite Hn.
    + right. split; [reflexivity|].
      apply (mem_string_In _ _ Henum).
Qed.

(** *** Counting the candidates of a bulk approval *)

Lemma In_ids_nums :
  forall ids i, In_ids ids i = true <-> In i (nums ids).
Proof.
  unfold In_ids. induction ids as [|[|n] ids IH]; intros i; cbn.
  - split; [discriminate | contradiction].
  - apply IH.
  - rewrite orb_true_iff, IH, Z.eqb_eq. intuition.
Qed.

Lemma In_ids_In :
  forall ids i, In_ids ids i = true <-> In (Num i) ids.
Proof.
  unfold In_ids. intros ids i. rewrite existsb_exists. split.
  - intros (x & Hin & Heq). destruct x as [|n]; cbn in Heq; [discriminate|].
    apply Z.eqb_eq in Heq. now subst.
  - intros Hin. exists (Num i). split; [assumption|]. cbn. apply Z.eqb_refl.
Qed.

Lemma nums_length :
  forall ids, (List.length (nums ids) <= List.length ids)%nat.
Proof.
  induction ids as [|[|n] ids IH]; cbn; lia.
Qed.


(** A selection of rows keeps the keys distinct. *)
Lemma filter_keys_unique :
  forall (keep : MerchantRow.t -> bool) (rows : list MerchantRow.t),
    NoDup (map MerchantRow.id rows) ->
    NoDup (map MerchantRow.id (filter keep rows)).
Proof.
  intros p l. induction l as [|a l IH]; cbn; intros H; [constructor|].
  inversion H as [|? ? Hnotin Hnd]; subst.
  destruct (p a); cbn; [|now apply IH].
  constructor; [|now apply IH].
  intros Hin. apply Hnotin. apply in_map_iff in Hin.
  destruct Hin as (x & Hx & Hin). apply filter_In in Hin.
  apply in_map_iff. exists x. tauto.
Qed.

Lemma filter_and_length {A : Type} (p q : A -> bool) (l : list A) :
    (List.length (filter (fun x => p x && q x) l) <= List.length (filter p l))%nat.
Proof.
  induction l as [|a l IH]; cbn; [lia|].
  destruct (p a), (q a); cbn; lia.
Qed.

Lemma filter_and_all {A : Type} (p q : A -> bool) (l : list A) :
    List.length (filter (fun x => p x && q x) l) = List.length (filter p l) ->
    forall x, In x l -> p x = true -> q x = true.
Proof.
  induction l as [|a l IH]; cbn; intros Hlen x Hin Hp; [contradiction|].
  pose proof (filter_and_length p q l) as Hle.
  destruct (p a) eqn:Hpa, (q a) eqn:Hqa; cbn in Hlen.
  - destruct Hin as [->|Hin]; [assumption|]. apply IH; auto.
  - lia.
  - destruct Hin as [->|Hin]; [congruence|]. apply IH; auto.
  - destruct Hin as [->|Hin]; [congruence|]. apply IH; auto.
Qed.

Lemma bulk_candidate_split :
  forall ids uid r,
    bulk_candidate ids uid r = In_ids ids (MerchantRow.id r) && reviewable uid r.
Proof.
  intros. unfold bulk_candidate, reviewable. now rewrite andb_assoc.
Qed.

Lemma count_candidates_split :
  forall ids uid d,
    count_candidates ids uid d
    = List.length (filter (fun r => In_ids ids (MerchantRow.id r) && reviewable uid r)
                     (merchants d)).
Proof.
  intros. unfold count_candidates. f_equal. apply filter_ext.
  intros r. apply bulk_candidate_split.
Qed.

Lemma listed_rows_length :
  forall ids d,
    keys_unique d ->
    (List.length (filter (fun r => In_ids ids (MerchantRow.id r)) (merchants d))
     <= List.length ids)%nat.
Proof.
  intros ids d Hkeys.
  rewrite <- (length_map MerchantRow.id).
  etransitivity; [|apply nums_length].
  apply NoDup_incl_length.
  - now apply filter_keys_unique.
  - intros i Hin. apply in_map_iff in Hin. destruct Hin as (r & <- & Hr).
    apply filter_In in Hr. now apply In_ids_nums.
Qed.

(** When the count equals the number of ids, every listed row is a
    candidate. *)
Lemma count_full_all_candidates :
  forall ids uid d,
    keys_unique d ->
    count_candidates ids uid d = List.length ids ->
    forall r, In r (merchants d) -> In_ids ids (MerchantRow.id r) = true ->
              reviewable uid r = true.
Proof.
  intros ids uid d Hkeys Hcount r Hr Hin.
  apply (filter_and_all (fun r => In_ids ids (MerchantRow.id r)) (reviewable uid)
           (merchants d)); auto.
  pose proof (listed_rows_length ids d Hkeys) as H1.
  pose proof (filter_and_length (fun r => In_ids ids (MerchantRow.id r))
                (reviewable uid) (merchants d)) as H2.
  cbv beta in H2 |- *.
  rewrite <- count_candidates_split in H2 |- *. lia.
Qed.

Lemma bulk_step :
  forall req w,
    keys_unique (db w) ->
    statuses_step (may_write BulkApprove req) (db w)
      (db (snd (putBulkWaitingAliasGeneration req w))).
Proof.
  intros req w Hkeys. unfold putBulkWaitingAliasGeneration.
  unfold_m. cbn.
  destruct (getAuthenticatedPortalUser (authorization req) (db w)) as [u|]; cbn;
    [|apply statuses_step_refl].
  destruct (body_ids req) as [ids|]; cbn; [|apply statuses_step_refl].
  destruct (existsb invalid_id ids); cbn; [apply statuses_step_refl|].
  destruct (Nat.eqb _ _) eqn:Hcount; cbn; [|apply statuses_step_refl].
  apply Nat.eqb_eq in Hcount.
  unfold bulk_update.
  match goal with |- context [db_write ?op w] =>
    destruct (db_write_cases op w) as [(e & fs & Hf & Heq) | (fs & Hf & Heq)];
    rewrite Heq; clear Heq end; cbn.
  - apply statuses_step_refl.
  - unfold statuses_step. cbn. apply Forall2_map_r. intros r Hr.
    destruct (In_ids ids (MerchantRow.id r)) eqn:Hin.
    + cbn. split; [reflexivity|]. right.
      pose proof (count_full_all_candidates _ _ _ Hkeys Hcount r Hr Hin) as Hrev.
      unfold reviewable in Hrev. apply andb_true_iff in Hrev.
      destruct Hrev as [Hst _]. apply String.eqb_eq in Hst.
      split; [exact Hst | reflexivity].
    + split; [reflexivity | now left].
Qed.

Lemma statuses_step_enum :
  forall step d d',
    (forall old new, step old new -> In new MerchantRegistrationStatus.values) ->
    statuses_step step d d' -> statuses_in_enum d -> statuses_in_enum d'.
Proof.
  unfold statuses_step, statuses_in_enum. intros step d d' Hstep H.
  induction H as [|r r' l l' [_ Hr] _ IH]; intros Henum.
  - constructor.
  - inversion Henum; subst. constructor; [|now apply IH].
    destruct Hr as [-> | Hr]; [assumption | eapply Hstep; eassumption].
Qed.

Lemma may_write_enum :
  forall e req old new,
    may_write e req old new -> In new MerchantRegistrationStatus.values.
Proof.
  intros [] req old new H; cbn in H; destruct H as [H1 H2]; subst; cbn; auto.
Qed.

Lemma keys_unique_find :
  forall d r, keys_unique d -> In r (merchants d) ->
    find_merchant_row (MerchantRow.id r) d = Some r.
Proof.
  intros d r Hkeys Hin.
  destruct (find_merchant_row (MerchantRow.id r) d) as [r'|] eqn:Hfind.
  - destruct (find_merchant_row_spec _ _ _ Hfind) as [Hin' Hid].
    f_equal. now apply (keys_unique_eq (merchants d)).
  - unfold find_merchant_row in Hfind.
    pose proof (find_none _ _ Hfind r Hin) as H. cbn in H.
    rewrite Z.eqb_refl in H. discriminate.
Qed.

(** An approval aimed at a merchant that is not under review is refused. *)
Lemma approve_requires_review :
  forall req w r,
    keys_unique (db w) ->
    In r (merchants (db w)) ->
    params_id req = Num (MerchantRow.id r) ->
    MerchantRow.registration_status r <> MerchantRegistrationStatus.REVIEW ->
    is_error (fst (putWaitingAliasGeneration req w))
    /\ db (snd (putWaitingAliasGeneration req w)) = db w.
Proof.
  intros req w r Hkeys Hin Hid Hstatus.
  unfold putWaitingAliasGeneration, putWaitingAliasGeneration_try.
  unfold_m. cbn.
  destruct (getAuthenticatedPortalUser (authorization req) (db w)) as [u|]; cbn;
    [|split; [lia | reflexivity]].
  rewrite Hid. cbn. rewrite (keys_unique_find _ _ Hkeys Hin). cbn.
  unfold load_merchant. cbn.
  destruct (load_user (MerchantRow.created_by r) (db w)) as [creator|]; cbn;
    [|split; [lia | reflexivity]].
  destruct (PortalUserRow.id u =? PortalUserEntity.id creator); cbn;
    [split; [lia | reflexivity]|].
  unfold MerchantEntity.registration_status. cbn.
  apply String.eqb_neq in Hstatus.
  unfold MerchantRow.registration_status in Hstatus. rewrite Hstatus. cbn.
  split; [lia | reflexivity].
Qed.

(** A bulk approval that lists a merchant that is not under review is
    refused as a whole. *)
Lemma bulk_requires_review :
  forall req w r ids,
    keys_unique (db w) ->
    In r (merchants (db w)) ->
    body_ids req = Some ids ->
    In (Num (MerchantRow.id r)) ids ->
    MerchantRow.registration_status r <> MerchantRegistrationStatus.REVIEW ->
    is_error (fst (putBulkWaitingAliasGeneration req w))
    /\ db (snd (putBulkWaitingAliasGeneration req w)) = db w.
Proof.
  intros req w r ids Hkeys Hin Hids Hlisted Hstatus.
  unfold putBulkWaitingAliasGeneration. unfold_m. cbn.
  destruct (getAuthenticatedPortalUser (authorization req) (db w)) as [u|]; cbn;
    [|split; [lia | reflexivity]].
  rewrite Hids. cbn.
  destruct (existsb invalid_id ids); cbn; [split; [lia | reflexivity]|].
  destruct (Nat.eqb _ _) eqn:Hcount; cbn; [|split; [lia | reflexivity]].
  exfalso. apply Nat.eqb_eq in Hcount.
  apply In_ids_In in Hlisted.
  pose proof (count_full_all_candidates _ _ _ Hkeys Hcount r Hin Hlisted) as Hrev.
  unfold reviewable in Hrev. apply andb_true_iff in Hrev.
  destruct Hrev as [Hst _]. apply String.eqb_eq in Hst. now apply Hstatus.
Qed.

(** C1, as amended.  A status change leaves every merchant row in place and
    either keeps its registration status or rewrites it as the endpoint
    allows: the approval endpoints only from Review to
    WaitingAliasGeneration, the registration-status endpoint to the value of
    the request, which is a member of the enum, whatever the current status
    is.  Statuses that are members of the enum stay so.  An approval or a
    bulk approval aimed at a merchant whose status is not Review is answered
    with an error and the database stays as it was. *)
Theorem status_writes :
  forall (e : StatusChange) (req : Request) (w : World),
    keys_unique (db w) ->
    let d' := db (snd (status_change e req w)) in
    statuses_step (may_write e req) (db w) d'
    /\ (statuses_in_enum (db w) -> statuses_in_enum d')
    /\ (forall r,
          e <> RegistrationStatus ->
          In r (merchants (db w)) ->
          targets e req r ->
          MerchantRow.registration_status r <> MerchantRegistrationStatus.REVIEW ->
          is_error (fst (status_change e req w)) /\ d' = db w).
Proof.
  intros e req w Hkeys d'.
  assert (Hstep : statuses_step (may_write e req) (db w) d').
  { subst d'. destruct e; cbn.
    - now apply approve_step.
    - now apply registration_step.
    - now apply bulk_step. }
  split; [exact Hstep|]. split.
  - eapply statuses_step_enum; [|exact Hstep]. apply may_write_enum.
  - intros r He Hin Htarget Hstatus. subst d'. destruct e; cbn in *.
    + now apply approve_requires_review with (r := r).
    + congruence.
    + destruct Htarget as (ids & Hids & Hlisted).
      now apply bulk_requires_review with (r := r) (ids := ids).
Qed.
End StatusProofs.

(** ** The creator of a merchant cannot change its status *)

Section Ownership.
Context {platform : Platform}.

Lemma load_user_id :
  forall i d c, load_user (Some i) d = Some c -> PortalUserEntity.id c = i.
Proof.
  unfold load_user, find_user_by_id. intros i d c H.
  destruct (find _ _) as [u|] eqn:Hfind; [|discriminate].
  apply find_some in Hfind. destruct Hfind as [_ Heq]. apply Z.eqb_eq in Heq.
  cbn in H. inversion H; subst. reflexivity.
Qed.

Lemma approve_refuses_creator :
  forall req w u r,
    keys_unique (db w) ->
    getAuthenticatedPortalUser (authorization req) (db w) = Some u ->
    In r (merchants (db w)) ->
    params_id req = Num (MerchantRow.id r) ->
    MerchantRow.created_by r = Some (PortalUserRow.id u) ->
    is_error (fst (putWaitingAliasGeneration req w))
    /\ db (snd (putWaitingAliasGeneration req w)) = db w.
Proof.
  intros req w u r Hkeys Hauth Hin Hid Hcreator.
  unfold putWaitingAliasGeneration, putWaitingAliasGeneration_try.
  unfold_m. cbn. rewrite Hauth, Hid. cbn.
  rewrite (keys_unique_find _ _ Hkeys Hin). cbn.
  unfold load_merchant. cbn. rewrite Hcreator.
  destruct (load_user (Some (PortalUserRow.id u)) (db w)) as [c|] eqn:Hc; cbn.
  - rewrite (load_user_id _ _ _ Hc), Z.eqb_refl. cbn. split; [lia | reflexivity].
  - split; [lia | reflexivity].
Qed.

Lemma registration_refuses_creator :
  forall req w u r,
    keys_unique (db w) ->
    token_portal_user req (db w) = Some (Some u) ->
    In r (merchants (db w)) ->
    params_id req = Num (MerchantRow.id r) ->
    MerchantRow.created_by r = Some (PortalUserRow.id u) ->
    is_error (fst (putRegistrationStatus req w))
    /\ db (snd (putRegistrationStatus req w)) = db w.
Proof.
  intros req w u r Hkeys Hauth Hin Hid Hcreator.
  unfold putRegistrationStatus, putRegistrationStatus_try.
  unfold_m. cbn. rewrite Hauth, Hid. cbn.
  destruct (nativeEnum_parse _); cbn; [|split; [lia | reflexivity]].
  rewrite (keys_unique_find _ _ Hkeys Hin). cbn.
  unfold load_merchant. cbn. rewrite Hcreator.
  destruct (load_user (Some (PortalUserRow.id u)) (db w)) as [c|] eqn:Hc; cbn.
  - rewrite (load_user_id _ _ _ Hc), Z.eqb_refl. cbn. split; [lia | reflexivity].
  - split; [lia | reflexivity].
Qed.

Lemma bulk_refuses_creator :
  forall req w u r ids,
    keys_unique (db w) ->
    getAuthenticatedPortalUser (authorization req) (db w) = Some u ->
    In r (merchants (db w)) ->
    body_ids req = Some ids ->
    In (Num (MerchantRow.id r)) ids ->
    MerchantRow.created_by r = Some (PortalUserRow.id u) ->
    is_error (fst (putBulkWaitingAliasGeneration req w))
    /\ db (snd (putBulkWaitingAliasGeneration req w)) = db w.
Proof.
  intros req w u r ids Hkeys Hauth Hin Hids Hlisted Hcreator.
  unfold putBulkWaitingAliasGeneration. unfold_m. cbn. rewrite Hauth, Hids. cbn.
  destruct (existsb invalid_id ids); cbn; [split; [lia | reflexivity]|].
  destruct (Nat.eqb _ _) eqn:Hcount; cbn; [|split; [lia | reflexivity]].
  exfalso. apply Nat.eqb_eq in Hcount.
  apply In_ids_In in Hlisted.
  pose proof (count_full_all_candidates _ _ _ Hkeys Hcount r Hin Hlisted) as Hrev.
  unfold reviewable in Hrev. rewrite Hcreator in Hrev. cbn in Hrev.
  rewrite Z.eqb_refl in Hrev. cbn in Hrev. rewrite andb_false_r in Hrev. discriminate.
Qed.

(** C2. A status change requested by the user recorded as the creator of a
    targeted merchant is answered with an error response, and the database,
    hence the registration status and the checker of the merchant, stays as
    it was. *)
Theorem creator_cannot_change_status :
  forall (e : StatusChange) (req : Request) (w : World)
         (u : PortalUserRow.t) (r : MerchantRow.t),
    keys_unique (db w) ->
    acting_user e req (db w) = Some u ->
    In r (merchants (db w)) ->
    targets e req r ->
    MerchantRow.created_by r = Some (PortalUserRow.id u) ->
    is_error (fst (status_change e req w))
    /\ db (snd (status_change e req w)) = db w.
Proof.
  intros e req w u r Hkeys Hauth Hin Htarget Hcreator.
  destruct e; cbn in *.
  - now apply approve_refuses_creator with (u := u) (r := r).
  - apply registration_refuses_creator with (u := u) (r := r); auto.
    destruct (token_portal_user req (db w)) as [[u'|]|]; congruence.
  - destruct Htarget as (ids & Hids & Hlisted).
    now apply bulk_refuses_creator with (u := u) (r := r) (ids := ids).
Qed.

End Ownership.

Lemma creator_cannot_change_status_witness :
  is_error (fst (@status_change test_platform Approve approve_own_request test_world))
  /\ db (snd (@status_change test_platform Approve approve_own_request test_world))
     = db test_world.
Proof.
  apply (@creator_cannot_change_status test_platform Approve _ test_world user1 merchant2).
  - unfold keys_unique. cbn. repeat constructor; cbn; intuition discriminate.
  - reflexivity.
  - cbn. auto.
  - reflexivity.
  - reflexivity.
Defined.

Lemma status_writes_witness :
  let d' := db (snd (@status_change test_platform Approve approve_early_request
                       test_world)) in
  statuses_step (may_write Approve approve_early_request) (db test_world) d'
  /\ (statuses_in_enum (db test_world) -> statuses_in_enum d')
  /\ (forall r,
        Approve <> RegistrationStatus ->
        In r (merchants (db test_world)) ->
        targets Approve approve_early_request r ->
        MerchantRow.registration_status r <> MerchantRegistrationStatus.REVIEW ->
        is_error (fst (@status_change test_platform Approve approve_early_request
                         test_world))
        /\ d' = db test_world).
Proof.
  apply (@status_writes test_platform Approve approve_early_request test_world).
  unfold keys_unique. cbn. repeat constructor; cbn; intuition discriminate.
Defined.

(** C1 fails as stated: the registration-status endpoint moves a draft
    straight to Approved, which is not the successor of Draft. *)
Lemma status_order_counterexample :
  status_of (fst (@putRegistrationStatus test_platform approve_draft_request test_world))
  = Some 200
  /\ ~ statuses_step (fun old new => successor old new = true) (db test_world)
         (db (snd (@putRegistrationStatus test_platform approve_draft_request
                     test_world))).
Proof.
  split; [reflexivity|].
  unfold statuses_step. intros H.
  set (l := merchants (db test_world)) in H.
  set (l' := merchants (db (snd (@putRegistrationStatus test_platform
                                   approve_draft_request test_world)))) in H.
  vm_compute in l, l'. subst l l'.
  inversion H as [|r r' t t' [_ Hr] _]; subst.
  vm_compute in Hr. destruct Hr; discriminate.
Qed.

(** ** Bulk approval *)

Section Bulk.
Context {platform : Platform}.









End Bulk.



(** ** Drafts *)

(** C3: the code departs from the claim.  User 2 updates, through
    [PUT /merchants/1/draft], the draft that user 1 created: the answer is
    201, the columns of the merchant are rewritten and user 2 is recorded as
    its creator. *)
Lemma draft_updated_by_other_user :
  @token_portal_user test_platform take_over_request test_db = Some (Some user2)
  /\ find_merchant_row 1 test_db = Some merchant1
  /\ MerchantRow.created_by merchant1 = Some (PortalUserRow.id user1)
  /\ status_of (fst (@putMerchantDraft test_platform take_over_request test_world))
     = Some 201
  /\ find_merchant_row 1
       (db (snd (@putMerchantDraft test_platform take_over_request test_world)))
     = Some take_over_row.
Proof.
  repeat split; reflexivity.
Qed.

Section Drafts.
Context {platform : Platform}.

(** The sibling endpoint [PUT /merchants/draft/:id/update] does refuse a
    user who is not the creator. *)
Lemma draft_update_refuses_other_user :
  forall req w u r,
    keys_unique (db w) ->
    token_portal_user req (db w) = Some (Some u) ->
    MerchantSubmitDataSchema (body req) = true ->
    nativeEnum_parse (body_registration_status (body req)) = true ->
    In r (merchants (db w)) ->
    params_id req = Num (MerchantRow.id r) ->
    (exists c, MerchantRow.created_by r = Some c /\ c <> PortalUserRow.id u
               /\ find_user_by_id c (db w) <> None) ->
    status_of (fst (putMerchantDraftUpdate req w)) = Some 401
    /\ db (snd (putMerchantDraftUpdate req w)) = db w.
Proof.
  intros req w u r Hkeys Hauth Hschema Henum Hin Hid (c & Hc & Hne & Huser).
  unfold putMerchantDraftUpdate, putMerchantDraftUpdate_try.
  unfold_m. cbn. rewrite Hauth, Hschema, Hid, Henum. cbn.
  rewrite (keys_unique_find _ _ Hkeys Hin). cbn.
  unfold load_merchant. cbn. rewrite Hc.
  destruct (load_user (Some c) (db w)) as [creator|] eqn:Hcreator; cbn.
  - rewrite (load_user_id _ _ _ Hcreator).
    apply Z.eqb_neq in Hne. rewrite Hne. cbn. split; reflexivity.
  - exfalso. unfold load_user in Hcreator.
    destruct (find_user_by_id c (db w)); [discriminate | now apply Huser].
Qed.

Lemma alias_taken_find :
  forall a d, alias_taken a d -> find_counter_by_alias a d <> None.
Proof.
  intros a d (c & Hin & Heq) Hnone. unfold find_counter_by_alias in Hnone.
  pose proof (find_none _ _ Hnone c Hin) as H. cbn in H.
  rewrite Heq, String.eqb_refl in H. discriminate.
Qed.

Lemma alias_taken_exists :
  forall a d, alias_taken a d -> exists_counter_with_alias (Some a) d = true.
Proof.
  intros a d (c & Hin & Heq). unfold exists_counter_with_alias.
  apply existsb_exists. exists c. split; [assumption|]. rewrite Heq.
  apply String.eqb_refl.
Qed.

(** C4, as amended.  An authenticated draft write whose payinto alias is
    carried by a checkout counter, and for which the handler looks the alias
    up, is answered with 422, and nothing is written: no merchant and no
    checkout counter is created. *)
Theorem duplicate_alias_rejected :
  forall (e : DraftWrite) (req : Request) (w : World) (a : string),
    token_portal_user req (db w) <> None ->
    body_payinto_alias (body req) = Some a ->
    alias_taken a (db w) ->
    alias_looked_up e req (db w) a ->
    status_of (fst (draft_write e req w)) = Some 422
    /\ db (snd (draft_write e req w)) = db w.
Proof.
  intros e req w a Hauth Halias Htaken Hlook.
  destruct (token_portal_user req (db w)) as [pu|] eqn:Hpu; [clear Hauth|congruence].
  destruct e; cbn in *.
  - unfold postMerchantDraft. unfold_m. cbn. rewrite Hpu.
    destruct (MerchantSubmitDataSchema (body req)); cbn; [|split; reflexivity].
    unfold given_alias. rewrite Halias.
    destruct a as [|ch a']; [congruence|]. cbn.
    destruct (find_counter_by_alias _ (db w)) eqn:Hfind; cbn; [split; reflexivity|].
    exfalso. revert Hfind. now apply alias_taken_find.
  - unfold putMerchantDraft. unfold_m. cbn. rewrite Hpu.
    destruct (MerchantSubmitDataSchema (body req)); cbn; [|split; reflexivity].
    destruct (params_id req) as [|n] eqn:Hid; cbn; [split; reflexivity|].
    cbn in Hlook.
    destruct (option_map _ (find_merchant_row n (db w))) as [m|] eqn:Hm; cbn;
      [|split; reflexivity].
    destruct (String.eqb _ MerchantRegistrationStatus.DRAFT); cbn; [|split; reflexivity].
    rewrite Halias.
    assert (Hne : strict_eq (CheckoutCounterEntity.alias_value (draft_counter m)) (Some a)
                  = false).
    { specialize (Hlook m eq_refl). unfold strict_eq.
      destruct (CheckoutCounterEntity.alias_value (draft_counter m)) as [b|]; cbn;
        [|reflexivity].
      apply String.eqb_neq. congruence. }
    rewrite Hne. cbn. rewrite (alias_taken_exists _ _ Htaken). cbn. split; reflexivity.
Qed.

End Drafts.

Lemma duplicate_alias_rejected_witness :
  status_of (fst (@draft_write test_platform UpdateDraft taken_alias_request test_world))
  = Some 422
  /\ db (snd (@draft_write test_platform UpdateDraft taken_alias_request test_world))
     = db test_world.
Proof.
  apply (@duplicate_alias_rejected test_platform UpdateDraft taken_alias_request
           test_world "alias-b").
  - discriminate.
  - reflexivity.
  - exists counter2. cbn. auto.
  - cbn. intros m Hm. injection Hm as <-. cbn. discriminate.
Defined.

(** C4 fails as stated, at three requests whose alias is carried by an
    existing checkout counter: a creation without credentials is answered
    with 401; a creation with the empty alias is answered with 201 and adds
    a merchant; and an update that keeps the alias of the merchant's counter
    is answered with 201 although a counter of another merchant carries the
    same alias. *)
Lemma duplicate_alias_counterexample :
  (alias_taken "alias-a" test_db
   /\ status_of (fst (@postMerchantDraft test_platform anonymous_create_request
                        test_world)) = Some 401)
  /\ (alias_taken EmptyString blank_alias_db
      /\ status_of (fst (@postMerchantDraft test_platform blank_alias_request
                           (world_of blank_alias_db []))) = Some 201
      /\ List.length (merchants (db (snd (@postMerchantDraft test_platform
                                            blank_alias_request
                                            (world_of blank_alias_db [])))))
         = 4%nat)
  /\ (In (CheckoutCounterRow.mk 2 "counter" "alias-a" (Some 2))
        (checkout_counters shared_alias_db)
      /\ status_of (fst (@putMerchantDraft test_platform keep_alias_request
                           (world_of shared_alias_db []))) = Some 201).
Proof.
  repeat split; try reflexivity.
  - exists counter1. cbn. auto.
  - exists (CheckoutCounterRow.mk 2 "counter" EmptyString (Some 2)). cbn. auto.
  - cbn. auto.
Qed.

(** ** A failed draft update gives the checkout counter back *)

Section Revert.
Context {platform : Platform}.

Lemma db_write_ok {A : Type} (op : Z -> DB -> A * DB) (w w' : World) (a : A) :
  db_write op w = (Ok a, w') ->
  a = fst (op (now w) (db w)) /\ db w' = snd (op (now w) (db w)) /\ now w' = now w.
Proof.
  intros H.
  destruct (db_write_cases op w) as [(e & fs & _ & Heq) | (fs & _ & Heq)];
    rewrite Heq in H; inversion H; subst; cbn; auto.
Qed.

Lemma db_refuse_throws {A : Type} (e : Exn) (w : World) :
  exists e' fs,
    @db_refuse A e w = (Throw e', mkWorld (db w) (audit_log w) fs (now w)).
Proof.
  unfold db_refuse. destruct (faults w) as [|[e'|] fs]; eauto.
Qed.



Lemma store_merchant_claims :
  forall m t d,
    map claim (checkout_counters (snd (store_merchant m t d)))
    = map claim (checkout_counters d).
Proof.
  intros m t d. unfold store_merchant, sync_counters. cbn.
  destruct (MerchantEntity.checkout_counters m); [|reflexivity].
  rewrite map_map. reflexivity.
Qed.

Lemma store_license_counters :
  forall l d, checkout_counters (snd (store_license l d)) = checkout_counters d.
Proof.
  intros l d. unfold store_license.
  destruct (BusinessLicenseEntity.id l); reflexivity.
Qed.

Lemma save_merchant_claims :
  forall m w,
    map claim (checkout_counters (db (snd (save_merchant m w))))
    = map claim (checkout_counters (db w))
    /\ now (snd (save_merchant m w)) = now w.
Proof.
  intros m w. unfold save_merchant.
  match goal with |- context [db_write ?op w] =>
    destruct (db_write_cases op w) as [(e & fs & _ & Heq) | (fs & _ & Heq)];
    rewrite Heq end; cbn; auto using store_merchant_claims.
Qed.

Lemma save_license_claims :
  forall l w,
    map claim (checkout_counters (db (snd (save_license l w))))
    = map claim (checkout_counters (db w)).
Proof.
  intros l w. unfold save_license.
  match goal with |- context [db_write ?op w] =>
    destruct (db_write_cases op w) as [(e & fs & _ & Heq) | (fs & _ & Heq)];
    rewrite Heq end; cbn; [reflexivity|]. now rewrite store_license_counters.
Qed.


Lemma next_id_bound :
  forall counter ids i, In i ids -> i < next_id counter ids.
Proof.
  unfold next_id. intros counter ids.
  induction ids as [|a ids IH]; intros i Hin; [contradiction|].
  cbn [fold_right]. destruct Hin as [->|Hin]; [lia|]. specialize (IH i Hin). lia.
Qed.







End Revert.


(** ** Login *)

Section Login.
Context {platform : Platform}.

Lemma login_failure_response :
  forall req w,
    LoginFormSchema req = true -> login_fails req (db w) ->
    fst (postUserLogin req w) = Ok invalid_credentials_response.
Proof.
  intros req w Hschema Hfail. unfold postUserLogin, login_fails in *.
  rewrite Hschema. unfold_m. cbn.
  destruct (find_user_by_email (Some (body_email req)) (db w)) as [user|]; cbn;
    [|reflexivity].
  rewrite Hfail. reflexivity.
Qed.

(** C10, as amended.  When the body passes the login schema, a login that
    fails because no user has the address and one that fails because the
    password does not match are both answered with 400 and
    [{ success: false, message: 'Invalid credentials' }]; a body that fails
    the schema is answered with 422 and [{ message: 'Invalid credentials' }]
    whatever the database holds; so the answer to a request that fails in
    two databases is the same in both, and it does not tell whether the
    address is registered. *)
Theorem login_failures_indistinguishable :
  forall (req : Request) (w w' : World),
    login_fails req (db w) ->
    login_fails req (db w') ->
    (LoginFormSchema req = true ->
     fst (postUserLogin req w) = Ok invalid_credentials_response)
    /\ (LoginFormSchema req = false ->
        forall w0 : World,
          fst (postUserLogin req w0)
          = Ok (mkResponse 422 (Message "Invalid credentials")))
    /\ fst (postUserLogin req w) = fst (postUserLogin req w').
Proof.
  intros req w w' Hw Hw'. split; [|split].
  - intros Hschema. now apply login_failure_response.
  - intros Hschema w0. unfold postUserLogin. rewrite Hschema. reflexivity.
  - destruct (LoginFormSchema req) eqn:Hschema.
    + now rewrite !login_failure_response.
    + unfold postUserLogin. rewrite Hschema. reflexivity.
Qed.

End Login.

Lemma login_failures_indistinguishable_witness :
  (@LoginFormSchema test_platform wrong_password_login = true ->
   fst (@postUserLogin test_platform wrong_password_login test_world)
   = Ok invalid_credentials_response)
  /\ (@LoginFormSchema test_platform wrong_password_login = false ->
      forall w0 : World,
        fst (@postUserLogin test_platform wrong_password_login w0)
        = Ok (mkResponse 422 (Message "Invalid credentials")))
  /\ fst (@postUserLogin test_platform wrong_password_login test_world)
     = fst (@postUserLogin test_platform wrong_password_login
              (world_of unregistered_db [])).
Proof.
  apply (@login_failures_indistinguishable test_platform wrong_password_login
           test_world (world_of unregistered_db [])).
  - reflexivity.
  - exact I.
Defined.

(** C10 fails as stated: the password does not match the stored hash, and
    the answer is 422 with [{ message: 'Invalid credentials' }], which
    differs from the answer 400 to a login with an unknown address. *)
Lemma login_counterexample :
  @login_fails test_platform short_password_login test_db
  /\ @login_fails test_platform unknown_user_login test_db
  /\ fst (@postUserLogin test_platform short_password_login test_world)
     = Ok (mkResponse 422 (Message "Invalid credentials"))
  /\ fst (@postUserLogin test_platform unknown_user_login test_world)
     = Ok invalid_credentials_response.
Proof.
  repeat split; reflexivity.
Qed.

(** ** Status codes of errors *)

Section ErrorStatuses.
Context {platform : Platform}.

Lemma approve_query_failure :
  forall req w msg fs,
    faults w = Some (QueryFailedError msg) :: fs ->
    faults (snd (putWaitingAliasGeneration req w)) <> faults w ->
    status_of (fst (putWaitingAliasGeneration req w)) = Some 500.
Proof.
  intros req w msg fs Hf. unfold putWaitingAliasGeneration, putWaitingAliasGeneration_try.
  unfold_m. cbn.
  destruct (getAuthenticatedPortalUser _ _); cbn; [|congruence].
  destruct (params_id req) as [|n]; cbn; [congruence|].
  destruct (find_merchant_row n (db w)) as [row|]; cbn; [|congruence].
  destruct (MerchantEntity.created_by _); cbn; [|congruence].
  destruct (_ =? _); cbn; [congruence|].
  destruct (negb _); cbn; [congruence|].
  unfold save_merchant, db_write. rewrite Hf. cbn. reflexivity.
Qed.

Lemma draft_counter_loaded :
  forall d row,
    let c := draft_counter (load_merchant (mkRelations false false true true) d row) in
    CheckoutCounterEntity.alias_value c = None
    \/ exists i, CheckoutCounterEntity.id c = Some i.
Proof.
  intros d row. unfold draft_counter, load_merchant. cbn.
  destruct (counters_of (MerchantRow.id row) d) as [|r [|r' l]]; cbn; eauto.
Qed.

Lemma draft_query_failure :
  forall req w msg fs,
    faults w = Some (QueryFailedError msg) :: fs ->
    body_payinto_alias (body req) <> None ->
    faults (snd (putMerchantDraft req w)) <> faults w ->
    status_of (fst (putMerchantDraft req w)) = Some 500.
Proof.
  intros req w msg fs Hf Halias. unfold putMerchantDraft. unfold_m. cbn.
  destruct (token_portal_user _ _) as [pu|]; cbn; [|congruence].
  destruct (MerchantSubmitDataSchema _); cbn; [|congruence].
  destruct (params_id req) as [|n]; cbn; [congruence|].
  destruct (find_merchant_row n (db w)) as [row|]; cbn; [|congruence].
  destruct (negb (String.eqb _ _)); cbn; [congruence|].
  destruct (negb (strict_eq _ _)) eqn:Hdiff; cbn.
  - destruct (exists_counter_with_alias _ _); cbn; [congruence|].
    unfold save_counter.
    destruct (CheckoutCounterEntity.id _); unfold db_write, db_refuse;
      rewrite Hf; cbn; reflexivity.
  - intros _. unfold putMerchantDraft_save, putMerchantDraft_try. unfold_m.
    unfold save_merchant, db_write. rewrite Hf. cbn.
    apply negb_false_iff in Hdiff. unfold strict_eq in Hdiff.
    destruct (body_payinto_alias (body req)) as [a|]; [|congruence].
    destruct (draft_counter_loaded (db w) row) as [Hnone | [i Hi]].
    + rewrite Hnone in Hdiff. discriminate.
    + rewrite Hi. reflexivity.
Qed.

Lemma approve_refuses :
  forall req w u n row creator,
    getAuthenticatedPortalUser (authorization req) (db w) = Some u ->
    params_id req = Num n ->
    find_merchant_row n (db w) = Some row ->
    load_user (MerchantRow.created_by row) (db w) = Some creator ->
    (PortalUserRow.id u = PortalUserEntity.id creator ->
     status_of (fst (putWaitingAliasGeneration req w)) = Some 400)
    /\ (PortalUserRow.id u <> PortalUserEntity.id creator ->
        MerchantRow.registration_status row <> MerchantRegistrationStatus.REVIEW ->
        status_of (fst (putWaitingAliasGeneration req w)) = Some 401).
Proof.
  intros req w u n row creator Hauth Hid Hfind Hcreator.
  unfold putWaitingAliasGeneration, putWaitingAliasGeneration_try.
  unfold_m. cbn. rewrite Hauth, Hid. cbn. rewrite Hfind. cbn.
  unfold load_merchant. cbn. rewrite Hcreator. split.
  - intros Hsame. rewrite Hsame, Z.eqb_refl. reflexivity.
  - intros Hother Hstatus. apply Z.eqb_neq in Hother. rewrite Hother.
    apply String.eqb_neq in Hstatus.
    unfold MerchantEntity.registration_status. cbn.
    unfold MerchantRow.registration_status in Hstatus. rewrite Hstatus. reflexivity.
Qed.

Lemma read_without_creator :
  forall req w n row,
    params_id req = Num n ->
    find_merchant_row n (db w) = Some row ->
    load_user (MerchantRow.created_by row) (db w) = None ->
    fst (getMerchantById req w) = Ok (mkResponse 500 (MessageExn null_id)).
Proof.
  intros req w n row Hid Hfind Hnone. unfold getMerchantById. unfold_m.
  rewrite Hid. cbn. rewrite Hfind. cbn. unfold load_merchant. cbn.
  now rewrite Hnone.
Qed.

(** C6, as amended.  For [GET /merchants/:id], [PUT /merchants/:id/draft]
    and [PUT /merchants/:id/approve]: a request that does not pass the
    authentication of the endpoint is answered with 401 (the read endpoint
    has none); past authentication, a body that fails validation and an id
    that is not a number are answered with 422, an id that no merchant has
    with 404 by the read and the approval and with 422 by the draft update.
    A [QueryFailedError] thrown by the first write of the draft update, when
    the request carries a payinto alias, and of the approval is answered
    with 500; the read endpoint, which writes nothing, answers 500 to the
    exception raised for a merchant whose creator cannot be loaded.  The
    codes are not exclusive to one kind of failure: the approval answers 400
    to the creator of the merchant and 401 to another user when the merchant
    is not under review. *)
Theorem error_statuses :
  forall (e : MerchantEndpoint) (req : Request) (w : World),
    (authenticated e req (db w) = false ->
     status_of (fst (merchant_endpoint e req w)) = Some 401)
    /\ (authenticated e req (db w) = true ->
        (accepts_body e req = false ->
         status_of (fst (merchant_endpoint e req w)) = Some 422)
        /\ (accepts_body e req = true ->
            (isNaN (params_id req) = true ->
             status_of (fst (merchant_endpoint e req w)) = Some 422)
            /\ (forall n,
                  params_id req = Num n -> find_merchant_row n (db w) = None ->
                  status_of (fst (merchant_endpoint e req w))
                  = Some (not_found_status e))
            /\ (forall msg fs,
                  e <> GetMerchant ->
                  faults w = Some (QueryFailedError msg) :: fs ->
                  faults (snd (merchant_endpoint e req w)) <> faults w ->
                  revertible e req ->
                  status_of (fst (merchant_endpoint e req w)) = Some 500)
            /\ (forall n row,
                  e = GetMerchant ->
                  params_id req = Num n -> find_merchant_row n (db w) = Some row ->
                  load_user (MerchantRow.created_by row) (db w) = None ->
                  fst (merchant_endpoint e req w)
                  = Ok (mkResponse 500 (MessageExn null_id)))
            /\ (forall u n row creator,
                  e = PutApprove ->
                  getAuthenticatedPortalUser (authorization req) (db w) = Some u ->
                  params_id req = Num n -> find_merchant_row n (db w) = Some row ->
                  load_user (MerchantRow.created_by row) (db w) = Some creator ->
                  (PortalUserRow.id u = PortalUserEntity.id creator ->
                   status_of (fst (merchant_endpoint e req w)) = Some 400)
                  /\ (PortalUserRow.id u <> PortalUserEntity.id creator ->
                      MerchantRow.registration_status row
                      <> MerchantRegistrationStatus.REVIEW ->
                      status_of (fst (merchant_endpoint e req w)) = Some 401)))).
Proof.
  intros e req w.
  destruct e; cbn [merchant_endpoint authenticated accepts_body not_found_status
                   revertible];
    (split; [intros Hauth | intros Hauth; split; [intros Hbody | intros Hbody;
       split; [intros Hnan | split; [intros n Hid Hnone |
         split; [intros msg fs Hwrites Hf Hchanged Halias |
           split; [intros n row He Hid Hfind Hnone |
                   intros u n row creator He Hu Hid Hfind Hcreator]]]]]]);
    try discriminate; try congruence.
  - unfold getMerchantById. unfold_m. now rewrite Hnan.
  - unfold getMerchantById. unfold_m. rewrite Hid. cbn. now rewrite Hnone.
  - now apply read_without_creator with (n := n) (row := row).
  - unfold putMerchantDraft. unfold_m. cbn.
    destruct (token_portal_user req (db w)); [discriminate | reflexivity].
  - unfold putMerchantDraft. unfold_m. cbn.
    destruct (token_portal_user req (db w)); [|discriminate]. now rewrite Hbody.
  - unfold putMerchantDraft. unfold_m. cbn.
    destruct (token_portal_user req (db w)); [|discriminate]. now rewrite Hbody, Hnan.
  - unfold putMerchantDraft. unfold_m. cbn.
    destruct (token_portal_user req (db w)); [|discriminate]. rewrite Hbody, Hid. cbn.
    now rewrite Hnone.
  - now apply draft_query_failure with (msg := msg) (fs := fs).
  - unfold putWaitingAliasGeneration. unfold_m. cbn.
    destruct (getAuthenticatedPortalUser _ _); [discriminate | reflexivity].
  - unfold putWaitingAliasGeneration, putWaitingAliasGeneration_try. unfold_m. cbn.
    destruct (getAuthenticatedPortalUser _ _); [|discriminate]. now rewrite Hnan.
  - unfold putWaitingAliasGeneration, putWaitingAliasGeneration_try. unfold_m. cbn.
    destruct (getAuthenticatedPortalUser _ _); [|discriminate]. rewrite Hid. cbn.
    now rewrite Hnone.
  - now apply approve_query_failure with (msg := msg) (fs := fs).
  - now apply approve_refuses with (n := n) (row := row).
Qed.

End ErrorStatuses.

Lemma error_statuses_witness :
  status_of (fst (@merchant_endpoint test_platform PutDraft unknown_draft_request
                    test_world)) = Some (not_found_status PutDraft).
Proof.
  destruct (@error_statuses test_platform PutDraft unknown_draft_request test_world)
    as [_ H].
  destruct (H eq_refl) as [_ H1].
  destruct (H1 eq_refl) as (_ & H2 & _).
  apply (H2 9); reflexivity.
Defined.

(** C6 fails as stated: the draft update reports an id that no merchant has
    with 422; the approval reports a merchant that is not under review, to
    an authenticated user who did not create it, with 401; and the read
    endpoint answers a request without credentials with 200. *)
Lemma error_statuses_counterexample :
  (find_merchant_row 9 test_db = None
   /\ status_of (fst (@putMerchantDraft test_platform unknown_draft_request test_world))
      = Some 422)
  /\ (@getAuthenticatedPortalUser test_platform (authorization approve_draft_by_other)
        test_db = Some user2
      /\ MerchantRow.created_by merchant1 = Some (PortalUserRow.id user1)
      /\ status_of (fst (@putWaitingAliasGeneration test_platform approve_draft_by_other
                           test_world)) = Some 401)
  /\ (authorization anonymous_read_request = None
      /\ status_of (fst (getMerchantById anonymous_read_request
                           test_world)) = Some 200).
Proof.
  repeat split; reflexivity.
Qed.

(** ** Responses carry no password hash *)

Arguments merchant_users : simpl never.
Arguments draft_data : simpl never.

Section NoPassword.
Context {platform : Platform}.

Lemma of_row_license_users :
  forall rows, flat_map license_users (map BusinessLicenseEntity.of_row rows) = [].
Proof.
  induction rows as [|r rows IH]; cbn; auto.
Qed.

Lemma without_merchant_users :
  forall l, flat_map license_users (map BusinessLicenseEntity.without_merchant l) = [].
Proof.
  induction l as [|a l IH]; cbn; auto.
Qed.

Lemma draft_data_users :
  forall m, merchant_users (draft_data m) = optional (MerchantEntity.checked_by m).
Proof.
  intros m. unfold merchant_users, draft_data. cbn.
  destruct (MerchantEntity.business_licenses m) as [l|]; cbn.
  - rewrite without_merchant_users. apply app_nil_r.
  - apply app_nil_r.
Qed.

Lemma save_merchant_object :
  forall m w m' w',
    save_merchant m w = (Ok m', w') ->
    MerchantEntity.checked_by m' = MerchantEntity.checked_by m
    /\ MerchantEntity.business_licenses m' = MerchantEntity.business_licenses m.
Proof.
  intros m w m' w' H. unfold save_merchant in H.
  destruct (db_write_ok _ _ _ _ H) as (-> & _ & _). unfold store_merchant. cbn. auto.
Qed.

Lemma postMerchantDraft_try_checked_by :
  forall m req w m' w',
    postMerchantDraft_try m req w = (Ok m', w') ->
    MerchantEntity.checked_by m' = MerchantEntity.checked_by m.
Proof.
  intros m req w m' w'. unfold postMerchantDraft_try. unfold_m.
  destruct (save_merchant m w) as [[m1|e] w1] eqn:H1; [|discriminate].
  apply save_merchant_object in H1. destruct H1 as [Hc _].
  destruct (file req) as [f|]; [|intros H; inversion H; subst; exact Hc].
  destruct (uploadMerchantDocument m1 None f) as [path|];
    [|intros H; inversion H; subst; exact Hc].
  destruct (save_license _ w1) as [[l1|e] w2]; [|discriminate].
  intros H. apply save_merchant_object in H. destruct H as [Hc' _].
  rewrite Hc'. cbn. exact Hc.
Qed.

Lemma putMerchantDraft_try_checked_by :
  forall m req w m' w',
    putMerchantDraft_try m req w = (Ok m', w') ->
    MerchantEntity.checked_by m' = MerchantEntity.checked_by m.
Proof.
  intros m req w m' w'. unfold putMerchantDraft_try. unfold_m.
  destruct (save_merchant m w) as [[m1|e] w1] eqn:H1; [|discriminate].
  apply save_merchant_object in H1. destruct H1 as [Hc _].
  destruct (MerchantEntity.business_licenses m1) as [licenses|]; [|discriminate].
  assert (Hkeep : MerchantEntity.checked_by
                    match licenses with
                    | l :: rest =>
                        MerchantEntity.set_business_licenses
                          (Some
                             (BusinessLicenseEntity.mk (BusinessLicenseEntity.id l)
                                (body_license_number (body req))
                                (BusinessLicenseEntity.license_document_link l)
                                (Some (ref_of m1)) :: rest)) m1
                    | [] => m1
                    end = MerchantEntity.checked_by m)
    by (destruct licenses; exact Hc).
  destruct (file req) as [f|]; [|intros H; inversion H; subst; exact Hkeep].
  destruct (uploadMerchantDocument _ _ f) as [path|];
    [|intros H; inversion H; subst; exact Hkeep].
  destruct (save_license _ w1) as [[l1|e] w2]; [|discriminate].
  intros H. apply save_merchant_object in H. destruct H as [Hc' _].
  rewrite Hc'. cbn. exact Hkeep.
Qed.

Lemma send_failure_discloses :
  forall v e w, discloses_no_password v (fst (send_failure e w)).
Proof.
  intros v e w. destruct e; cbn; auto.
Qed.

Lemma postMerchantDraft_create_discloses :
  forall pu cc req w,
    discloses_no_password DraftCreate (fst (postMerchantDraft_create pu cc req w)).
Proof.
  intros pu cc req w. unfold postMerchantDraft_create. unfold_m.
  destruct (postMerchantDraft_try _ req w) as [[m'|e] w'] eqn:Htry.
  - apply postMerchantDraft_try_checked_by in Htry. cbn in Htry.
    cbn. rewrite draft_data_users, Htry. cbn. auto.
  - apply send_failure_discloses.
Qed.

Lemma putMerchantDraft_save_discloses :
  forall pu merchant cc req w,
    MerchantEntity.checked_by merchant = None ->
    discloses_no_password DraftUpdate (fst (putMerchantDraft_save pu merchant cc req w)).
Proof.
  intros pu merchant cc req w Hnone. unfold putMerchantDraft_save. unfold_m.
  destruct (putMerchantDraft_try _ req w) as [[m'|e] w'] eqn:Htry.
  - apply putMerchantDraft_try_checked_by in Htry.
    assert (Hc : MerchantEntity.checked_by m' = None).
    { rewrite Htry. unfold assign_draft. destruct pu; cbn; exact Hnone. }
    cbn. rewrite draft_data_users, Hc. cbn. auto.
  - destruct (delete_counter (CheckoutCounterEntity.id cc) w') as [[[]|e'] w''];
      [apply send_failure_discloses | exact I].
Qed.

Lemma create_discloses :
  forall req w, discloses_no_password DraftCreate (fst (postMerchantDraft req w)).
Proof.
  intros req w. unfold postMerchantDraft. unfold_m. cbn.
  destruct (token_portal_user req (db w)) as [pu|]; cbn; [|auto].
  destruct (MerchantSubmitDataSchema (body req)); cbn; [|auto].
  destruct (given_alias (body req)) as [a|];
    [|apply postMerchantDraft_create_discloses].
  destruct (find_counter_by_alias a (db w)); cbn; [auto|].
  destruct (save_counter _ w) as [[c|[msg|msg|msg]] w1]; cbn; auto;
    apply postMerchantDraft_create_discloses.
Qed.

Lemma update_discloses :
  forall req w, discloses_no_password DraftUpdate (fst (putMerchantDraft req w)).
Proof.
  intros req w. unfold putMerchantDraft. unfold_m. cbn.
  destruct (token_portal_user req (db w)) as [pu|]; cbn; [|auto].
  destruct (MerchantSubmitDataSchema (body req)); cbn; [|auto].
  destruct (params_id req) as [|n]; cbn; [auto|].
  destruct (find_merchant_row n (db w)) as [row|]; cbn; [|auto].
  destruct (negb (String.eqb _ _)); cbn; [auto|].
  destruct (negb (strict_eq _ _)); cbn;
    [|now apply putMerchantDraft_save_discloses].
  destruct (exists_counter_with_alias _ _); cbn; [auto|].
  destruct (save_counter _ w) as [[c|[msg|msg|msg]] w1]; cbn; auto;
    now apply putMerchantDraft_save_discloses.
Qed.

Lemma save_licenses_clean :
  forall l w ls w',
    save_licenses l w = (Ok ls, w') -> flat_map license_users ls = [].
Proof.
  induction l as [|[number link] l IH]; cbn; intros w ls w' H.
  - inversion H; subst. reflexivity.
  - unfold_m.
    destruct (save_license _ w) as [[l1|e] w1] eqn:H1; [|discriminate].
    destruct (save_licenses l w1) as [[ls1|e] w2] eqn:H2; [|discriminate].
    inversion H; subst. cbn.
    rewrite (IH _ _ _ H2), app_nil_r.
    unfold save_license in H1. destruct (db_write_ok _ _ _ _ H1) as (-> & _ & _).
    reflexivity.
Qed.

Lemma update_counter_licenses :
  forall m req w m' w',
    update_counter m req w = (Ok (inr m'), w') ->
    MerchantEntity.business_licenses m' = MerchantEntity.business_licenses m.
Proof.
  intros m req w m' w'. unfold update_counter. unfold_m.
  destruct (given_alias (body req)) as [a|]; [|intros H; now inversion H].
  destruct (MerchantEntity.checkout_counters m) as [[|c rest]|]; [| |discriminate].
  - destruct (find_counter_by_alias a (db w)); [discriminate|].
    destruct (save_counter _ w) as [[c1|e] w1]; [|discriminate].
    intros H. now inversion H.
  - destruct (save_counter _ w) as [[c1|e] w1]; [|discriminate].
    intros H. now inversion H.
Qed.

Lemma update_counter_response :
  forall m req w resp w',
    update_counter m req w = (Ok (inl resp), w') ->
    exists msg, payload resp = ErrorText msg.
Proof.
  intros m req w resp w'. unfold update_counter. unfold_m.
  destruct (given_alias (body req)) as [a|]; [|discriminate].
  destruct (MerchantEntity.checkout_counters m) as [[|c rest]|]; [| |discriminate].
  - destruct (find_counter_by_alias a (db w)).
    + intros H. inversion H; subst. cbn. eauto.
    + destruct (save_counter _ w) as [[c1|e] w1]; discriminate.
  - destruct (save_counter _ w) as [[c1|e] w1]; discriminate.
Qed.

Lemma legacy_update_discloses :
  forall req w,
    discloses_no_password DraftUpdateLegacy (fst (putMerchantDraftUpdate req w)).
Proof.
  intros req w. unfold putMerchantDraftUpdate. unfold_m. cbn.
  destruct (token_portal_user req (db w)) as [pu|]; cbn; [|auto].
  destruct (MerchantSubmitDataSchema (body req)); cbn; [|auto].
  destruct (putMerchantDraftUpdate_try pu req w) as [[resp|e] w'] eqn:Htry; cbn; [|auto].
  revert Htry. unfold putMerchantDraftUpdate_try. unfold_m. cbn.
  destruct (params_id req) as [|n]; cbn; [intros H; inversion H; cbn; auto|].
  destruct (nativeEnum_parse _); cbn; [|intros H; inversion H; cbn; auto].
  destruct (find_merchant_row n (db w)) as [row|]; cbn; [|intros H; inversion H; cbn; auto].
  destruct pu as [u|]; [|intros H; inversion H; cbn; auto].
  destruct (MerchantEntity.created_by _) as [creator|] eqn:Hcreator; [|discriminate].
  destruct (negb (_ =? _)); [intros H; inversion H; cbn; auto|].
  match goal with |- context [update_counter ?m req w] =>
    assert (Hclean : licenses_clean m)
      by (unfold licenses_clean, load_merchant; cbn; apply of_row_license_users);
    destruct (update_counter m req w) as [[[r1|m1]|e] w1] eqn:Hstep end;
    [ | | discriminate].
  - intros H. inversion H; subst. cbn.
    destruct (update_counter_response _ _ _ _ _ Hstep) as [msg ->]. cbn. auto.
  - apply update_counter_licenses in Hstep.
    destruct (body_business_licenses (body req)) as [submitted|]; [|discriminate].
    destruct (save_licenses submitted _) as [[licenses|e] w2] eqn:Hsaved; [|discriminate].
    apply save_licenses_clean in Hsaved.
    match goal with |- context [save_merchant ?m w2] =>
      assert (Hclean2 : licenses_clean m);
      [| destruct (save_merchant m w2) as [[m3|[msg|msg|msg]] w3] eqn:Hsave ]
    end.
    + destruct licenses; [|exact Hsaved].
      unfold licenses_clean in *. now rewrite Hstep.
    + apply save_merchant_object in Hsave. destruct Hsave as [_ Hl].
      intros H. inversion H; subst. cbn. unfold merchant_users. cbn.
      unfold licenses_clean in Hclean2. rewrite Hl, Hclean2. cbn. auto.
    + intros H. inversion H; subst. cbn. auto.
    + intros H. inversion H; subst. cbn. unfold merchant_users. cbn.
      unfold licenses_clean in Hclean2. rewrite Hclean2. cbn. auto.
    + intros H. inversion H; subst. cbn. unfold merchant_users. cbn.
      unfold licenses_clean in Hclean2. rewrite Hclean2. cbn. auto.
Qed.

Lemma Forall_flat_map {A B : Type} (P : B -> Prop) (f : A -> list B) (l : list A) :
  (forall a, In a l -> Forall P (f a)) -> Forall P (flat_map f l).
Proof.
  induction l as [|a l IH]; cbn; intros H; [constructor|].
  apply Forall_app. split; [apply H; now left | apply IH; auto].
Qed.

Lemma list_discloses :
  forall req w, discloses_no_password ReadList (fst (getMerchants req w)).
Proof.
  intros req w. unfold getMerchants. unfold_m. cbn.
  destruct (getAuthenticatedPortalUser _ _); cbn; [|auto].
  destruct (build_where (query req) (db w)) as [wc|e]; cbn; [|auto].
  split; [|discriminate].
  apply Forall_flat_map. intros m Hm.
  apply in_map_iff in Hm. destruct Hm as (m0 & <- & Hm0).
  apply in_map_iff in Hm0. destruct Hm0 as (r & <- & _).
  unfold merchant_users, strip_users, getMany_row. cbn. rewrite app_nil_r.
  apply Forall_app. split.
  - destruct (selected_user (MerchantRow.created_by r) (db w)); cbn; auto.
  - destruct (selected_user (MerchantRow.checked_by r) (db w)); cbn; auto.
Qed.

Lemma list_all_discloses :
  forall req w, discloses_no_password ReadListAll (fst (getMerchants_all req w)).
Proof.
  intros req w. unfold getMerchants_all. unfold_m. cbn.
  split; [|discriminate].
  apply Forall_flat_map. intros m Hm.
  apply in_map_iff in Hm. destruct Hm as (r & <- & _).
  unfold merchant_users, load_merchant. cbn. constructor.
Qed.

Lemma read_discloses :
  forall req w, discloses_no_password ReadOne (fst (getMerchantById req w)).
Proof.
  intros req w. unfold getMerchantById. unfold_m. cbn.
  destruct (params_id req) as [|n]; cbn; [auto|].
  destruct (find_merchant_row n (db w)) as [row|]; cbn; [|auto].
  unfold load_merchant. cbn.
  destruct (load_user (MerchantRow.created_by row) (db w)) as [creator|]; cbn; [|auto].
  split; [|discriminate].
  unfold merchant_users. cbn. rewrite of_row_license_users, app_nil_r.
  constructor; [reflexivity|].
  destruct (load_user (MerchantRow.checked_by row) (db w)); cbn; auto.
Qed.

(** C8.  No user object in a response of the merchant read endpoints or of
    the draft endpoints has a [password] property, and the draft endpoints
    send no [created_by] at all. *)
Theorem responses_disclose_no_password :
  forall (e : MerchantView) (req : Request) (w : World),
    discloses_no_password e (fst (merchant_view e req w)).
Proof.
  intros e req w. destruct e; cbn [merchant_view].
  - apply list_discloses.
  - apply list_all_discloses.
  - apply read_discloses.
  - apply create_discloses.
  - apply update_discloses.
  - apply legacy_update_discloses.
Qed.

End NoPassword.

(** ** The list of merchants *)

Arguments same_day : simpl never.
Arguments name_matches : simpl never.
Arguments build_where : simpl never.
Arguments query_rows : simpl never.

Section Ordering.






End Ordering.

Section Listing.
Context {platform : Platform}.


Lemma find_user_by_id_spec :
  forall n d user, find_user_by_id n d = Some user -> PortalUserRow.id user = n.
Proof.
  unfold find_user_by_id. intros n d user H. apply find_some in H.
  now apply Z.eqb_eq.
Qed.






End Listing.





(** ** Primary keys stay unique *)

Lemma next_id_fresh :
  forall counter ids, ~ In (next_id counter ids) ids.
Proof.
  intros counter ids Hin. apply (next_id_bound counter) in Hin. lia.
Qed.

Lemma NoDup_snoc :
  forall (l : list Z) (i : Z), NoDup l -> ~ In i l -> NoDup (l ++ [i]).
Proof.
  induction l as [|a l IH]; cbn; intros i Hnd Hnotin.
  - constructor; [tauto | constructor].
  - inversion Hnd as [|? ? Ha Hl]; subst. constructor.
    + rewrite in_app_iff. cbn. intuition.
    + apply IH; tauto.
Qed.

(** The uniqueness of the keys of [merchants], assumed of the database
    before a request, is kept by [save] and by the bulk update. *)
Lemma store_merchant_keys_unique :
  forall m t d, keys_unique d -> keys_unique (snd (store_merchant m t d)).
Proof.
  intros m t d Hkeys. unfold keys_unique, store_merchant in *. cbn.
  destruct (MerchantEntity.id m) as [i|].
  - destruct (find_merchant_row i d) as [row|] eqn:Hfind.
    + rewrite map_map.
      erewrite map_ext_in; [exact Hkeys|].
      intros r _. cbn. destruct (MerchantRow.id r =? i) eqn:E; [|reflexivity].
      cbn. apply Z.eqb_eq in E. congruence.
    + rewrite map_app. cbn. apply NoDup_snoc; [exact Hkeys|].
      intros Hin. apply in_map_iff in Hin. destruct Hin as (r & Hid & Hr).
      unfold find_merchant_row in Hfind.
      pose proof (find_none _ _ Hfind r Hr) as H. cbn in H.
      rewrite Hid, Z.eqb_refl in H. discriminate.
  - rewrite map_app. cbn. apply NoDup_snoc; [exact Hkeys | apply next_id_fresh].
Qed.

Lemma bulk_update_keys_unique :
  forall ids uid t d,
    keys_unique d -> keys_unique (set_merchants (bulk_approved ids uid t d) d).
Proof.
  intros ids uid t d Hkeys. unfold keys_unique, bulk_approved in *. cbn.
  rewrite map_map. erewrite map_ext; [exact Hkeys|].
  intros r. cbn. now destruct (In_ids ids (MerchantRow.id r)).
Qed.

(** * Further properties of the handlers *)

(** ** What every handler keeps *)

Section Keeps.
Context {platform : Platform}.
Variable P : DB -> Prop.
Hypothesis HP : kept_by_writes P.

Lemma keeps_ret {A : Type} (a : A) : keeps P (ret a).
Proof. intros w H. exact H. Qed.

Lemma keeps_throw {A : Type} (e : Exn) : keeps P (@throw A e).
Proof. intros w H. exact H. Qed.

Lemma keeps_send (code : Z) (p : Payload) : keeps P (send code p).
Proof. intros w H. exact H. Qed.

Lemma keeps_audit (a b c d : string) : keeps P (audit a b c d).
Proof. intros w H. exact H. Qed.

Lemma keeps_bind {A B : Type} (m : M A) (f : A -> M B) :
  keeps P m -> (forall a, keeps P (f a)) -> keeps P (bind m f).
Proof.
  intros Hm Hf w H. unfold bind. specialize (Hm w H).
  destruct (m w) as [[a|e] w1]; cbn in *; [now apply Hf | exact Hm].
Qed.

Lemma keeps_attempt {A : Type} (m : M A) : keeps P m -> keeps P (attempt m).
Proof.
  intros Hm w H. unfold attempt. specialize (Hm w H).
  now destruct (m w) as [r w1].
Qed.

Lemma keeps_db_write {A : Type} (op : Z -> DB -> A * DB) :
  (forall t d, P d -> P (snd (op t d))) -> keeps P (db_write op).
Proof.
  intros Hop w H.
  destruct (db_write_cases op w) as [(e & fs & _ & Heq) | (fs & _ & Heq)];
    rewrite Heq; cbn; auto.
Qed.

Lemma keeps_save_merchant m : keeps P (save_merchant m).
Proof. apply keeps_db_write. intros t d. apply (kept_merchant _ HP). Qed.

Lemma keeps_db_refuse {A : Type} (e : Exn) : keeps P (@db_refuse A e).
Proof.
  intros w H. destruct (@db_refuse_throws A e w) as (e' & fs & Heq).
  rewrite Heq. exact H.
Qed.

Lemma keeps_save_counter c : keeps P (save_counter c).
Proof.
  unfold save_counter. destruct (CheckoutCounterEntity.id c) as [i|].
  - apply keeps_db_write. intros t d. apply (kept_counter _ HP).
  - apply keeps_db_refuse.
Qed.

Lemma keeps_save_license l : keeps P (save_license l).
Proof. apply keeps_db_write. intros t d. apply (kept_license _ HP). Qed.

Lemma keeps_bulk_update ids uid : keeps P (bulk_update ids uid).
Proof. apply keeps_db_write. intros t d. apply (kept_bulk _ HP). Qed.

Lemma keeps_delete_counter i : keeps P (delete_counter i).
Proof.
  destruct i as [i|]; [|apply keeps_throw].
  intros w H. cbn. now apply (kept_delete_counter _ HP).
Qed.

Lemma keeps_delete_licenses_of mid : keeps P (delete_licenses_of mid).
Proof. intros w H. cbn. now apply (kept_delete_licenses _ HP). Qed.

Lemma keeps_save_licenses l : keeps P (save_licenses l).
Proof.
  induction l as [|[number link] l IH]; cbn.
  - apply keeps_ret.
  - apply keeps_bind; [apply keeps_save_license|]. intros a.
    apply keeps_bind; [exact IH|]. intros b. apply keeps_ret.
Qed.

Lemma keeps_get_db : keeps P get_db.
Proof. intros w H. exact H. Qed.

Lemma keeps_send_failure e : keeps P (send_failure e).
Proof. destruct e; apply keeps_send. Qed.

Ltac keeps_step :=
  first
    [ apply keeps_ret | apply keeps_send | apply keeps_throw | apply keeps_audit
    | apply keeps_get_db | apply keeps_save_merchant | apply keeps_save_counter
    | apply keeps_save_license | apply keeps_bulk_update | apply keeps_delete_counter
    | apply keeps_delete_licenses_of | apply keeps_save_licenses
    | apply keeps_send_failure
    | apply keeps_attempt
    | apply keeps_bind; [|intros ?]
    | match goal with
      | |- keeps _ (match ?x with _ => _ end) => destruct x
      | |- keeps _ (if ?b then _ else _) => destruct b
      | |- keeps _ (let _ := _ in _) => cbv zeta
      end ].

Ltac keeps_all := repeat keeps_step.

Lemma keeps_approve req : keeps P (putWaitingAliasGeneration req).
Proof.
  unfold putWaitingAliasGeneration, putWaitingAliasGeneration_try, send_ok.
  keeps_all.
Qed.

Lemma keeps_registration req : keeps P (putRegistrationStatus req).
Proof.
  unfold putRegistrationStatus, putRegistrationStatus_try, send_ok. keeps_all.
Qed.

Lemma keeps_bulk req : keeps P (putBulkWaitingAliasGeneration req).
Proof. unfold putBulkWaitingAliasGeneration. keeps_all. Qed.

Lemma keeps_list req : keeps P (getMerchants req).
Proof. unfold getMerchants, send_ok. keeps_all. Qed.

Lemma keeps_list_all req : keeps P (getMerchants_all req).
Proof. unfold getMerchants_all, send_ok. keeps_all. Qed.

Lemma keeps_read req : keeps P (getMerchantById req).
Proof. unfold getMerchantById, send_ok. keeps_all. Qed.

Lemma keeps_login req : keeps P (postUserLogin req).
Proof. unfold postUserLogin, send_ok. keeps_all. Qed.

Lemma keeps_create req : keeps P (postMerchantDraft req).
Proof.
  unfold postMerchantDraft, postMerchantDraft_create, postMerchantDraft_try. keeps_all.
Qed.

Lemma keeps_update req : keeps P (putMerchantDraft req).
Proof.
  unfold putMerchantDraft, putMerchantDraft_save, putMerchantDraft_try. keeps_all.
Qed.

Lemma keeps_legacy_update req : keeps P (putMerchantDraftUpdate req).
Proof.
  unfold putMerchantDraftUpdate, putMerchantDraftUpdate_try, update_counter. keeps_all.
Qed.

Lemma keeps_endpoint (e : Endpoint) (req : Request) : keeps P (endpoint e req).
Proof.
  destruct e as [[]|[]|]; cbn [endpoint status_change merchant_view].
  - apply keeps_approve.
  - apply keeps_registration.
  - apply keeps_bulk.
  - apply keeps_list.
  - apply keeps_list_all.
  - apply keeps_read.
  - apply keeps_create.
  - apply keeps_update.
  - apply keeps_legacy_update.
  - apply keeps_login.
Qed.

End Keeps.

Lemma users_kept_by_writes :
  forall users, kept_by_writes (fun d => portal_users d = users).
Proof.
  intros users. constructor; intros; cbn; auto.
  unfold store_license. destruct (BusinessLicenseEntity.id l); cbn; auto.
Qed.

Lemma keys_kept_by_writes : kept_by_writes keys_unique.
Proof.
  constructor; intros; auto.
  - now apply store_merchant_keys_unique.
  - unfold store_license, keys_unique in *.
    destruct (BusinessLicenseEntity.id l); cbn; auto.
  - now apply bulk_update_keys_unique.
Qed.

(** X1.  No endpoint writes the table of portal users. *)
Theorem endpoints_keep_portal_users :
  forall (platform : Platform) (e : Endpoint) (req : Request) (w : World),
    portal_users (db (snd (endpoint e req w))) = portal_users (db w).
Proof.
  intros platform e req w.
  apply (keeps_endpoint (fun d => portal_users d = portal_users (db w))
           (users_kept_by_writes _) e req w).
  reflexivity.
Qed.

(** X2.  Every endpoint keeps the primary keys of the merchants distinct. *)
Theorem endpoints_keep_keys_unique :
  forall (platform : Platform) (e : Endpoint) (req : Request) (w : World),
    keys_unique (db w) -> keys_unique (db (snd (endpoint e req w))).
Proof.
  intros platform e req w. apply (keeps_endpoint keys_unique keys_kept_by_writes e req w).
Qed.

Lemma endpoints_keep_keys_unique_witness :
  keys_unique
    (db (snd (@endpoint test_platform (ViewEndpoint DraftCreate) blank_alias_request
                test_world))).
Proof.
  apply (@endpoints_keep_keys_unique test_platform (ViewEndpoint DraftCreate)
           blank_alias_request test_world).
  unfold keys_unique. cbn. repeat constructor; cbn; intuition discriminate.
Defined.

(** ** Reads *)

(** X3.  The list, the read of one merchant and the login never write to
    the database. *)
Theorem reads_never_write :
  forall (platform : Platform) (e : Endpoint) (req : Request) (w : World),
    reads_only e = true -> db (snd (endpoint e req w)) = db w.
Proof.
  intros platform e req w Hread.
  destruct e as [[]|[]|]; try discriminate; cbn [endpoint merchant_view].
  - unfold getMerchants. unfold_m. cbn.
    destruct (getAuthenticatedPortalUser _ _); [|reflexivity]. cbn.
    destruct (build_where _ _); reflexivity.
  - reflexivity.
  - unfold getMerchantById. unfold_m. cbn.
    destruct (params_id req) as [|n]; [reflexivity|]. cbn.
    destruct (find_merchant_row n (db w)); [|reflexivity]. cbn.
    destruct (MerchantEntity.created_by _); reflexivity.
  - unfold postUserLogin. destruct (LoginFormSchema req); [|reflexivity].
    unfold_m. cbn.
    destruct (find_user_by_email _ _); [|reflexivity]. cbn.
    destruct (bcrypt_compare _ _); reflexivity.
Qed.

Lemma reads_never_write_witness :
  db (snd (@endpoint test_platform (ViewEndpoint ReadList) review_list_request
             test_world)) = db test_world.
Proof.
  apply (@reads_never_write test_platform (ViewEndpoint ReadList) review_list_request
           test_world).
  reflexivity.
Defined.

(** ** The effect of a status change *)

Section StatusEffects.
Context {platform : Platform}.

Lemma user_fk_loaded :
  forall fk d, user_fk (load_user fk d) fk = fk.
Proof.
  intros [i|] d; cbn; [|reflexivity].
  destruct (load_user (Some i) d) as [u|] eqn:Hu; cbn; [|reflexivity].
  now rewrite (load_user_id _ _ _ Hu).
Qed.

Lemma created_by_other_loads :
  forall uid r d,
    created_by_other uid r d ->
    exists creator,
      load_user (MerchantRow.created_by r) d = Some creator
      /\ (uid =? PortalUserEntity.id creator) = false.
Proof.
  intros uid r d (c & Hc & Hne & Hfind). rewrite Hc.
  unfold load_user. destruct (find_user_by_id c d) as [u|] eqn:Hu; [|congruence].
  eexists. split; [reflexivity|]. cbn.
  rewrite (find_user_by_id_spec _ _ _ Hu). apply Z.eqb_neq. congruence.
Qed.

Lemma columns_eqb_eq :
  forall a b, columns_eqb a b = true <-> a = b.
Proof.
  intros a b. split.
  - intros H. unfold columns_eqb in H.
    repeat (apply andb_true_iff in H; destruct H as [H ?]).
    repeat match goal with E : String.eqb _ _ = true |- _ =>
      apply String.eqb_eq in E end.
    destruct a, b; cbn in *; congruence.
  - intros ->. unfold columns_eqb. now rewrite !String.eqb_refl.
Qed.

Lemma option_Z_eqb_eq :
  forall x y : option Z, option_eqb Z.eqb x y = true <-> x = y.
Proof.
  intros [x|] [y|]; cbn; split; try discriminate; try reflexivity.
  - intros H. apply Z.eqb_eq in H. now subst.
  - intros H. injection H as ->. apply Z.eqb_refl.
Qed.

(** [save] issues an UPDATE exactly when a column or a user differs. *)
Lemma changes_row_false :
  forall m r,
    changes_row m r = false <->
    MerchantEntity.columns m = MerchantRow.columns r
    /\ user_fk (MerchantEntity.created_by m) (MerchantRow.created_by r)
       = MerchantRow.created_by r
    /\ user_fk (MerchantEntity.checked_by m) (MerchantRow.checked_by r)
       = MerchantRow.checked_by r.
Proof.
  intros m r. unfold changes_row. rewrite negb_false_iff, !andb_true_iff.
  now rewrite columns_eqb_eq, !option_Z_eqb_eq.
Qed.

Lemma status_changes_row :
  forall m r,
    MerchantEntity.registration_status m <> MerchantRow.registration_status r ->
    changes_row m r = true.
Proof.
  intros m r Hne. destruct (changes_row m r) eqn:E; [reflexivity|].
  apply changes_row_false in E. destruct E as [E _]. exfalso. apply Hne.
  unfold MerchantEntity.registration_status, MerchantRow.registration_status.
  now rewrite E.
Qed.

(** [save] of an object without loaded one-to-many relations whose key is
    that of the row [r]. *)
Lemma store_merchant_row :
  forall m t d i r,
    MerchantEntity.id m = Some i ->
    find_merchant_row i d = Some r ->
    MerchantEntity.checkout_counters m = None ->
    MerchantEntity.business_licenses m = None ->
    snd (store_merchant m t d)
    = replace_row i
        (MerchantRow.mk i (MerchantEntity.columns m)
           (user_fk (MerchantEntity.created_by m) (MerchantRow.created_by r))
           (user_fk (MerchantEntity.checked_by m) (MerchantRow.checked_by r))
           (MerchantRow.created_at r)
           (if changes_row m r then t else MerchantRow.updated_at r)) d.
Proof.
  intros m t d i r Hid Hfind Hc Hl. unfold store_merchant, replace_row, set_merchants.
  rewrite Hid, Hfind, Hc, Hl. reflexivity.
Qed.


(** X4.  A single approval that goes through answers 200 and rewrites the
    row of the merchant only: status and reason are set, the checker is left
    as it was, and every other table is left alone. *)
Theorem approve_effect :
  forall (req : Request) (w : World) (u : PortalUserRow.t) (r : MerchantRow.t),
    keys_unique (db w) ->
    getAuthenticatedPortalUser (authorization req) (db w) = Some u ->
    In r (merchants (db w)) ->
    params_id req = Num (MerchantRow.id r) ->
    created_by_other (PortalUserRow.id u) r (db w) ->
    MerchantRow.registration_status r = MerchantRegistrationStatus.REVIEW ->
    next_write_succeeds w ->
    status_of (fst (putWaitingAliasGeneration req w)) = Some 200
    /\ db (snd (putWaitingAliasGeneration req w))
       = replace_row (MerchantRow.id r) (approved_row r (now w)) (db w).
Proof.
  intros req w u r Hkeys Hauth Hin Hid Hother Hreview Hnext.
  destruct (created_by_other_loads _ _ _ Hother) as (creator & Hcreator & Hne).
  unfold putWaitingAliasGeneration, putWaitingAliasGeneration_try.
  unfold_m. cbn. rewrite Hauth, Hid. cbn.
  rewrite (keys_unique_find _ _ Hkeys Hin). cbn.
  unfold load_merchant. cbn. rewrite Hcreator, Hne. cbn.
  unfold MerchantEntity.registration_status. cbn.
  unfold MerchantRow.registration_status in Hreview. rewrite Hreview. cbn.
  unfold save_merchant, db_write, next_write_succeeds in *.
  assert (Hstore :
    snd (store_merchant
           (MerchantEntity.set_columns
              (MerchantColumns.set_status
                 MerchantRegistrationStatus.WAITINGALIASGENERATION
                 "Status Updated to WaitingAliasGeneration" (MerchantRow.columns r))
              (MerchantEntity.mk (Some (MerchantRow.id r)) (MerchantRow.columns r)
                 (Some creator) (load_user (MerchantRow.checked_by r) (db w)) None None
                 (Some (MerchantRow.created_at r)) (Some (MerchantRow.updated_at r))))
           (now w) (db w))
    = replace_row (MerchantRow.id r) (approved_row r (now w)) (db w)).
  { erewrite store_merchant_row;
      [| reflexivity | exact (keys_unique_find _ _ Hkeys Hin) | reflexivity
       | reflexivity].
    rewrite status_changes_row
      by (unfold MerchantEntity.registration_status, MerchantRow.registration_status;
          cbn; rewrite Hreview; discriminate).
    unfold approved_row. cbn. rewrite user_fk_loaded.
    destruct Hother as (c & Hc & _). rewrite Hc in Hcreator.
    rewrite Hc, (load_user_id _ _ _ Hcreator). reflexivity. }
  destruct (faults w) as [|[e|] fs]; [| contradiction |];
    destruct (store_merchant _ (now w) (db w)) as [m' d'] eqn:Hs;
    cbn in Hstore; cbn; subst d'; split; reflexivity.
Qed.

(** X5.  When the save of an approval throws something other than a
    [QueryFailedError], the handler still answers 200, and nothing was
    stored. *)
Theorem approve_reports_success_on_lost_save :
  forall (req : Request) (w : World) (u : PortalUserRow.t) (r : MerchantRow.t),
    keys_unique (db w) ->
    getAuthenticatedPortalUser (authorization req) (db w) = Some u ->
    In r (merchants (db w)) ->
    params_id req = Num (MerchantRow.id r) ->
    created_by_other (PortalUserRow.id u) r (db w) ->
    MerchantRow.registration_status r = MerchantRegistrationStatus.REVIEW ->
    next_write_throws_other w ->
    status_of (fst (putWaitingAliasGeneration req w)) = Some 200
    /\ db (snd (putWaitingAliasGeneration req w)) = db w.
Proof.
  intros req w u r Hkeys Hauth Hin Hid Hother Hreview Hnext.
  destruct (created_by_other_loads _ _ _ Hother) as (creator & Hcreator & Hne).
  unfold putWaitingAliasGeneration, putWaitingAliasGeneration_try.
  unfold_m. cbn. rewrite Hauth, Hid. cbn.
  rewrite (keys_unique_find _ _ Hkeys Hin). cbn.
  unfold load_merchant. cbn. rewrite Hcreator, Hne. cbn.
  unfold MerchantEntity.registration_status. cbn.
  unfold MerchantRow.registration_status in Hreview. rewrite Hreview. cbn.
  unfold save_merchant, db_write, next_write_throws_other in *.
  destruct (faults w) as [|[[msg|msg|msg]|] fs]; try contradiction; cbn;
    split; reflexivity.
Qed.


(** X7.  [PUT /merchants/:id/draft] updates drafts only: for a merchant in
    any other status the answer is 422 and nothing is written. *)
Theorem draft_update_requires_draft :
  forall (req : Request) (w : World) (pu : option PortalUserRow.t) (n : Z)
         (r : MerchantRow.t),
    token_portal_user req (db w) = Some pu ->
    MerchantSubmitDataSchema (body req) = true ->
    params_id req = Num n ->
    find_merchant_row n (db w) = Some r ->
    MerchantRow.registration_status r <> MerchantRegistrationStatus.DRAFT ->
    status_of (fst (putMerchantDraft req w)) = Some 422
    /\ db (snd (putMerchantDraft req w)) = db w.
Proof.
  intros req w pu n r Hauth Hschema Hid Hfind Hstatus.
  unfold putMerchantDraft. unfold_m. cbn. rewrite Hauth, Hschema, Hid. cbn.
  rewrite Hfind. cbn. unfold MerchantEntity.registration_status, load_merchant. cbn.
  apply String.eqb_neq in Hstatus.
  unfold MerchantRow.registration_status in Hstatus. rewrite Hstatus. cbn.
  split; reflexivity.
Qed.

End StatusEffects.

Lemma test_keys_unique : keys_unique test_db.
Proof.
  unfold keys_unique. cbn. repeat constructor; cbn; intuition discriminate.
Qed.

Lemma merchant2_created_by_other : created_by_other 2 merchant2 test_db.
Proof.
  exists 1. repeat split; [lia | discriminate].
Qed.

Lemma approve_effect_witness :
  status_of (fst (@putWaitingAliasGeneration test_platform approve_request test_world))
  = Some 200
  /\ db (snd (@putWaitingAliasGeneration test_platform approve_request test_world))
     = replace_row (MerchantRow.id merchant2) (approved_row merchant2 (now test_world))
         (db test_world).
Proof.
  apply (@approve_effect test_platform approve_request test_world user2 merchant2).
  - exact test_keys_unique.
  - reflexivity.
  - cbn. auto.
  - reflexivity.
  - exact merchant2_created_by_other.
  - reflexivity.
  - exact I.
Defined.

Lemma approve_reports_success_on_lost_save_witness :
  status_of (fst (@putWaitingAliasGeneration test_platform approve_request
                    broken_save_world)) = Some 200
  /\ db (snd (@putWaitingAliasGeneration test_platform approve_request
                broken_save_world)) = db broken_save_world.
Proof.
  apply (@approve_reports_success_on_lost_save test_platform approve_request
           broken_save_world user2 merchant2).
  - exact test_keys_unique.
  - reflexivity.
  - cbn. auto.
  - reflexivity.
  - exact merchant2_created_by_other.
  - reflexivity.
  - exact I.
Defined.


Lemma draft_update_requires_draft_witness :
  status_of (fst (@putMerchantDraft test_platform update_reviewed_request test_world))
  = Some 422
  /\ db (snd (@putMerchantDraft test_platform update_reviewed_request test_world))
     = db test_world.
Proof.
  apply (@draft_update_requires_draft test_platform update_reviewed_request test_world
           (Some user1) 2 merchant2); try reflexivity.
  discriminate.
Defined.

(** ** The effect of the draft endpoints *)

Section DraftEffects.
Context {platform : Platform}.








Lemma store_license_merchants :
  forall l d, merchants (snd (store_license l d)) = merchants d.
Proof.
  intros l d. unfold store_license. destruct (BusinessLicenseEntity.id l); reflexivity.
Qed.








Lemma db_write_next_ok {A : Type} (op : Z -> DB -> A * DB) (w : World) fs :
  faults w = None :: fs ->
  db_write op w
  = (Ok (fst (op (now w) (db w))),
     mkWorld (snd (op (now w) (db w))) (audit_log w) fs (now w)).
Proof.
  intros H. unfold db_write. rewrite H. now destruct (op (now w) (db w)).
Qed.

Lemma db_write_next_throws {A : Type} (op : Z -> DB -> A * DB) (w : World) e fs :
  faults w = Some e :: fs ->
  db_write op w = (Throw e, mkWorld (db w) (audit_log w) fs (now w)).
Proof.
  intros H. unfold db_write. now rewrite H.
Qed.

Lemma find_alias_appended :
  forall (l : list CheckoutCounterRow.t) row a,
    find (fun c => String.eqb (CheckoutCounterRow.alias_value c) a) l = None ->
    CheckoutCounterRow.alias_value row = a ->
    find (fun c => String.eqb (CheckoutCounterRow.alias_value c) a) (l ++ [row])
    = Some row.
Proof.
  induction l as [|x l IH]; intros row a Hnone Hrow; cbn in *.
  - subst a. now rewrite String.eqb_refl.
  - destruct (String.eqb (CheckoutCounterRow.alias_value x) a); [discriminate|].
    now apply IH.
Qed.

Lemma token_portal_user_known :
  forall req d d',
    token_portal_user req d <> None -> token_portal_user req d' <> None.
Proof.
  intros req d d'. unfold token_portal_user.
  destruct (strict_eq _ (TEST1_DUMMY_AUTH_TOKEN process_env)); [discriminate|].
  destruct (strict_eq _ (TEST2_DUMMY_AUTH_TOKEN process_env)); [discriminate|].
  auto.
Qed.

(** X9.  [POST /merchants/draft] cannot create a merchant with a new payinto
    alias: the handler gives the new checkout counter its alias only, the
    INSERT is refused for want of a description, and the answer is 500; no
    merchant and no counter is stored. *)
Theorem post_draft_new_alias_refused :
  forall (req : Request) (w : World) (alias : string),
    token_portal_user req (db w) <> None ->
    MerchantSubmitDataSchema (body req) = true ->
    given_alias (body req) = Some alias ->
    find_counter_by_alias alias (db w) = None ->
    next_write_succeeds w ->
    status_of (fst (postMerchantDraft req w)) = Some 500
    /\ db (snd (postMerchantDraft req w)) = db w.
Proof.
  intros req w alias Hauth Hschema Halias Hfree Hnext.
  unfold postMerchantDraft. unfold_m. cbn.
  destruct (token_portal_user req (db w)) as [pu|]; [|congruence].
  rewrite Hschema, Halias, Hfree. cbn.
  unfold save_counter. cbn. unfold db_refuse, next_write_succeeds in *.
  destruct (faults w) as [|[e|] fs]; [| contradiction |]; cbn; auto.
Qed.






End DraftEffects.

Lemma post_draft_new_alias_refused_witness :
  status_of (fst (@postMerchantDraft test_platform create_request test_world))
  = Some 500
  /\ db (snd (@postMerchantDraft test_platform create_request test_world))
     = db test_world.
Proof.
  apply (@post_draft_new_alias_refused test_platform create_request test_world
           "alias-c").
  - vm_compute. discriminate.
  - reflexivity.
  - reflexivity.
  - reflexivity.
  - exact I.
Defined.


(** ** The effect of [PUT /merchants/draft/:id/update] *)

Section DraftUpdateEffect.
Context {platform : Platform}.

Arguments delete_licenses_of : simpl never.
Arguments update_counter : simpl never.

Lemma db_write_quiet {A : Type} (op : Z -> DB -> A * DB) (w : World) :
  faults w = [] ->
  db_write op w
  = (Ok (fst (op (now w) (db w))),
     mkWorld (snd (op (now w) (db w))) (audit_log w) [] (now w)).
Proof.
  intros H. unfold db_write. rewrite H. now destruct (op (now w) (db w)).
Qed.

Lemma calm_refl : forall w, faults w = [] -> calm w w.
Proof.
  intros w H. unfold calm. auto.
Qed.

Lemma calm_trans : forall w w1 w2, calm w w1 -> calm w1 w2 -> calm w w2.
Proof.
  unfold calm. intros w w1 w2 (H1 & H2 & H3) (H4 & H5 & H6).
  repeat split; congruence.
Qed.

Lemma save_counter_calm :
  forall c w out w1,
    faults w = [] -> save_counter c w = (out, w1) -> calm w w1.
Proof.
  intros c w out w1 Hf H. unfold save_counter in H.
  destruct (CheckoutCounterEntity.id c) as [i|].
  - rewrite (db_write_quiet _ _ Hf) in H. inversion H; subst.
    unfold calm. cbn. auto.
  - unfold db_refuse in H. rewrite Hf in H. inversion H; subst.
    unfold calm. cbn. auto.
Qed.

Lemma save_license_calm :
  forall l w out w1,
    faults w = [] -> save_license l w = (out, w1) ->
    calm w w1 /\ exists l', out = Ok l'.
Proof.
  intros l w out w1 Hf H. unfold save_license in H.
  rewrite (db_write_quiet _ _ Hf) in H. inversion H; subst. split; [|eauto].
  unfold calm. cbn. split; [apply store_license_merchants | auto].
Qed.

Lemma save_licenses_calm :
  forall l w out w1,
    faults w = [] -> save_licenses l w = (out, w1) ->
    calm w w1 /\ exists ls, out = Ok ls.
Proof.
  induction l as [|[number link] rest IH]; intros w out w1 Hf; cbn; unfold_m.
  - intros H. inversion H; subst. split; [now apply calm_refl | eauto].
  - destruct (save_license _ w) as [r1 w2] eqn:H1.
    destruct (save_license_calm _ _ _ _ Hf H1) as [Hc1 (l1 & ->)].
    destruct (save_licenses rest w2) as [r2 w3] eqn:H2.
    destruct (IH _ _ _ (proj1 (proj2 Hc1)) H2) as [Hc2 (ls & ->)].
    intros H. inversion H; subst. split; [|eauto].
    now apply calm_trans with (w1 := w2).
Qed.

Arguments save_licenses : simpl never.

Lemma delete_licenses_calm :
  forall mid w out w1,
    faults w = [] -> delete_licenses_of mid w = (out, w1) ->
    calm w w1 /\ out = Ok tt.
Proof.
  intros mid w out w1 Hf H. unfold delete_licenses_of in H.
  inversion H; subst. unfold calm. cbn. auto.
Qed.

Lemma update_counter_calm :
  forall m req w out w1,
    faults w = [] -> update_counter m req w = (out, w1) ->
    calm w w1
    /\ (forall m', out = Ok (inr m') ->
          MerchantEntity.id m' = MerchantEntity.id m
          /\ MerchantEntity.columns m' = MerchantEntity.columns m
          /\ MerchantEntity.created_by m' = MerchantEntity.created_by m
          /\ MerchantEntity.checked_by m' = MerchantEntity.checked_by m).
Proof.
  intros m req w out w1 Hf. unfold update_counter. unfold_m.
  destruct (given_alias (body req)) as [alias|];
    [|intros H; inversion H; subst; split;
      [now apply calm_refl | intros m' Hm'; inversion Hm'; subst; auto]].
  destruct (MerchantEntity.checkout_counters m) as [[|c rest]|].
  - destruct (find_counter_by_alias alias (db w)).
    + intros H; inversion H; subst. split; [now apply calm_refl | discriminate].
    + destruct (save_counter _ w) as [r w2] eqn:H1.
      pose proof (save_counter_calm _ _ _ _ Hf H1) as Hc.
      destruct r as [c'|e]; intros H; inversion H; subst; (split; [exact Hc|]);
        intros m' Hm'; inversion Hm'; subst; auto.
  - destruct (save_counter _ w) as [r w2] eqn:H1.
    pose proof (save_counter_calm _ _ _ _ Hf H1) as Hc.
    destruct r as [c'|e]; intros H; inversion H; subst; (split; [exact Hc|]);
      intros m' Hm'; inversion Hm'; subst; cbn; auto.
  - intros H; inversion H; subst. split; [now apply calm_refl | discriminate].
Qed.



End DraftUpdateEffect.


Lemma draft_update_refuses_other_user_witness :
  status_of (fst (@putMerchantDraftUpdate test_platform update_other_request
                    test_world)) = Some 401
  /\ db (snd (@putMerchantDraftUpdate test_platform update_other_request test_world))
     = db test_world.
Proof.
  apply (@draft_update_refuses_other_user test_platform update_other_request
           test_world user2 merchant1).
  - exact test_keys_unique.
  - reflexivity.
  - reflexivity.
  - reflexivity.
  - cbn. auto.
  - reflexivity.
  - exists 1. split; [reflexivity|]. split; vm_compute; discriminate.
Defined.

(** ** The outcomes of a login *)

Section LoginOutcome.
Context {platform : Platform}.

(** X11.  [POST /users/login] never writes to the database and has three
    outcomes.  A body that fails the schema is answered with 422 and leaves
    no audit record.  Otherwise the attempt leaves exactly one audit record:
    FAILURE with the answer 400 when no user has the address or the password
    does not match, SUCCESS with the answer 200 and the token signed for the
    key and the address of the user found. *)
Theorem login_outcome :
  forall (req : Request) (w : World),
    db (snd (postUserLogin req w)) = db w
    /\ ((LoginFormSchema req = false
         /\ fst (postUserLogin req w)
            = Ok (mkResponse 422 (Message "Invalid credentials"))
         /\ audit_log (snd (postUserLogin req w)) = audit_log w)
        \/ (LoginFormSchema req = true
            /\ login_fails req (db w)
            /\ fst (postUserLogin req w) = Ok invalid_credentials_response
            /\ audit_log (snd (postUserLogin req w))
               = audit_log w ++ [login_audit "FAILURE" "User login failed"])
        \/ (exists user,
              LoginFormSchema req = true
              /\ find_user_by_email (Some (body_email req)) (db w) = Some user
              /\ bcrypt_compare (body_password req) (PortalUserRow.password user)
                 = true
              /\ fst (postUserLogin req w)
                 = Ok (mkResponse 200
                         (LoginSucceeded "Login successful"
                            (jwt_sign (PortalUserRow.id user)
                               (PortalUserRow.email user) (JWT_SECRET process_env))))
              /\ audit_log (snd (postUserLogin req w))
                 = audit_log w ++ [login_audit "SUCCESS" "User login successful"])).
Proof.
  intros req w. unfold postUserLogin, login_fails. unfold_m.
  destruct (LoginFormSchema req) eqn:Hschema; cbn; [|auto 6].
  destruct (find_user_by_email (Some (body_email req)) (db w)) as [user|] eqn:Huser;
    cbn; [|split; [reflexivity|]; right; left; auto].
  destruct (bcrypt_compare (body_password req) (PortalUserRow.password user))
    eqn:Hmatch; cbn; split; try reflexivity; right.
  - right. exists user. auto.
  - left. auto.
Qed.

End LoginOutcome.

(** ** The list of merchants is complete *)

Section ListComplete.
Context {platform : Platform}.

Lemma insert_desc_perm :
  forall r l, Permutation (insert_desc r l) (r :: l).
Proof.
  intros r l. induction l as [|a l IH]; cbn; [reflexivity|].
  destruct (MerchantRow.created_at a <? MerchantRow.created_at r); [reflexivity|].
  rewrite IH. apply perm_swap.
Qed.

Lemma order_desc_perm :
  forall l, Permutation (order_desc l) l.
Proof.
  induction l as [|a l IH]; cbn; [reflexivity|].
  rewrite insert_desc_perm. now constructor.
Qed.

Lemma getMerchants_data :
  forall req w u wc,
    getAuthenticatedPortalUser (authorization req) (db w) = Some u ->
    build_where (query req) (db w) = Ok wc ->
    fst (getMerchants req w)
    = Ok (mkResponse 200
            (MessageList "OK" (listed (db w) (query_rows wc (query req) (db w))))).
Proof.
  intros req w u wc Hauth Hwc. unfold getMerchants. unfold_m. cbn.
  rewrite Hauth, Hwc. cbn. unfold listed. now rewrite map_map.
Qed.





End ListComplete.


(** ** The number of drafts and the list of drafts *)

Section DraftCounts.
Context {platform : Platform}.

Lemma drafts_where :
  forall u q d,
    0 < PortalUserRow.id u ->
    find_user_by_id (PortalUserRow.id u) d <> None ->
    drafts_of_user (PortalUserRow.id u) q ->
    build_where q d
    = Ok (mkWhere (Some (PortalUserRow.id u)) None None
            (Some MerchantRegistrationStatus.DRAFT)).
Proof.
  intros u q d Hpos Hfound (H1 & H2 & H3 & H4 & H5 & _).
  unfold build_where, id_filter, user_filter. rewrite H1, H2, H3, H4, H5.
  unfold valid_id, isNaN, js_gt0. cbn.
  destruct (0 <? PortalUserRow.id u) eqn:Hlt; [|apply Z.ltb_ge in Hlt; lia].
  destruct (find_user_by_id (PortalUserRow.id u) d) as [user|] eqn:Huser;
    [|congruence].
  cbn. now rewrite (find_user_by_id_spec _ _ _ Huser).
Qed.

Lemma drafts_selected :
  forall wc q r,
    nonempty (dbaName q) = None -> nonempty (addedTime q) = None ->
    nonempty (updatedTime q) = None ->
    selected wc q r = satisfies wc r.
Proof.
  intros wc q r H6 H7 H8. unfold selected, name_matches, same_day.
  rewrite H6, H7, H8. now rewrite !andb_true_r.
Qed.

(** X14.  The number [GET /merchants/draft-counts] answers is the length of
    the list that [GET /merchants] answers when it is asked for the drafts
    added by the same user and for nothing else. *)
Theorem draft_count_matches_list :
  forall (req lreq : Request) (w : World) (u lu : PortalUserRow.t),
    getAuthenticatedPortalUser (authorization req) (db w) = Some u ->
    getAuthenticatedPortalUser (authorization lreq) (db w) = Some lu ->
    0 < PortalUserRow.id u ->
    find_user_by_id (PortalUserRow.id u) (db w) <> None ->
    drafts_of_user (PortalUserRow.id u) (query lreq) ->
    exists n data,
      fst (getMerchantDraftCountsByUser req w)
      = Ok (mkCountResponse 200 (CountData "OK" n))
      /\ fst (getMerchants lreq w) = Ok (mkResponse 200 (MessageList "OK" data))
      /\ n = Z.of_nat (List.length data)
      /\ db (snd (getMerchantDraftCountsByUser req w)) = db w.
Proof.
  intros req lreq w u lu Hauth Hlauth Hpos Hfound Hq.
  pose proof (drafts_where u _ (db w) Hpos Hfound Hq) as Hwc.
  destruct Hq as (_ & _ & _ & _ & _ & H6 & H7 & H8).
  eexists. eexists.
  split; [unfold getMerchantDraftCountsByUser; unfold_m; cbn; rewrite Hauth;
          reflexivity|].
  split; [exact (getMerchants_data lreq w lu _ Hlauth Hwc)|].
  split; [|unfold getMerchantDraftCountsByUser; unfold_m; cbn; rewrite Hauth;
           reflexivity].
  unfold getCount, listed, query_rows. rewrite length_map.
  rewrite (Permutation_length (order_desc_perm _)).
  f_equal. f_equal. apply filter_ext. intros r. symmetry.
  now apply drafts_selected.
Qed.

End DraftCounts.

Lemma draft_count_matches_list_witness :
  exists n data,
    fst (@getMerchantDraftCountsByUser test_platform draft_count_request test_world)
    = Ok (mkCountResponse 200 (CountData "OK" n))
    /\ fst (@getMerchants test_platform draft_list_request test_world)
       = Ok (mkResponse 200 (MessageList "OK" data))
    /\ n = Z.of_nat (List.length data)
    /\ db (snd (@getMerchantDraftCountsByUser test_platform draft_count_request
                  test_world)) = db test_world.
Proof.
  apply (@draft_count_matches_list test_platform draft_count_request
           draft_list_request test_world user1 user1).
  - reflexivity.
  - reflexivity.
  - reflexivity.
  - vm_compute. discriminate.
  - vm_compute. repeat split.
Defined.

(** ** The upload of a license document *)

(** X15.  [POST /merchants/:id/upload-license-document] stores nothing and
    never answers with a success: without a file the answer is 400, with a
    file and no such merchant it is 404, and with a file and the merchant
    found the handler sends no response at all; the world is left as it
    was. *)
Theorem upload_license_never_succeeds :
  forall (req : Request) (w : World),
    snd (postUploadLicenseDocument req w) = w
    /\ match fst (postUploadLicenseDocument req w) with
       | Ok (Some resp) =>
           (status resp = 400 /\ file req = None)
           \/ (status resp = 404 /\ file req <> None
               /\ findOne_merchant (mkRelations true false false true)
                    (params_id req) (db w) = None)
       | Ok None =>
           file req <> None
           /\ findOne_merchant (mkRelations true false false true)
                (params_id req) (db w) <> None
       | Throw _ => False
       end.
Proof.
  intros req w. unfold postUploadLicenseDocument. unfold_m.
  destruct (file req) as [f|]; cbn; [|auto].
  destruct (findOne_merchant _ (params_id req) (db w)) as [m|]; cbn.
  - repeat split; discriminate.
  - split; [reflexivity|]. right. repeat split. discriminate.
Qed.

(** ** The level of the logger *)

Lemma putTraceLevel_accepted :
  forall level current,
    snd (putTraceLevel level current)
    = last (accepted_levels [level]) current.
Proof.
  intros [s|] current; unfold putTraceLevel, accepted_levels, includes;
    cbn [flat_map]; [|reflexivity].
  destruct (mem_string s trace_levels); reflexivity.
Qed.

Lemma last_level_default :
  forall (l : list string) a d d', last (a :: l) d = last (a :: l) d'.
Proof.
  induction l as [|b l IH]; intros a d d'; [reflexivity|].
  change (last (b :: l) d = last (b :: l) d'). apply IH.
Qed.

Lemma last_app_default :
  forall (l l' : list string) d, last (l ++ l') d = last l' (last l d).
Proof.
  induction l as [|a l IH]; intros l' d; [reflexivity|].
  destruct l as [|b l].
  - destruct l' as [|c l']; [reflexivity|]. cbn [app last].
    apply last_level_default.
  - change (last ((b :: l) ++ l') d = last l' (last (b :: l) d)). apply IH.
Qed.

(** X16.  After any sequence of requests to [PUT /config/trace-level] the
    level of the logger is the last level of the sequence that is one of the
    seven known levels, or the level from before when there is none; so a
    logger that starts at a known level stays at a known level.  A request
    is answered with 200 when its level is known and with 400 otherwise. *)
Theorem trace_level_is_last_accepted :
  forall (levels : list (option string)) (current : string),
    trace_level_after levels current = last (accepted_levels levels) current
    /\ (In current trace_levels ->
        In (trace_level_after levels current) trace_levels)
    /\ Forall (fun level =>
                 status (fst (putTraceLevel level current))
                 = if includes trace_levels level then 200 else 400) levels.
Proof.
  intros levels current. split; [|split].
  - revert current. induction levels as [|level rest IH]; intros current;
      [reflexivity|].
    cbn [trace_level_after]. rewrite IH, putTraceLevel_accepted.
    assert (Hcons : accepted_levels (level :: rest)
                    = accepted_levels [level] ++ accepted_levels rest)
      by (unfold accepted_levels; cbn [flat_map]; now rewrite app_nil_r).
    now rewrite Hcons, last_app_default.
  - revert current. induction levels as [|level rest IH]; intros current Hin;
      [exact Hin|].
    cbn [trace_level_after]. apply IH. unfold putTraceLevel.
    destruct level as [s|]; unfold includes; [|exact Hin].
    destruct (mem_string s trace_levels) eqn:Hs; [|exact Hin].
    cbn [snd or_else].
    now apply mem_string_In.
  - apply Forall_forall. intros level _. unfold putTraceLevel.
    destruct (includes trace_levels level); reflexivity.
Qed.

(** ** The rows of the table of merchants *)

Lemma or_default_filled :
  forall x d, d <> EmptyString -> TableData.or_default x d <> EmptyString.
Proof.
  intros [[|c s]|] d Hd; cbn; auto; discriminate.
Qed.

(** X17.  A row made by [transformIntoTableData] copies the id, the trading
    name, the merchant type and the registration status of the merchant, and
    shows [N/A] as the name of the DFSP.  Each of the five other cells shows
    its value when that is a string that is not empty, and [N/A] otherwise,
    so none of them is empty: the registered name of the merchant; the alias
    and the description of the first checkout counter, or [N/A] when there is
    no counter; and, of the first location, the country subdivision in the
    cell [state] and the town in the cell [countrySubdivision], or [N/A] when
    there is no location. *)
Theorem table_cells_filled :
  forall (m : TableData.MerchantDetails),
    let row := TableData.transformIntoTableData m in
    TableData.no row = TableData.id m
    /\ TableData.dbaName row = TableData.dba_trading_name m
    /\ TableData.merchantType row = TableData.merchant_type m
    /\ TableData.registrationStatus row = TableData.registration_status m
    /\ TableData.registeredDfspName row = "N/A"
    /\ TableData.cell_shows (TableData.registered_name m) (TableData.registeredName row)
    /\ (forall c rest,
          TableData.checkout_counters m = c :: rest ->
          TableData.cell_shows (TableData.alias_value c) (TableData.payintoAccount row)
          /\ TableData.cell_shows (TableData.description c)
               (TableData.counterDescription row))
    /\ (TableData.checkout_counters m = [] ->
        TableData.payintoAccount row = "N/A"
        /\ TableData.counterDescription row = "N/A")
    /\ (forall l rest,
          TableData.locations m = l :: rest ->
          TableData.cell_shows (TableData.country_subdivision l) (TableData.state row)
          /\ TableData.cell_shows (TableData.town_name l)
               (TableData.countrySubdivision row))
    /\ (TableData.locations m = [] ->
        TableData.state row = "N/A" /\ TableData.countrySubdivision row = "N/A")
    /\ Forall (fun cell => cell <> EmptyString) (TableData.fallback_cells row).
Proof.
  intros m row. subst row.
  assert (Hshows : forall x, TableData.cell_shows x (TableData.or_default x "N/A"))
    by (intros [[|c s]|]; reflexivity).
  repeat (split; [reflexivity|]).
  split; [apply Hshows|].
  split; [intros c rest Hc; cbn; rewrite Hc; split; apply Hshows|].
  split; [intros Hc; cbn; rewrite Hc; auto|].
  split; [intros l rest Hl; cbn; rewrite Hl; split; apply Hshows|].
  split; [intros Hl; cbn; rewrite Hl; auto|].
  unfold TableData.fallback_cells, TableData.transformIntoTableData. cbn.
  repeat constructor; try (apply or_default_filled); discriminate.
Qed.

(** ** The audit trail of the status changes *)

Section AuditTrail.
Context {platform : Platform}.

Lemma db_write_audit {A : Type} (op : Z -> DB -> A * DB) (w w' : World) (out : Res A) :
  db_write op w = (out, w') -> audit_log w' = audit_log w.
Proof.
  intros H.
  destruct (db_write_cases op w) as [(e & fs & _ & Heq) | (fs & _ & Heq)];
    rewrite Heq in H; inversion H; subst; reflexivity.
Qed.

(** X18.  The single approval writes an audit record exactly when it answers
    200, the record of a success; no other answer, whether 400, 401, 404,
    422 or 500, leaves a trace.  [PUT /merchants/:id/registration-status]
    writes no audit record at all. *)
Theorem approve_audit :
  forall (req : Request) (w : World),
    (status_of (fst (putWaitingAliasGeneration req w)) = Some 200 ->
     audit_log (snd (putWaitingAliasGeneration req w))
     = audit_log w ++ [approve_audit_entry])
    /\ (status_of (fst (putWaitingAliasGeneration req w)) <> Some 200 ->
        audit_log (snd (putWaitingAliasGeneration req w)) = audit_log w)
    /\ audit_log (snd (putRegistrationStatus req w)) = audit_log w.
Proof.
  intros req w.
  assert (Happrove :
    (status_of (fst (putWaitingAliasGeneration req w)) = Some 200
     /\ audit_log (snd (putWaitingAliasGeneration req w))
        = audit_log w ++ [approve_audit_entry])
    \/ (status_of (fst (putWaitingAliasGeneration req w)) <> Some 200
        /\ audit_log (snd (putWaitingAliasGeneration req w)) = audit_log w)).
  { unfold putWaitingAliasGeneration, putWaitingAliasGeneration_try. unfold_m. cbn.
    destruct (getAuthenticatedPortalUser _ _) as [u|]; cbn;
      [|right; split; [discriminate|reflexivity]].
    destruct (params_id req) as [|n]; cbn;
      [right; split; [discriminate|reflexivity]|].
    destruct (find_merchant_row n (db w)) as [row|]; cbn;
      [|right; split; [discriminate|reflexivity]].
    destruct (MerchantEntity.created_by _) as [creator|]; cbn;
      [|right; split; [discriminate|reflexivity]].
    destruct (PortalUserRow.id u =? PortalUserEntity.id creator); cbn;
      [right; split; [discriminate|reflexivity]|].
    destruct (negb _); cbn; [right; split; [discriminate|reflexivity]|].
    destruct (save_merchant _ w) as [saved w1] eqn:Hsave.
    apply db_write_audit in Hsave.
    destruct saved as [m1|e]; [|destruct e]; cbn; rewrite ?Hsave;
      try (left; split; reflexivity).
    right. split; [discriminate|reflexivity]. }
  split; [|split].
  - intros H200. destruct Happrove as [[_ H]|[H _]]; [exact H | contradiction].
  - intros Hnot. destruct Happrove as [[H _]|[_ H]]; [contradiction | exact H].
  - unfold putRegistrationStatus, putRegistrationStatus_try. unfold_m. cbn.
    destruct (token_portal_user req (db w)) as [pu|]; cbn; [|reflexivity].
    destruct (params_id req) as [|n]; cbn; [reflexivity|].
    destruct (nativeEnum_parse _); cbn; [|reflexivity].
    destruct (find_merchant_row n (db w)) as [row|]; cbn; [|reflexivity].
    destruct pu as [u|]; cbn; [|reflexivity].
    destruct (MerchantEntity.created_by _) as [creator|]; cbn; [|reflexivity].
    destruct (PortalUserEntity.id creator =? PortalUserRow.id u); cbn; [reflexivity|].
    destruct (save_merchant _ w) as [saved w1] eqn:Hsave.
    apply db_write_audit in Hsave.
    destruct saved as [m1|e]; [|destruct e]; cbn; exact Hsave.
Qed.

(** X19.  An authenticated bulk approval whose [ids] is an array leaves
    exactly one audit record, and that record reports a success exactly when
    the answer is 200. *)
Theorem bulk_approve_audit :
  forall (req : Request) (w : World) (u : PortalUserRow.t) (ids : list JsNumber),
    getAuthenticatedPortalUser (authorization req) (db w) = Some u ->
    body_ids req = Some ids ->
    exists resp entry,
      fst (putBulkWaitingAliasGeneration req w) = Ok resp
      /\ audit_log (snd (putBulkWaitingAliasGeneration req w))
         = audit_log w ++ [entry]
      /\ action_type entry = "UPDATE"
      /\ audit_source entry = "putBulkApprove"
      /\ (transaction_status entry = "SUCCESS" <-> status resp = 200).
Proof.
  intros req w u ids Hauth Hids.
  unfold putBulkWaitingAliasGeneration. unfold_m. cbn. rewrite Hauth, Hids.
  destruct (existsb invalid_id ids); cbn.
  { eexists. eexists. split; [reflexivity|]. split; [reflexivity|]. cbn.
    repeat split; discriminate. }
  destruct (negb _); cbn.
  { eexists. eexists. split; [reflexivity|]. split; [reflexivity|]. cbn.
    repeat split; discriminate. }
  unfold bulk_update.
  match goal with |- context [db_write ?op w] =>
    destruct (db_write op w) as [saved w1] eqn:Hsave
  end.
  apply db_write_audit in Hsave.
  destruct saved as [[]|e]; cbn; rewrite Hsave;
    eexists; eexists; (split; [reflexivity|]); (split; [reflexivity|]); cbn;
    repeat split; try discriminate; reflexivity.
Qed.

End AuditTrail.

Lemma bulk_approve_audit_witness :
  exists resp entry,
    fst (@putBulkWaitingAliasGeneration test_platform bulk_once_request test_world)
    = Ok resp
    /\ audit_log (snd (@putBulkWaitingAliasGeneration test_platform bulk_once_request
                         test_world))
       = audit_log test_world ++ [entry]
    /\ action_type entry = "UPDATE"
    /\ audit_source entry = "putBulkApprove"
    /\ (transaction_status entry = "SUCCESS" <-> status resp = 200).
Proof.
  apply (@bulk_approve_audit test_platform bulk_once_request test_world user2
           [Num 2]).
  - reflexivity.
  - reflexivity.
Defined.

(** ** Aliases are not kept unique *)

Section Rename.
Context {platform : Platform}.

Arguments delete_licenses_of : simpl never.
Arguments update_counter : simpl never.

Lemma save_license_claims_eq :
  forall l w out w1,
    save_license l w = (out, w1) ->
    map claim (checkout_counters (db w1)) = map claim (checkout_counters (db w)).
Proof.
  intros l w out w1 H. pose proof (save_license_claims l w) as H'.
  now rewrite H in H'.
Qed.

Lemma save_licenses_claims :
  forall l w out w1,
    save_licenses l w = (out, w1) ->
    map claim (checkout_counters (db w1)) = map claim (checkout_counters (db w)).
Proof.
  induction l as [|[number link] rest IH]; intros w out w1; cbn; unfold_m.
  - intros H. now inversion H.
  - destruct (save_license _ w) as [r1 w2] eqn:H1.
    apply save_license_claims_eq in H1.
    destruct r1 as [l1|e]; [|intros H; inversion H; subst; exact H1].
    destruct (save_licenses rest w2) as [r2 w3] eqn:H2.
    apply IH in H2.
    destruct r2 as [ls|e]; intros H; inversion H; subst; congruence.
Qed.

Arguments save_licenses : simpl never.

Lemma update_counter_renames :
  forall m req w a c rest out w1,
    faults w = [] ->
    given_alias (body req) = Some a ->
    MerchantEntity.checkout_counters m
    = Some (CheckoutCounterEntity.of_row c :: rest) ->
    update_counter m req w = (out, w1) ->
    (exists m', out = Ok (inr m'))
    /\ map claim (checkout_counters (db w1))
       = renamed_claims (CheckoutCounterRow.id c) a (db w).
Proof.
  intros m req w a c rest out w1 Hf Halias Hcounters.
  unfold update_counter. unfold_m. rewrite Halias, Hcounters.
  unfold save_counter. cbn [CheckoutCounterEntity.id CheckoutCounterEntity.of_row
    CheckoutCounterEntity.set_alias_value].
  rewrite (db_write_quiet _ _ Hf).
  intros H. inversion H; subst out w1. clear H. split; [eauto|].
  cbn [db]. unfold store_counter, renamed_claims. cbn.
  rewrite map_map. apply map_ext. intros k.
  destruct (CheckoutCounterRow.id k =? CheckoutCounterRow.id c); reflexivity.
Qed.

(** X21.  [PUT /merchants/draft/:id/update] does not look the alias up when
    the merchant has a checkout counter: the creator's request, when no write
    fails, is answered with 200 and the first counter of the merchant takes
    the alias of the body, while every other counter keeps its alias, also
    one that carries that same alias. *)
Theorem draft_update_renames_unchecked :
  forall (req : Request) (w : World) (u : PortalUserRow.t) (old : MerchantRow.t)
         (a : string) (c : CheckoutCounterRow.t) (rest : list CheckoutCounterRow.t)
         (submitted : list (option string * option string)),
    faults w = [] ->
    token_portal_user req (db w) = Some (Some u) ->
    MerchantSubmitDataSchema (body req) = true ->
    nativeEnum_parse (body_registration_status (body req)) = true ->
    params_id req = Num (MerchantRow.id old) ->
    find_merchant_row (MerchantRow.id old) (db w) = Some old ->
    MerchantRow.created_by old = Some (PortalUserRow.id u) ->
    find_user_by_id (PortalUserRow.id u) (db w) <> None ->
    given_alias (body req) = Some a ->
    counters_of (MerchantRow.id old) (db w) = c :: rest ->
    body_business_licenses (body req) = Some submitted ->
    status_of (fst (putMerchantDraftUpdate req w)) = Some 200
    /\ map claim (checkout_counters (db (snd (putMerchantDraftUpdate req w))))
       = renamed_claims (CheckoutCounterRow.id c) a (db w).
Proof.
  intros req w u old a c rest submitted Hf Hauth Hschema Henum Hparam Hold Hcb Huser
    Halias Hcounters Hsub.
  destruct (putMerchantDraftUpdate req w) as [out w'] eqn:Hrun. cbn [fst snd].
  revert Hrun.
  unfold putMerchantDraftUpdate, putMerchantDraftUpdate_try. unfold_m. cbn.
  rewrite Hauth, Hschema. cbn. rewrite Hparam. cbn. rewrite Henum. cbn.
  rewrite Hold. cbn. unfold load_merchant at 1. cbn. rewrite Hcb.
  destruct (load_user (Some (PortalUserRow.id u)) (db w)) as [creator|] eqn:Hload;
    [|exfalso; unfold load_user in Hload;
      destruct (find_user_by_id (PortalUserRow.id u) (db w)); [discriminate|congruence]].
  rewrite (load_user_id _ _ _ Hload), Z.eqb_refl. cbn.
  destruct (update_counter _ req w) as [step w1] eqn:H1.
  destruct (update_counter_calm _ _ _ _ _ Hf H1) as [Hc1 _].
  eapply update_counter_renames in H1; [|exact Hf|exact Halias|];
    [|unfold load_merchant; cbn; rewrite Hcounters; reflexivity].
  destruct H1 as ((m1 & ->) & Hclaims1).
  destruct (delete_licenses_of _ w1) as [r2 w2] eqn:H2.
  destruct (delete_licenses_calm _ _ _ _ (proj1 (proj2 Hc1)) H2) as [Hc2 ->].
  assert (Hclaims2 : checkout_counters (db w2) = checkout_counters (db w1))
    by (unfold delete_licenses_of in H2; inversion H2; reflexivity).
  rewrite Hsub.
  destruct (save_licenses submitted w2) as [r3 w3] eqn:H3.
  destruct (save_licenses_calm _ _ _ _ (proj1 (proj2 Hc2)) H3) as [Hc3 (ls & ->)].
  apply save_licenses_claims in H3.
  match goal with |- context [save_merchant ?m3 w3] =>
    pose proof (save_merchant_claims m3 w3) as [Hclaims4 _];
    destruct (save_merchant m3 w3) as [[m4|e] w4] eqn:H4
  end; cycle 1.
  { unfold save_merchant in H4.
    rewrite (db_write_quiet _ _ (proj1 (proj2 Hc3))) in H4. discriminate. }
  cbn in Hclaims4 |- *. intros H.
  assert (Hout : out = Ok (mkResponse 200
                             (MessageData "Status Updated"
                                (MerchantEntity.set_checked_by None
                                   (MerchantEntity.set_created_by None m4))))
                 /\ w' = w4)
    by (inversion H; split; reflexivity).
  destruct Hout as [-> ->]. split; [reflexivity|].
  rewrite Hclaims4, H3, Hclaims2. exact Hclaims1.
Qed.

End Rename.

Lemma draft_update_renames_unchecked_witness :
  status_of (fst (@putMerchantDraftUpdate test_platform rename_request test_world))
  = Some 200
  /\ map claim
       (checkout_counters
          (db (snd (@putMerchantDraftUpdate test_platform rename_request test_world))))
     = renamed_claims (CheckoutCounterRow.id counter1) "alias-b" (db test_world).
Proof.
  apply (@draft_update_renames_unchecked test_platform rename_request test_world
           user1 merchant1 "alias-b" counter1 [] []).
  - reflexivity.
  - reflexivity.
  - reflexivity.
  - reflexivity.
  - reflexivity.
  - reflexivity.
  - reflexivity.
  - vm_compute. discriminate.
  - reflexivity.
  - reflexivity.
  - reflexivity.
Defined.

(** ** Merchants are never deleted *)

Lemma has_merchant_kept_by_writes :
  forall i, kept_by_writes (has_merchant i).
Proof.
  intros i. constructor; unfold has_merchant; intros; auto.
  - unfold store_merchant. cbn.
    destruct (match MerchantEntity.id m with
              | Some k => find_merchant_row k d
              | None => None
              end).
    + rewrite map_map. apply in_map_iff in H. destruct H as (r & Hid & Hr).
      apply in_map_iff. exists r. split; [|exact Hr].
      destruct (MerchantRow.id r =? _) eqn:E; [|exact Hid].
      apply Z.eqb_eq in E. cbn. congruence.
    + rewrite map_app, in_app_iff. now left.
  - unfold store_license. destruct (BusinessLicenseEntity.id l); cbn; auto.
  - unfold bulk_approved. cbn. rewrite map_map.
    apply in_map_iff in H. destruct H as (r & Hid & Hr).
    apply in_map_iff. exists r. split; [|exact Hr].
    now destruct (In_ids ids (MerchantRow.id r)).
Qed.

(** X22.  No endpoint deletes a merchant: a key of the table of merchants
    before a request is a key of the table after it. *)
Theorem endpoints_never_delete_merchants :
  forall (platform : Platform) (e : Endpoint) (req : Request) (w : World) (i : Z),
    has_merchant i (db w) -> has_merchant i (db (snd (endpoint e req w))).
Proof.
  intros platform e req w i.
  apply (keeps_endpoint (has_merchant i) (has_merchant_kept_by_writes i) e req w).
Qed.

Lemma endpoints_never_delete_merchants_witness :
  has_merchant 1
    (db (snd (@endpoint test_platform (ViewEndpoint DraftUpdate) take_over_request
                test_world))).
Proof.
  apply (@endpoints_never_delete_merchants test_platform (ViewEndpoint DraftUpdate)
           take_over_request test_world 1).
  unfold has_merchant. cbn. auto.
Defined.
